(** * ZNews crawler: link collection, date parsing and article crawling

    A shallow embedding of [src/utils.py], [src/link_collector.py],
    [src/article_crawler.py] and [config/config.py].

    Python [str] values are modelled as [string] (code points 0..255),
    Python [int] as [Z], [set] as [gset], the file system as a [gmap] from
    paths to file contents.  Calls that may raise return a [result]. *)

From Stdlib Require Import ZArith Lia Bool Ascii String.
From stdpp Require Import base option list gmap strings pretty.

Set Warnings "-clear-no-such-hyp".

Open Scope string_scope.
Open Scope Z_scope.

(** ** Exceptions and results *)

(** The exception classes the program meets: those of Python the
    parsers and the file functions raise, and those of the driver,
    where [WebDriverException] stands for any driver error other than
    [NoSuchElementException]. *)
Inductive exn :=
  | ValueError
  | IndexError
  | OverflowError
  | OSError
  | NoSuchElementException
  | WebDriverException.

#[global] Instance exn_eq_dec : EqDecision exn.
Proof. solve_decision. Defined.

Inductive result (A : Type) :=
  | Ok (a : A)
  | Raise (e : exn).
Arguments Ok {A} a.
Arguments Raise {A} e.

#[global] Instance result_ret : MRet result := fun A a => Ok a.

#[global] Instance result_bind : MBind result := fun A B k r =>
  match r with
  | Ok a => k a
  | Raise e => Raise e
  end.

(** [try: r except cls: h] for a handler that catches the exceptions
    selected by [cls]. *)
Definition try_except {A} (r : result A) (cls : exn -> bool)
    (h : exn -> result A) : result A :=
  match r with
  | Ok a => Ok a
  | Raise e => if cls e then h e else Raise e
  end.

(** [except Exception]: every exception of this model derives from it. *)
Definition any_Exception (e : exn) : bool := true.

Definition is_NoSuchElement (e : exn) : bool :=
  match e with NoSuchElementException => true | _ => false end.

Definition is_ValueError (e : exn) : bool :=
  match e with ValueError => true | _ => false end.

Definition is_ValueError_or_IndexError (e : exn) : bool :=
  match e with ValueError | IndexError => true | _ => false end.

(** ** Python string primitives *)

Module Py.

Definition LF : ascii := ascii_of_nat 10.
Definition CR : ascii := ascii_of_nat 13.

Definition code (c : ascii) : Z := Z.of_nat (nat_of_ascii c).

(** [str.isspace] on one character, for code points below 256. *)
Definition isspace (c : ascii) : bool :=
  let n := code c in
  ((9 <=? n) && (n <=? 13)) || ((28 <=? n) && (n <=? 32))
  || (n =? 133) || (n =? 160).

(** The blanks that [int()] skips around a literal: as [isspace], but
    without the separators 28..31. *)
Definition int_space (c : ascii) : bool :=
  let n := code c in
  ((9 <=? n) && (n <=? 13)) || (n =? 32) || (n =? 133) || (n =? 160).

Definition is_digit (c : ascii) : bool :=
  let n := code c in (48 <=? n) && (n <=? 57).

Definition digit_value (c : ascii) : Z := code c - 48.

(** Truthiness of a [str]. *)
Definition truthy (s : string) : bool :=
  match s with
  | EmptyString => false
  | String _ _ => true
  end.

Fixpoint lstrip_by (sp : ascii -> bool) (s : string) : string :=
  match s with
  | EmptyString => EmptyString
  | String c r => if sp c then lstrip_by sp r else s
  end.

Fixpoint rstrip_by (sp : ascii -> bool) (s : string) : string :=
  match s with
  | EmptyString => EmptyString
  | String c r =>
      match rstrip_by sp r with
      | EmptyString => if sp c then EmptyString else String c EmptyString
      | r' => String c r'
      end
  end.

Definition strip_by (sp : ascii -> bool) (s : string) : string :=
  rstrip_by sp (lstrip_by sp s).

(** [s.strip()] *)
Definition strip (s : string) : string := strip_by isspace s.

(** [s.split(sep)] for a one-character separator. *)
Fixpoint split (sep : ascii) (s : string) : list string :=
  match s with
  | EmptyString => [EmptyString]
  | String c r =>
      if Ascii.eqb c sep then EmptyString :: split sep r
      else match split sep r with
           | [] => [String c EmptyString]
           | p :: ps => String c p :: ps
           end
  end.

(** [sep.join(parts)] *)
Fixpoint join (sep : string) (parts : list string) : string :=
  match parts with
  | [] => EmptyString
  | [p] => p
  | p :: ps => p +:+ sep +:+ join sep ps
  end.

Fixpoint all_chars (p : ascii -> bool) (s : string) : bool :=
  match s with
  | EmptyString => true
  | String c r => p c && all_chars p r
  end.

(** *** [int(s)] for a [str] argument, base 10 *)

(** Digits with single underscores between them; the accumulator carries
    the value read so far and the number of digits. *)
Fixpoint int_digits (s : string) (acc : Z) (n : Z) (prev_digit : bool)
    : option (Z * Z) :=
  match s with
  | EmptyString => if prev_digit then Some (acc, n) else None
  | String c r =>
      if is_digit c then int_digits r (10 * acc + digit_value c) (n + 1) true
      else if Ascii.eqb c "_" then
        if prev_digit then int_digits r acc n false else None
      else None
  end.

Definition MAX_STR_DIGITS : Z := 4300.

Definition int_literal (s : string) : result Z :=
  let '(neg, body) :=
    match s with
    | String "-" r => (true, r)
    | String "+" r => (false, r)
    | _ => (false, s)
    end in
  match body with
  | EmptyString => Raise ValueError
  | String c _ =>
      if is_digit c then
        match int_digits body 0 0 false with
        | Some (v, n) =>
            if MAX_STR_DIGITS <? n then Raise ValueError
            else Ok (if neg then - v else v)
        | None => Raise ValueError
        end
      else Raise ValueError
  end.

Definition int (s : string) : result Z :=
  int_literal (strip_by int_space s).

End Py.

(** ** The [datetime] library, as far as the parsers use it *)

Module Datetime.

Record datetime := mk_datetime {
  year : Z;
  month : Z;
  day : Z;
  hour : Z;
  minute : Z;
  second : Z;
  microsecond : Z;
  (** [utcoffset] in microseconds, [None] for a naive value *)
  tzinfo : option Z
}.

Definition MINYEAR : Z := 1.
Definition MAXYEAR : Z := 9999.

Definition is_leap (y : Z) : bool :=
  (y mod 4 =? 0) && (negb (y mod 100 =? 0) || (y mod 400 =? 0)).

Definition days_in_month (y m : Z) : Z :=
  if m =? 2 then (if is_leap y then 29 else 28)
  else if (m =? 4) || (m =? 6) || (m =? 9) || (m =? 11) then 30
  else 31.

(** The constructor reads its numeric arguments as C [int]s. *)
Definition fits_c_int (z : Z) : bool :=
  (-2147483648 <=? z) && (z <=? 2147483647).

Definition valid_date (y m d : Z) : bool :=
  (MINYEAR <=? y) && (y <=? MAXYEAR) && (1 <=? m) && (m <=? 12)
  && (1 <=? d) && (d <=? days_in_month y m).

Definition valid_time (h mi s us : Z) : bool :=
  (0 <=? h) && (h <=? 23) && (0 <=? mi) && (mi <=? 59)
  && (0 <=? s) && (s <=? 59) && (0 <=? us) && (us <=? 999999).

(** [datetime(year, month, day, hour, minute, second, microsecond, tzinfo)]:
    an argument outside the C [int] range is an [OverflowError], a field
    out of its calendar range a [ValueError]. *)
Definition new (y m d h mi s us : Z) (tz : option Z) : result datetime :=
  if forallb fits_c_int [y; m; d; h; mi; s; us] then
    if valid_date y m d && valid_time h mi s us
    then Ok (mk_datetime y m d h mi s us tz)
    else Raise ValueError
  else Raise OverflowError.

(** [timezone(timedelta(seconds=gmtoff, microseconds=frac))]: the offset
    must lie strictly between minus and plus 24 hours. *)
Definition timezone (gmtoff frac : Z) : result Z :=
  let delta := gmtoff * 1000000 + frac in
  if (- 86400000000 <? delta) && (delta <? 86400000000)
  then Ok delta else Raise ValueError.

(** *** The regular expressions of [_strptime] *)

Inductive re :=
  | Chr (c : ascii)            (** a literal, matched under IGNORECASE *)
  | ChrCase (c : ascii)        (** [(?-i:c)] *)
  | Range (lo hi : ascii)      (** [[lo-hi]] *)
  | Cat (r1 r2 : re)
  | Alt (r1 r2 : re)
  | Opt (r : re).

Definition lower (c : ascii) : ascii :=
  let n := Py.code c in
  if (65 <=? n) && (n <=? 90) then ascii_of_nat (Z.to_nat (n + 32)) else c.

(** All the ways [r] matches a prefix of [s], as (matched text, rest), in
    the order a backtracking matcher tries them. *)
Fixpoint run (r : re) (s : string) : list (string * string) :=
  match r with
  | Chr c =>
      match s with
      | String c' s' =>
          if Ascii.eqb (lower c') (lower c) then [(String c' "", s')] else []
      | EmptyString => []
      end
  | ChrCase c =>
      match s with
      | String c' s' => if Ascii.eqb c' c then [(String c' "", s')] else []
      | EmptyString => []
      end
  | Range lo hi =>
      match s with
      | String c' s' =>
          if (Py.code lo <=? Py.code c') && (Py.code c' <=? Py.code hi)
          then [(String c' "", s')] else []
      | EmptyString => []
      end
  | Cat r1 r2 =>
      '(t1, s1) ← run r1 s;
      '(t2, s2) ← run r2 s1;
      [(t1 +:+ t2, s2)]
  | Alt r1 r2 => run r1 s ++ run r2 s
  | Opt r1 => run r1 s ++ [("", s)]
  end.

Declare Scope re_scope.
Delimit Scope re_scope with re.
Bind Scope re_scope with re.
Notation "r1 '·' r2" := (Cat r1 r2)
  (at level 40, left associativity) : re_scope.
Notation "r1 '∣' r2" := (Alt r1 r2)
  (at level 50, left associativity) : re_scope.

(** [\d]: on code points below 256 the decimal digits are [0-9]. *)
Definition d : re := Range "0" "9".

(** [\d{1,6}] *)
Definition d1_6 : re :=
  (d · Opt (d · Opt (d · Opt (d · Opt (d · Opt d)))))%re.

(** The table of [TimeRE.__init__], for the directives that occur in the
    formats of this program. *)
Definition directive (c : ascii) : option re :=
  if Ascii.eqb c "Y" then Some (d · d · d · d)%re
  else if Ascii.eqb c "m" then
    Some (Chr "1" · Range "0" "2" ∣ Chr "0" · Range "1" "9"
          ∣ Range "1" "9")%re
  else if Ascii.eqb c "d" then
    Some (Chr "3" · Range "0" "1" ∣ Range "1" "2" · d
          ∣ Chr "0" · Range "1" "9" ∣ Range "1" "9"
          ∣ Chr " " · Range "1" "9")%re
  else if Ascii.eqb c "H" then
    Some (Chr "2" · Range "0" "3" ∣ Range "0" "1" · d ∣ d)%re
  else if Ascii.eqb c "M" then
    Some (Range "0" "5" · d ∣ d)%re
  else if Ascii.eqb c "S" then
    Some (Chr "6" · Range "0" "1" ∣ Range "0" "5" · d ∣ d)%re
  else if Ascii.eqb c "z" then
    Some ((Chr "+" ∣ Chr "-") · d · d · Opt (Chr ":")
            · Range "0" "5" · d
            · Opt (Opt (Chr ":") · Range "0" "5" · d
                    · Opt (Chr "." · d1_6))
          ∣ ChrCase "Z")%re
  else None.

Inductive item :=
  | Literal (c : ascii)
  | Group (name : ascii) (r : re).

(** [TimeRE.pattern]: a directive becomes its named group, any other
    character of the format stands for itself (the formats used here
    have no blanks and no regex metacharacters).  [None] is a bad
    directive or a stray [%]. *)
Fixpoint pattern (fmt : string) : option (list item) :=
  match fmt with
  | EmptyString => Some []
  | String c rest =>
      if Ascii.eqb c "%" then
        match rest with
        | String k rest' =>
            r ← directive k; items ← pattern rest'; Some (Group k r :: items)
        | EmptyString => None
        end
      else items ← pattern rest; Some (Literal c :: items)
  end.

(** The matches of a compiled format against a prefix of [s], with the
    text of each group, in the matcher's order. *)
Fixpoint match_items (items : list item) (s : string)
    : list (list (ascii * string) * string) :=
  match items with
  | [] => [([], s)]
  | Literal c :: items' =>
      '(_, s1) ← run (Chr c) s; match_items items' s1
  | Group k r :: items' =>
      '(t, s1) ← run r s;
      '(groups, s2) ← match_items items' s1;
      [((k, t) :: groups, s2)]
  end.

Fixpoint lookup_group (k : ascii) (groups : list (ascii * string))
    : option string :=
  match groups with
  | [] => None
  | (k', t) :: rest => if Ascii.eqb k' k then Some t else lookup_group k rest
  end.

(** [s[a:b]] and [s[a:]] *)
Definition slice (a b : nat) (s : string) : string :=
  String.substring a (b - a) s.
Definition slice_from (a : nat) (s : string) : string :=
  String.substring a (String.length s - a) s.

Definition char_at (i : nat) (s : string) (c : ascii) : bool :=
  match String.get i s with
  | Some c' => Ascii.eqb c' c
  | None => false
  end.

Fixpoint zeros (n : nat) : string :=
  match n with
  | O => ""
  | S n' => String "0" (zeros n')
  end.

(** The [%z] branch of [_strptime]: the offset in seconds and its
    fraction in microseconds. *)
Definition parse_z (z : string) : result (Z * Z) :=
  if String.eqb z "Z" then Ok (0, 0)
  else
    z ← (if char_at 3 z ":" then
           let z := slice 0 3 z +:+ slice_from 4 z in
           if (5 <? String.length z)%nat then
             if char_at 5 z ":" then Ok (slice 0 5 z +:+ slice_from 6 z)
             else Raise ValueError
           else Ok z
         else Ok z);
    hours ← Py.int (slice 1 3 z);
    minutes ← Py.int (slice 3 5 z);
    seconds ← (if Py.truthy (slice 5 7 z) then Py.int (slice 5 7 z)
               else Ok 0);
    let gmtoff := hours * 60 * 60 + minutes * 60 + seconds in
    let remainder := slice_from 8 z in
    fraction ← Py.int
      (remainder +:+ zeros (6 - String.length remainder));
    if char_at 0 z "-" then Ok (- gmtoff, - fraction)
    else Ok (gmtoff, fraction).

Definition group_int (k : ascii) (groups : list (ascii * string))
    (default : Z) : result Z :=
  match lookup_group k groups with
  | Some t => Py.int t
  | None => Ok default
  end.

(** [datetime.strptime(data_string, format)] *)
Definition strptime (data_string format : string) : result datetime :=
  match pattern format with
  | None => Raise ValueError
  | Some items =>
      match match_items items data_string with
      | [] => Raise ValueError
      | (groups, rest) :: _ =>
          if Py.truthy rest then Raise ValueError
          else
            y ← group_int "Y" groups 1900;
            m ← group_int "m" groups 1;
            dd ← group_int "d" groups 1;
            h ← group_int "H" groups 0;
            mi ← group_int "M" groups 0;
            s ← group_int "S" groups 0;
            tz ← match lookup_group "z" groups with
                 | Some z =>
                     '(gmtoff, frac) ← parse_z z;
                     Ok (Some (gmtoff, frac))
                 | None => Ok None
                 end;
            (* julian = datetime_date(year, month, day).toordinal() - ... *)
            _ ← new y m dd 0 0 0 0 None;
            match tz with
            | Some (gmtoff, frac) =>
                off ← timezone gmtoff frac;
                new y m dd h mi s 0 (Some off)
            | None => new y m dd h mi s 0 None
            end
      end
  end.

End Datetime.

(** ** [config/config.py] *)

Module Config.

Definition MAX_SCROLLS : Z := 50.
Definition TARGET_YEAR : Z := 2024.
Definition MAX_ARTICLES : Z := 200.
Definition START_COUNT : Z := 0.

(** [Path.__truediv__] *)
Definition path_join (dir name : string) : string := dir +:+ "/" +:+ name.

Section Paths.
(** [Path(__file__).parent.parent], fixed by where the program is
    installed. *)
Variable BASE_DIR : string.

Definition DATA_DIR : string := path_join BASE_DIR "data".
Definition LINKS_DIR : string := path_join DATA_DIR "links".
Definition ARTICLES_DIR : string := path_join DATA_DIR "articles".
End Paths.

(** The values a configuration dictionary holds. *)
Inductive pyval :=
  | PyBool (b : bool)
  | PyStr (s : string).

(** Truthiness, and [str(v)] as an f-string prints it. *)
Definition truthy_val (v : pyval) : bool :=
  match v with
  | PyBool b => b
  | PyStr s => Py.truthy s
  end.

Definition str_val (v : pyval) : string :=
  match v with
  | PyBool true => "True"
  | PyBool false => "False"
  | PyStr s => s
  end.

Definition CHROME_OPTIONS : gmap string pyval :=
  {[ "headless" := PyBool true;
     "disable_gpu" := PyBool true;
     "no_sandbox" := PyBool true;
     "window_size" := PyStr "1920,1080" ]}.

Definition ZNEWS_URLS : gmap string string :=
  {[ "bong_da" := "https://znews.vn/bong-da-viet-nam.html";
     "giao_duc" := "https://lifestyle.znews.vn/giao-duc.html";
     "phap_luat" := "https://zingnews.vn/phap-luat.html" ]}.

End Config.

(** ** Text files *)

Module Disk.

(** What [os.linesep] is. *)
Inductive platform := Posix | Windows.

(** The data files of the program: the links files and the article
    records.  Directories and the log file are outside the model. *)
Record disk := mk_disk {
  os : platform;
  (** the text stored under each path *)
  files : gmap string string;
  (** paths that cannot be opened for writing *)
  unwritable : gset string
}.

Definition linesep (p : platform) : string :=
  match p with
  | Posix => String Py.LF ""
  | Windows => String Py.CR (String Py.LF "")
  end.

(** Text mode, writing: each line feed is stored as [os.linesep]. *)
Fixpoint translate_out (p : platform) (s : string) : string :=
  match s with
  | EmptyString => EmptyString
  | String c r =>
      if Ascii.eqb c Py.LF then linesep p +:+ translate_out p r
      else String c (translate_out p r)
  end.

(** Text mode, reading (universal newlines): CR LF and a lone CR are
    read as a line feed. *)
Fixpoint translate_in (s : string) : string :=
  match s with
  | EmptyString => EmptyString
  | String c r =>
      if Ascii.eqb c Py.CR then
        match r with
        | String c' r' =>
            if Ascii.eqb c' Py.LF then String Py.LF (translate_in r')
            else String Py.LF (translate_in r)
        | EmptyString => String Py.LF EmptyString
        end
      else String c (translate_in r)
  end.

(** [open(path, 'w').write(text)], the file closed afterwards *)
Definition write_text (dk : disk) (path text : string) : result disk :=
  if decide (path ∈ unwritable dk) then Raise OSError
  else Ok (mk_disk (os dk) (<[path := translate_out (os dk) text]> (files dk))
                   (unwritable dk)).

(** [open(path, 'r').read()] *)
Definition read_text (dk : disk) (path : string) : result string :=
  match files dk !! path with
  | Some stored => Ok (translate_in stored)
  | None => Raise OSError
  end.

(** [f.readlines()] on the text of a file: the lines, each with its line
    feed. *)
Fixpoint readlines (s : string) : list string :=
  match s with
  | EmptyString => []
  | String c r =>
      if Ascii.eqb c Py.LF then String c EmptyString :: readlines r
      else match readlines r with
           | [] => [String c EmptyString]
           | l :: ls => String c l :: ls
           end
  end.

End Disk.

(** ** [src/utils.py] *)

Module Utils.
Import Datetime.

Definition parse_date_from_text (date_text : string)
    : result (option datetime) :=
  try_except
    (let parts := Py.split "/" date_text in
     match parts with
     | [day; month; year] =>
         y ← Py.int year;
         m ← Py.int month;
         dd ← Py.int day;
         dt ← Datetime.new y m dd 0 0 0 0 None;
         Ok (Some dt)
     | _ => Ok None
     end)
    is_ValueError_or_IndexError
    (fun _ => Ok None).

Definition parse_iso_date (date_str : string) : result (option datetime) :=
  try_except
    (dt ← strptime date_str "%Y-%m-%dT%H:%M:%S%z"; Ok (Some dt))
    is_ValueError
    (fun _ =>
       try_except
         (dt ← strptime date_str "%Y-%m-%d"; Ok (Some dt))
         is_ValueError
         (fun _ => Ok None)).

(** Directories are not part of the disk model. *)
Definition ensure_dir_exists (dk : Disk.disk) (directory : string)
    : Disk.disk := dk.

Definition save_links_to_file (links : list string) (filepath : string)
    (dk : Disk.disk) : result Disk.disk :=
  Disk.write_text dk filepath
    (String.concat "" (map (fun link => link +:+ String Py.LF "") links)).

Definition read_links_from_file (filepath : string) (dk : Disk.disk)
    : result (list string) :=
  text ← Disk.read_text dk filepath;
  Ok (map Py.strip
        (filter (fun line => Py.truthy (Py.strip line) = true)
                (Disk.readlines text))).

(** The arguments [create_driver] puts on the Chrome [Options], for a
    configuration dictionary [chrome_options]; launching the browser
    itself is outside the model. *)
Definition chrome_arguments (chrome_options : gmap string Config.pyval)
    (headless : bool) : list string :=
  let get (key : string) (dflt : Config.pyval) : Config.pyval :=
    default dflt (chrome_options !! key) in
  ((if headless || Config.truthy_val (get "headless" (Config.PyBool true))
    then ["--headless"] else [])
   ++ (if Config.truthy_val (get "disable_gpu" (Config.PyBool true))
       then ["--disable-gpu"] else [])
   ++ (if Config.truthy_val (get "no_sandbox" (Config.PyBool true))
       then ["--no-sandbox"] else [])
   ++ (match chrome_options !! "window_size" with
       | Some v => ["--window-size=" +:+ Config.str_val v]
       | None => []
       end))%list.

Definition create_driver (headless : bool) : list string :=
  chrome_arguments Config.CHROME_OPTIONS headless.

End Utils.

(** ** [src/link_collector.py] *)

Module LinkCollector.
Import Datetime.

(** One element of the listing, as the driver answers the collector's
    queries about it.  A lookup that finds nothing raises
    [NoSuchElementException]; [Ok None] is an attribute that is not
    set. *)
Record article_element := mk_article {
  (** [find_element(CSS_SELECTOR, 'time').get_attribute('datetime')] *)
  time_datetime : result (option string);
  (** [find_element(CLASS_NAME, "date").text] *)
  date_text : result string;
  (** [find_element(CLASS_NAME, "article-thumbnail")
        .find_element(CSS_SELECTOR, 'a').get_attribute('href')] *)
  thumbnail_href : result (option string);
  (** [find_element(CSS_SELECTOR, 'a').get_attribute('href')] *)
  anchor_href : result (option string)
}.

(** The queries [check_article_year] makes. *)
Inductive probe := ProbeTime | ProbeDate.

(** A computation that records the queries it makes. *)
Definition probed (A : Type) : Type := list probe * result A.

Definition ask {A} (q : probe) (answer : result A) : probed A :=
  ([q], answer).

Definition then_ {A B} (c : probed A) (k : A -> probed B) : probed B :=
  match c with
  | (log, Ok a) => let '(log', r) := k a in ((log ++ log')%list, r)
  | (log, Raise e) => (log, Raise e)
  end.

Definition probed_try {A} (c : probed A) (cls : exn -> bool)
    (h : exn -> probed A) : probed A :=
  match c with
  | (log, Ok a) => (log, Ok a)
  | (log, Raise e) =>
      if cls e then let '(log', r) := h e in ((log ++ log')%list, r)
      else (log, Raise e)
  end.

(** A [try] block that may [return v] ([Some v]) or fall through
    ([None]). *)
Definition check_article_year_probed (article_element : article_element)
    (target_year : Z) : probed (option Z) :=
  probed_try
    (then_
       (* Try format 1: datetime attribute (ISO format) *)
       (probed_try
          (then_ (ask ProbeTime (time_datetime article_element))
             (fun date_str =>
                match date_str with
                | Some date_str =>
                    if Py.truthy date_str then
                      ([], date_obj ← Utils.parse_iso_date date_str;
                           match date_obj with
                           | Some date_obj => Ok (Some (year date_obj))
                           | None => Ok None
                           end)
                    else ([], Ok None)
                | None => ([], Ok None)
                end))
          is_NoSuchElement (fun _ => ([], Ok None)))
       (fun returned =>
          match returned with
          | Some y => ([], Ok (Some y))
          | None =>
              (* Try format 2: date class with DD/MM/YYYY format *)
              then_
                (probed_try
                   (then_ (ask ProbeDate (date_text article_element))
                      (fun text =>
                         let date_text := Py.strip text in
                         if Py.truthy date_text then
                           ([], date_obj ← Utils.parse_date_from_text date_text;
                                match date_obj with
                                | Some date_obj => Ok (Some (year date_obj))
                                | None => Ok None
                                end)
                         else ([], Ok None)))
                   is_NoSuchElement (fun _ => ([], Ok None)))
                (fun returned =>
                   match returned with
                   | Some y => ([], Ok (Some y))
                   | None => ([], Ok None)
                   end)
          end))
    any_Exception (fun _ => ([], Ok None)).

(** [check_article_year]: every exception is caught, so the outcome is a
    year or [None]. *)
Definition check_article_year (article_element : article_element)
    (target_year : Z) : option Z :=
  match snd (check_article_year_probed article_element target_year) with
  | Ok y => y
  | Raise _ => None
  end.

(** The queries made while looking for the year. *)
Definition probes (article_element : article_element) (target_year : Z)
    : list probe :=
  fst (check_article_year_probed article_element target_year).

(** One observation of the category page. *)
Record listing := mk_listing {
  (** [find_element(ID, "news-latest").find_element(CLASS_NAME,
      "section-content").find_elements(CLASS_NAME, "article-item")] *)
  news_items : result (list article_element);
  (** [find_elements(CSS_SELECTOR, 'article')] *)
  article_tags : list article_element;
  (** [document.body.scrollHeight] *)
  scroll_height : Z
}.

(** The page the driver shows after [n] scrolls to the bottom. *)
Definition browser : Type := nat -> listing.

(** Why a collection run ended (the message it logs). *)
Inductive stop_reason :=
  | ReachedOlder (year : Z)     (** "Reached articles from {year}, stopping" *)
  | ReachedMax                  (** "Reached maximum links: {max_links}" *)
  | NoMoreContent               (** "No more content to load" *)
  | LoopCondition.              (** the [while] condition became false *)

Record collected := mk_collected {
  links : gset string;
  reason : stop_reason;
  (** how often [window.scrollTo] ran *)
  scrolls : nat
}.

(** Truthiness of an optional [str]. *)
Definition truthy_str (s : option string) : bool :=
  match s with Some s => Py.truthy s | None => false end.

(** Truthiness of an optional [int]. *)
Definition truthy_int (y : option Z) : bool :=
  match y with Some y => negb (y =? 0) | None => false end.

(** How the [for] loop over the articles ends: it runs to its end, or
    the function returns from inside it. *)
Inductive for_exit :=
  | Exhausted (links : gset string)
  | Returned (links : gset string) (why : stop_reason).

(** The body of [for article in reversed(articles)] (lines 122-146),
    over the articles in processing order. *)
Fixpoint scroll_for (articles : list article_element) (target_year : Z)
    (max_links : Z) (links : gset string) : result for_exit :=
  match articles with
  | [] => Ok (Exhausted links)
  | article :: rest =>
      let year := check_article_year article target_year in
      if truthy_int year && bool_decide (default 0 year > target_year) then
        (* Skip future articles *)
        scroll_for rest target_year max_links links
      else if truthy_int year && bool_decide (default 0 year = target_year)
      then
        (* Extract link *)
        match thumbnail_href article with
        | Raise NoSuchElementException =>
            scroll_for rest target_year max_links links
        | Raise e => Raise e
        | Ok link =>
            let links :=
              match link with
              | Some l => if Py.truthy l then {[ l ]} ∪ links else links
              | None => links
              end in
            if bool_decide (Z.of_nat (size links) >= max_links)
            then Ok (Returned links ReachedMax)
            else scroll_for rest target_year max_links links
        end
      else if truthy_int year && bool_decide (default 0 year < target_year)
      then
        (* Reached older articles, stop *)
        Ok (Returned links (ReachedOlder (default 0 year)))
      else if bool_decide (Z.of_nat (size links) >= max_links)
      then Ok (Returned links ReachedMax)
      else scroll_for rest target_year max_links links
  end.

(** The [while] loop of [collect_links_scroll_based] (lines 114-161);
    [None] when [fuel] iterations were not enough. *)
Fixpoint scroll_while (fuel : nat) (driver : browser) (target_year : Z)
    (max_links : Z) (links : gset string) (last_height : Z)
    (scroll_count : nat) : option (result collected) :=
  match fuel with
  | O => None
  | S fuel' =>
      if bool_decide (Z.of_nat scroll_count < Config.MAX_SCROLLS) then
        let page := driver scroll_count in
        let body :=
          try_except
            (articles ← news_items page;
             scroll_for (reverse articles) target_year max_links links)
            is_NoSuchElement
            (fun _ => Ok (Exhausted links)) in
        match body with
        | Raise e => Some (Raise e)
        | Ok (Returned links why) =>
            Some (Ok (mk_collected links why scroll_count))
        | Ok (Exhausted links) =>
            (* Scroll down, then check if page height changed *)
            let new_height := scroll_height (driver (S scroll_count)) in
            if bool_decide (new_height = last_height) then
              Some (Ok (mk_collected links NoMoreContent (S scroll_count)))
            else
              scroll_while fuel' driver target_year max_links links
                new_height (S scroll_count)
        end
      else Some (Ok (mk_collected links LoopCondition scroll_count))
  end.

Definition collect_links_scroll_based (driver : browser) (target_year : Z)
    (max_links : Z) : option (result collected) :=
  let links := ∅ in
  let last_height := scroll_height (driver O) in
  let scroll_count := O in
  scroll_while (S (Z.to_nat Config.MAX_SCROLLS)) driver target_year
    max_links links last_height scroll_count.

(** The body of [for article in articles] of
    [collect_links_article_based] (lines 191-205); the loop ends at the
    end of the list or at its [break]. *)
Fixpoint article_for (articles : list article_element) (target_year : Z)
    (max_links : Z) (links : gset string) : result (gset string) :=
  match articles with
  | [] => Ok links
  | article :: rest =>
      let year := check_article_year article target_year in
      if bool_decide (year = Some target_year) then
        match anchor_href article with
        | Raise NoSuchElementException =>
            article_for rest target_year max_links links
        | Raise e => Raise e
        | Ok link =>
            let links :=
              match link with
              | Some l =>
                  if Py.truthy l && bool_decide (l ∉ links)
                  then {[ l ]} ∪ links else links
              | None => links
              end in
            if bool_decide (Z.of_nat (size links) >= max_links)
            then Ok links
            else article_for rest target_year max_links links
        end
      else if bool_decide (Z.of_nat (size links) >= max_links)
      then Ok links
      else article_for rest target_year max_links links
  end.

Fixpoint article_while (fuel : nat) (driver : browser) (target_year : Z)
    (max_links : Z) (links : gset string) (scroll_count : nat)
    : option (result collected) :=
  match fuel with
  | O => None
  | S fuel' =>
      if bool_decide (Z.of_nat scroll_count < Config.MAX_SCROLLS)
         && bool_decide (Z.of_nat (size links) < max_links) then
        match article_for (article_tags (driver scroll_count)) target_year
                max_links links with
        | Raise e => Some (Raise e)
        | Ok links =>
            article_while fuel' driver target_year max_links links
              (S scroll_count)
        end
      else Some (Ok (mk_collected links LoopCondition scroll_count))
  end.

Definition collect_links_article_based (driver : browser) (target_year : Z)
    (max_links : Z) : option (result collected) :=
  article_while (S (Z.to_nat Config.MAX_SCROLLS)) driver target_year
    max_links ∅ O.

(** [collect_and_save]; [site url] is what the driver shows after
    [driver.get(url)].  [list(links)] is modelled by [elements], one of
    the orders in which a set can be listed. *)
Definition collect_and_save (BASE_DIR : string) (site : string -> browser)
    (url output_file : string) (target_year max_links : Z)
    (method : string) (dk : Disk.disk) : option (result Disk.disk) :=
  run ← (if String.eqb method "scroll"
         then collect_links_scroll_based (site url) target_year max_links
         else collect_links_article_based (site url) target_year max_links);
  Some (c ← run;
        if bool_decide (links c <> ∅) then
          let output_path :=
            Config.path_join (Config.LINKS_DIR BASE_DIR) output_file in
          Utils.save_links_to_file (elements (links c)) output_path dk
        else Ok dk).

(** The "Determine URL" step of [main] (lines 264-274), on the parsed
    [--category] and [--url]; [None] is the early [return]. *)
Definition determine_url (category url : option string) : option string :=
  if truthy_str category then
    let url := Config.ZNEWS_URLS !! default "" category in
    if truthy_str url then url else None
  else if truthy_str url then url
  else None.

End LinkCollector.

(** ** [src/article_crawler.py] *)

Module ArticleCrawler.

(** A captioned photo block of the body: the [src] of each image in each
    of its [pic] elements, in document order, and the text of the
    block. *)
Record photo_wrapper := mk_photo {
  img_srcs : list (result (option string));
  photo_text : result string
}.

(** The body container, as the driver answers queries about it. *)
Record body_element := mk_body {
  (** the text of each element of [find_elements(XPATH, "./p")] *)
  paragraphs : result (list string);
  (** [find_elements(CLASS_NAME, "z-photoviewer-wrapper")] *)
  photo_wrappers : result (list photo_wrapper)
}.

(** What the driver shows for one article URL. *)
Record article_page := mk_page {
  (** [driver.get(url)] *)
  page_load : result unit;
  (** [find_element(CLASS_NAME, "the-article-title").text] *)
  title_text : result string;
  (** [find_element(CLASS_NAME, "the-article-summary").text] *)
  summary_text : result string;
  (** [find_element(CLASS_NAME, "the-article-body")] *)
  article_body : result body_element;
  (** the [IMAGE_LOAD_SCROLLS] scroll actions *)
  image_scrolls : result unit
}.

Record article_data := mk_article_data {
  url : string;
  title : string;
  content : string;
  (** [metadata.images]: (url, caption) *)
  images : list (string * string)
}.

Definition get_article_content (page : article_page) (body : body_element)
    : result string :=
  summary_text ←
    try_except (summary_text page) is_NoSuchElement (fun _ => Ok "");
  try_except
    (ps ← paragraphs body;
     let all_content :=
       ((if Py.truthy summary_text then [summary_text] else [])
        ++ filter (fun p => Py.truthy (Py.strip p) = true) ps)%list in
     Ok (Py.join (String Py.LF "") all_content))
    any_Exception
    (fun _ => Ok summary_text).

(** The inner loops over one photo block: the sources read before an
    exception, if any, are kept. *)
Fixpoint picture_links (srcs : list (result (option string)))
    : list string :=
  match srcs with
  | [] => []
  | Ok (Some src) :: rest =>
      if Py.truthy src then src :: picture_links rest
      else picture_links rest
  | Ok None :: rest => picture_links rest
  | Raise _ :: _ => []
  end.

Fixpoint pictures_for (pictures : list photo_wrapper)
    (pic_cap : list (string * string)) : result (list (string * string)) :=
  match pictures with
  | [] => Ok pic_cap
  | picture :: rest =>
      let links := picture_links (img_srcs picture) in
      text ← photo_text picture;
      let caption := Py.strip text in
      match links with
      | [] => pictures_for rest pic_cap
      | _ => pictures_for rest (pic_cap ++ [(Py.join ", " links, caption)])
      end
  end.

Definition get_article_images (page : article_page) (body : body_element)
    : result (list (string * string)) :=
  try_except
    (_ ← image_scrolls page;
     pictures ← photo_wrappers body;
     pictures_for pictures [])
    any_Exception
    (fun _ => Ok []).

Definition crawl_article (page : article_page) (url : string)
    : result (option article_data) :=
  try_except
    (_ ← page_load page;
     match title_text page with
     | Raise NoSuchElementException => Ok None
     | Raise e => Raise e
     | Ok title_text =>
         match article_body page with
         | Raise NoSuchElementException => Ok None
         | Raise e => Raise e
         | Ok body =>
             content ← get_article_content page body;
             images ← get_article_images page body;
             Ok (Some (mk_article_data url title_text content images))
         end
     end)
    any_Exception
    (fun _ => Ok None).

(** The state of a [crawl_from_file] run, with what it logs. *)
Record crawl_state := mk_state {
  dk : Disk.disk;
  count : Z;
  successful : Z;
  (** "Crawling article ...": the links handed to [crawl_article] *)
  visited : list string;
  (** "Successfully crawled: ...": the links whose extraction gave a
      record *)
  crawled : list string;
  (** "Saved article to ...": the paths written *)
  saved : list string
}.

Section Crawler.
Variable BASE_DIR : string.
(** [json.dump(article_data, f, indent=JSON_INDENT, ensure_ascii=False)] *)
Variable json_dump : article_data -> string.
(** the page behind each URL *)
Variable web : string -> article_page.

Definition save_article (article_data : article_data) (filename : string)
    (output_dir : string) (dk : Disk.disk) : bool * Disk.disk :=
  let filepath := Config.path_join output_dir filename in
  match Disk.write_text (Utils.ensure_dir_exists dk output_dir) filepath
          (json_dump article_data) with
  | Ok dk' => (true, dk')
  | Raise _ => (false, dk)         (* except Exception *)
  end.

(** The loop [for link in links] (lines 227-239). *)
Fixpoint crawl_for (links : list string) (output_dir : string)
    (max_articles : Z) (st : crawl_state) : result crawl_state :=
  match links with
  | [] => Ok st
  | link :: rest =>
      if bool_decide (count st >= max_articles) then Ok st
      else
        article_data ← crawl_article (web link) link;
        match article_data with
        | Some data =>
            let filename := pretty (count st) +:+ ".json" in
            let '(ok, dk') :=
              save_article data filename output_dir (dk st) in
            crawl_for rest output_dir max_articles
              (mk_state dk' (count st + 1)
                 (if ok then successful st + 1 else successful st)
                 (visited st ++ [link])
                 (crawled st ++ [link])
                 (if ok
                  then saved st ++ [Config.path_join output_dir filename]
                  else saved st))
        | None =>
            crawl_for rest output_dir max_articles
              (mk_state (dk st) (count st) (successful st)
                 (visited st ++ [link]) (crawled st) (saved st))
        end
  end.

Definition crawl_from_file (links_file : string) (category : string)
    (start_count : Z) (max_articles : Z) (dk : Disk.disk)
    : result crawl_state :=
  links ← Utils.read_links_from_file links_file dk;
  let output_dir := Config.path_join (Config.ARTICLES_DIR BASE_DIR) category in
  let dk := Utils.ensure_dir_exists dk output_dir in
  crawl_for links output_dir max_articles
  (mk_state dk start_count 0 [] [] []).

End Crawler.

End ArticleCrawler.

(** * Notions used in the statements *)

Module Spec.
Import Py Datetime Utils LinkCollector.

(** The last character of a string. *)
Fixpoint last_char (s : string) : option ascii :=
  match s with
  | EmptyString => None
  | String c EmptyString => Some c
  | String _ r => last_char r
  end.

Definition first_char (s : string) : option ascii :=
  match s with
  | EmptyString => None
  | String c _ => Some c
  end.

Definition not_space (c : option ascii) : bool :=
  match c with
  | Some c => negb (isspace c)
  | None => true
  end.

(** Line feed and carriage return both end a line for a reader in text
    mode. *)
Definition is_newline (c : ascii) : bool := Ascii.eqb c LF || Ascii.eqb c CR.

Definition no_newline (s : string) : bool :=
  all_chars (fun c => negb (is_newline c)) s.

(** A URL as [save_links_to_file] expects it: not blank, no blank at
    either end, no line break inside. *)
Definition clean_url (u : string) : bool :=
  truthy u && not_space (first_char u) && not_space (last_char u)
  && no_newline u.

(** The text of a file made of the given lines. *)
Definition text_of_lines (lines : list string) : string :=
  String.concat "" (map (fun l => l +:+ String LF "") lines).

(** What the reader keeps of a list of lines. *)
Definition kept (lines : list string) : list string :=
  map strip (filter (fun line => truthy (strip line) = true) lines).

(** A computation that raises nothing but [ValueError]. *)
Definition only_ValueError {A} (r : result A) : Prop :=
  forall e, r = Raise e -> e = ValueError.

Fixpoint max_len (r : re) : nat :=
  match r with
  | Chr _ | ChrCase _ | Range _ _ => 1
  | Cat r1 r2 => max_len r1 + max_len r2
  | Alt r1 r2 => max_len r1 `max` max_len r2
  | Opt r1 => max_len r1
  end.

Definition item_ok (it : item) : Prop :=
  match it with
  | Literal _ => True
  | Group k r => directive k = Some r
  end.

Definition group_ok (g : ascii * string) : Prop :=
  exists r, directive g.1 = Some r /\ (String.length g.2 <= max_len r)%nat.

(** The structured timestamp gives a year. *)
Definition time_parses (a : article_element) (y : Z) : Prop :=
  exists s dt, time_datetime a = Ok (Some s)
               /\ parse_iso_date s = Ok (Some dt) /\ year dt = y.

(** The free-text date field gives a year. *)
Definition text_parses (a : article_element) (y : Z) : Prop :=
  exists text dt, date_text a = Ok text
                  /\ parse_date_from_text (strip text) = Ok (Some dt)
                  /\ year dt = y.

(** There is no time element, or its attribute is absent, empty or
    unparseable. *)
Definition no_timestamp (a : article_element) : Prop :=
  time_datetime a = Raise NoSuchElementException
  \/ time_datetime a = Ok None
  \/ time_datetime a = Ok (Some "")
  \/ exists s, time_datetime a = Ok (Some s) /\ parse_iso_date s = Ok None.

(** The link an item of the listing carries under its thumbnail, as a
    set: empty when there is no thumbnail, no anchor or no [href]. *)
Definition thumbnail_links (a : article_element) : gset string :=
  match thumbnail_href a with
  | Ok (Some l) => if truthy l then {[ l ]} else ∅
  | _ => ∅
  end.

(** Looking for the link under the thumbnail finds it or finds nothing:
    the driver raises no other exception. *)
Definition link_lookup_settled (a : article_element) : Prop :=
  forall e, thumbnail_href a = Raise e -> e = NoSuchElementException.

(** The links after the [if link:] of the scroll-based loop. *)
Definition scroll_added (link : option string) (links : gset string)
    : gset string :=
  match link with
  | Some l => if truthy l then {[ l ]} ∪ links else links
  | None => links
  end.

(** The links after the [if link and link not in links:] of the
    article-based loop. *)
Definition article_added (link : option string) (links : gset string)
    : gset string :=
  match link with
  | Some l =>
      if truthy l && bool_decide (l ∉ links) then {[ l ]} ∪ links else links
  | None => links
  end.

End Spec.

(** * Sample inputs *)

Module Samples.
Import Disk LinkCollector ArticleCrawler.

(** An item with both a timestamp and a (different) text date. *)
Definition timestamped : article_element :=
  mk_article (Ok (Some "2024-01-15T10:00:00+0700")) (Ok "01/01/2020")
             (Ok (Some "https://znews.vn/a.html")) (Ok None).

(** An item with a timestamp, no text date, and a link. *)
Definition listed (timestamp href : string) : article_element :=
  mk_article (Ok (Some timestamp)) (Raise NoSuchElementException)
             (Ok (Some href)) (Ok (Some href)).

(** A listing with one article of 2025, two of 2024 and one of 2023, in
    processing order. *)
Definition sample_items : list article_element :=
  [ listed "2025-01-02T08:00:00+0700" "https://znews.vn/d.html";
    listed "2024-12-31T08:00:00+0700" "https://znews.vn/c.html";
    listed "2024-12-30T08:00:00+0700" "https://znews.vn/b.html";
    listed "2023-12-29T08:00:00+0700" "https://znews.vn/a.html" ].

(** A page that shows this listing however far it is scrolled, at a
    constant height. *)
Definition sample_driver : browser :=
  fun _ => mk_listing (Ok (reverse sample_items)) sample_items 1000.



(** A body with two paragraphs and a blank one between them. *)
Definition sample_body : body_element :=
  mk_body (Ok ["First paragraph."; "   "; "Second paragraph."]) (Ok []).

Definition sample_page : article_page :=
  mk_page (Ok ()) (Ok "Title") (Ok "Summary line.") (Ok sample_body) (Ok ()).

(** A page with neither title nor body. *)
Definition untitled : article_page :=
  mk_page (Ok ()) (Raise NoSuchElementException) (Ok "Summary")
          (Raise NoSuchElementException) (Ok ()).

(** A page with everything in place. *)
Definition complete : article_page :=
  mk_page (Ok ()) (Ok "Title") (Ok "Summary")
          (Ok (mk_body (Ok ["Text."]) (Ok []))) (Ok ()).

(** A stand-in for the JSON writer. *)
Definition sample_dump (d : article_data) : string := title d.

(** A disk with a links file of five URLs. *)
Definition sample_disk : disk :=
  mk_disk Posix
    {[ "links.txt" := "https://znews.vn/1.html
https://znews.vn/2.html
https://znews.vn/3.html
https://znews.vn/4.html
https://znews.vn/5.html
" ]} ∅.

End Samples.

(** * Notions used in the further statements *)

Module Notions.
Import Py Disk Utils LinkCollector ArticleCrawler Spec.

(** A line of [readlines] has its only line feed, if any, at its end. *)
Definition line_body_ok (l : string) : Prop :=
  exists body,
    all_chars (fun c => negb (Ascii.eqb c LF)) body = true
    /\ (l = body \/ l = body +:+ String LF "").

(** The item is of the target year and carries the link [l]. *)
Definition thumbnail_target (t : Z) (l : string) (a : article_element)
    : Prop :=
  check_article_year a t = Some t
  /\ thumbnail_href a = Ok (Some l) /\ l <> "".

(** The same for the link of the item's anchor. *)
Definition anchor_target (t : Z) (l : string) (a : article_element)
    : Prop :=
  check_article_year a t = Some t
  /\ anchor_href a = Ok (Some l) /\ l <> "".

(** Some page the scroll-based collector can see lists [l] with an item
    of the target year. *)
Definition scroll_listed (driver : browser) (t : Z) (l : string) : Prop :=
  exists k articles a,
    (k < Z.to_nat Config.MAX_SCROLLS)%nat
    /\ news_items (driver k) = Ok articles
    /\ a ∈ articles /\ thumbnail_target t l a.

(** Looking for the first link of an [article] element finds it or
    finds nothing: the driver raises no other exception. *)
Definition anchor_lookup_settled (a : article_element) : Prop :=
  forall e, anchor_href a = Raise e -> e = NoSuchElementException.

(** The same for the article-based collector. *)
Definition article_listed (driver : browser) (t : Z) (l : string) : Prop :=
  exists k a,
    (k < Z.to_nat Config.MAX_SCROLLS)%nat
    /\ a ∈ article_tags (driver k) /\ anchor_target t l a.

(** The links a pass over the items leaves, however it ends. *)
Definition exit_links (r : for_exit) : gset string :=
  match r with
  | Exhausted links => links
  | Returned links _ => links
  end.

(** The item is dated after the target year. *)
Definition newer_than (t : Z) (a : article_element) : Prop :=
  exists y, check_article_year a t = Some y /\ y > t.

(** An image entry as [get_article_images] builds it: a non-empty
    string of sources and a stripped caption. *)
Definition image_entry_ok (entry : string * string) : Prop :=
  entry.1 <> "" /\ strip entry.2 = entry.2.

(** The file of the record with index [i]. *)
Definition article_path (dir : string) (i : Z) : string :=
  Config.path_join dir (pretty i +:+ ".json").

(** The item is of the target year and the lookup of its link finds it
    or finds nothing. *)
Definition settled_target (t : Z) (a : article_element) : Prop :=
  check_article_year a t = Some t /\ link_lookup_settled a.

(** The links under the thumbnails of a list of items. *)
Definition all_thumbnail_links (items : list article_element)
    : gset string :=
  ⋃ (thumbnail_links <$> items).

(** The sources of the images of one photo block that have one: those
    that are present and not the empty string, in document order. *)
Definition block_sources (srcs : list (option string)) : list string :=
  filter (fun src => src <> "") (omap id srcs).

(** The entry of one photo block whose sources and text were read: none
    when no image has a source. *)
Definition block_entry (srcs : list (option string)) (text : string)
    : list (string * string) :=
  match block_sources srcs with
  | [] => []
  | sources => [(join ", " sources, strip text)]
  end.

(** A photo block that is read without error. *)
Definition readable_block (srcs : list (option string)) (text : string)
    : photo_wrapper :=
  mk_photo (Ok <$> srcs) (Ok text).

End Notions.

(** * Further sample inputs *)

Module Cases.
Import LinkCollector ArticleCrawler Samples.

(** An item whose time lookup fails although its text date is fine. *)
Definition stale : article_element :=
  mk_article (Raise WebDriverException) (Ok "15/01/2024")
             (Ok (Some "https://znews.vn/a.html")) (Ok None).

(** An item dated by a text whose year does not fit a C int. *)
Definition overflowing : article_element :=
  mk_article (Raise NoSuchElementException) (Ok " 1/1/2147483648 ")
             (Ok (Some "https://znews.vn/a.html")) (Ok None).

(** A page whose listing is read with an item of 2023 before the two
    items of 2024. *)
Definition pinned_driver : browser :=
  fun _ =>
    mk_listing
      (Ok [ listed "2024-12-30T08:00:00+0700" "https://znews.vn/b.html";
            listed "2024-12-31T08:00:00+0700" "https://znews.vn/c.html";
            listed "2023-06-01T08:00:00+0700" "https://znews.vn/p.html" ])
      [] 1000.


(** A body with two photo blocks, the second without readable text. *)
Definition half_captioned : body_element :=
  mk_body (Ok ["Text."])
    (Ok [ mk_photo [Ok (Some "https://znews.vn/1.jpg")] (Ok " One ");
          mk_photo [Ok (Some "https://znews.vn/2.jpg")]
                   (Raise WebDriverException) ]).

End Cases.

(** * Properties *)

(** ** Strings *)

Module PyFacts.
Import Py Spec Samples.

Lemma str_app_cons (c : ascii) (s t : string) :
  String c s +:+ t = String c (s +:+ t).
Proof. reflexivity. Qed.

Lemma str_app_assoc (s t u : string) : (s +:+ t) +:+ u = s +:+ (t +:+ u).
Proof.
  induction s as [|c s IH]; [done |]. by rewrite !str_app_cons, IH.
Qed.

Lemma isspace_LF : isspace LF = true.
Proof. reflexivity. Qed.

(** Stripping on the right ignores a final blank. *)
Lemma rstrip_app_space sp (s : string) (c : ascii) :
  sp c = true -> rstrip_by sp (s +:+ String c "") = rstrip_by sp s.
Proof.
  intros Hc. induction s as [|a s IH].
  - simpl. by rewrite Hc.
  - rewrite str_app_cons. simpl. by rewrite IH.
Qed.

Lemma lstrip_app_space sp (s : string) (c : ascii) :
  sp c = true ->
  lstrip_by sp (s +:+ String c "") =
    match lstrip_by sp s with
    | EmptyString => EmptyString
    | t => t +:+ String c ""
    end.
Proof.
  intros Hc. induction s as [|a s IH].
  - simpl. by rewrite Hc.
  - rewrite str_app_cons. simpl. destruct (sp a); [apply IH | done].
Qed.

Lemma strip_app_space sp (s : string) (c : ascii) :
  sp c = true -> strip_by sp (s +:+ String c "") = strip_by sp s.
Proof.
  intros Hc. unfold strip_by. rewrite lstrip_app_space by done.
  destruct (lstrip_by sp s) as [|a t] eqn:E; [done |].
  by rewrite rstrip_app_space.
Qed.

Lemma lstrip_first (s : string) :
  not_space (first_char s) = true -> lstrip_by isspace s = s.
Proof. destruct s as [|c s]; simpl; [done |]. by destruct (isspace c). Qed.

Lemma rstrip_last (s : string) :
  not_space (last_char s) = true -> rstrip_by isspace s = s.
Proof.
  induction s as [|c s IH]; [done |].
  destruct s as [|c' s'].
  - simpl. by destruct (isspace c).
  - intros H. change (rstrip_by isspace (String c (String c' s')))
      with (match rstrip_by isspace (String c' s') with
            | EmptyString =>
                if isspace c then EmptyString else String c EmptyString
            | r' => String c r'
            end).
    rewrite IH by exact H. done.
Qed.

Lemma strip_clean (s : string) :
  not_space (first_char s) = true -> not_space (last_char s) = true ->
  strip s = s.
Proof.
  intros Hf Hl. unfold strip, strip_by.
  rewrite lstrip_first by done. by apply rstrip_last.
Qed.

End PyFacts.

(** ** Links files: saving and reading back *)

Module UtilsFacts.
Import Py PyFacts Disk Utils Spec Samples.

Lemma text_of_lines_cons (l : string) (ls : list string) :
  text_of_lines (l :: ls) = l +:+ String LF (text_of_lines ls).
Proof.
  unfold text_of_lines. destruct ls as [|l' ls]; simpl.
  - done.
  - by rewrite str_app_assoc.
Qed.

Lemma translate_line (p : platform) (l rest : string) :
  no_newline l = true ->
  translate_in (translate_out p (l +:+ String LF rest)) =
  l +:+ String LF (translate_in (translate_out p rest)).
Proof.
  intros Hl. induction l as [|c l IH]; rewrite ?str_app_cons; simpl.
  - destruct p; reflexivity.
  - simpl in Hl. apply andb_true_iff in Hl as [Hc Hl].
    unfold is_newline in Hc. apply negb_true_iff, orb_false_iff in Hc as [H1 H2].
    rewrite H1. simpl. rewrite H2. by rewrite IH.
Qed.

Lemma translate_lines (p : platform) (lines : list string) :
  Forall (fun l => no_newline l = true) lines ->
  translate_in (translate_out p (text_of_lines lines)) = text_of_lines lines.
Proof.
  induction 1 as [|l ls Hl _ IH]; [done |].
  rewrite text_of_lines_cons, translate_line by done. by rewrite IH.
Qed.

Lemma readlines_line (l rest : string) :
  no_newline l = true ->
  readlines (l +:+ String LF rest) = (l +:+ String LF "") :: readlines rest.
Proof.
  intros Hl. induction l as [|c l IH]; rewrite ?str_app_cons; simpl.
  - reflexivity.
  - simpl in Hl. apply andb_true_iff in Hl as [Hc Hl].
    unfold is_newline in Hc. apply negb_true_iff, orb_false_iff in Hc as [H1 _].
    rewrite H1, IH by done. done.
Qed.

Lemma readlines_text (lines : list string) :
  Forall (fun l => no_newline l = true) lines ->
  readlines (text_of_lines lines) = map (fun l => l +:+ String LF "") lines.
Proof.
  induction 1 as [|l ls Hl _ IH]; [done |].
  rewrite text_of_lines_cons, readlines_line by done. by rewrite IH.
Qed.

Lemma strip_line (l : string) : strip (l +:+ String LF "") = strip l.
Proof. apply strip_app_space, isspace_LF. Qed.

Lemma kept_terminated (lines : list string) :
  kept (map (fun l => l +:+ String LF "") lines) = kept lines.
Proof.
  unfold kept. induction lines as [|l ls IH]; [done |].
  simpl map. rewrite !filter_cons, strip_line.
  destruct (decide (truthy (strip l) = true)).
  - simpl map. by rewrite strip_line, IH.
  - apply IH.
Qed.

Lemma kept_clean (links : list string) :
  Forall (fun u => clean_url u = true) links -> kept links = links.
Proof.
  unfold kept. induction 1 as [|u us Hu _ IH]; [done |].
  unfold clean_url in Hu. repeat (apply andb_true_iff in Hu as [Hu ?]).
  rewrite filter_cons. rewrite (strip_clean u) by done.
  rewrite decide_True by done. simpl map. rewrite (strip_clean u) by done.
  by rewrite IH.
Qed.

Lemma clean_no_newline (links : list string) :
  Forall (fun u => clean_url u = true) links ->
  Forall (fun l => no_newline l = true) links.
Proof.
  intros H. eapply Forall_impl; [exact H |]. intros u Hu. unfold clean_url in Hu.
  by apply andb_true_iff in Hu as [_ ?].
Qed.

(** Reading a file that holds the given lines. *)
Lemma read_lines_file (filepath : string) (dk : disk) (lines : list string) :
  Forall (fun l => no_newline l = true) lines ->
  files dk !! filepath = Some (translate_out (os dk) (text_of_lines lines)) ->
  read_links_from_file filepath dk = Ok (kept lines).
Proof.
  intros Hl Hf. unfold read_links_from_file, read_text. rewrite Hf. simpl.
  rewrite translate_lines, readlines_text by done.
  f_equal. apply kept_terminated.
Qed.

(** C5. Saving a list of URLs, each non-blank, without blanks at its
    ends and without line breaks, and reading the file back returns the
    same list in the same order; and whatever lines a links file holds,
    the reader returns the stripped non-blank ones only. *)
Theorem save_then_read_links (links : list string) (filepath : string)
    (dk dk' : disk) :
  Forall (fun u => clean_url u = true) links ->
  save_links_to_file links filepath dk = Ok dk' ->
  read_links_from_file filepath dk' = Ok links
  /\ (forall (lines : list string) (dk2 : disk),
        Forall (fun l => no_newline l = true) lines ->
        files dk2 !! filepath
          = Some (translate_out (os dk2) (text_of_lines lines)) ->
        exists kept_lines,
          read_links_from_file filepath dk2 = Ok kept_lines
          /\ kept_lines
             = filter (fun l => l <> "") (map strip lines)).
Proof.
  intros Hclean Hsave. split.
  - unfold save_links_to_file, write_text in Hsave.
    destruct (decide (filepath ∈ unwritable dk)); [done |].
    injection Hsave as <-.
    rewrite (read_lines_file filepath _ links).
    + by rewrite kept_clean.
    + by apply clean_no_newline.
    + simpl. by rewrite lookup_insert_eq.
  - intros lines dk2 Hl Hf. exists (kept lines). split.
    + by apply read_lines_file.
    + unfold kept. clear. induction lines as [|l ls IH]; [done |].
      simpl map. rewrite !filter_cons. destruct (strip l) eqn:E.
      * rewrite decide_False by done. rewrite decide_False by (intros H; by apply H).
        apply IH.
      * rewrite decide_True by done. rewrite decide_True by done.
        simpl map. by rewrite E, IH.
Qed.

Lemma save_then_read_links_witness :
  let dk := mk_disk Windows ∅ ∅ in
  exists dk',
    save_links_to_file ["https://znews.vn/a.html"; "https://znews.vn/b.html"]
      "links.txt" dk = Ok dk'
    /\ read_links_from_file "links.txt" dk'
       = Ok ["https://znews.vn/a.html"; "https://znews.vn/b.html"].
Proof.
  eexists. split; [reflexivity |].
  apply (save_then_read_links _ "links.txt" (mk_disk Windows ∅ ∅)).
  - repeat constructor.
  - reflexivity.
Defined.

End UtilsFacts.

(** ** Results *)

Module ResultFacts.
Import Spec.

Lemma bind_ok {A B} (r : result A) (k : A -> result B) (b : B) :
  r ≫= k = Ok b -> exists a, r = Ok a /\ k a = Ok b.
Proof. destruct r as [a|e]; cbn; [intros; eauto | intros; discriminate]. Qed.

Lemma bind_raise {A B} (r : result A) (k : A -> result B) (e : exn) :
  r ≫= k = Raise e -> r = Raise e \/ exists a, r = Ok a /\ k a = Raise e.
Proof.
  destruct r as [a|e']; cbn; intros H; [right; eauto |].
  left. by injection H as ->.
Qed.

Lemma only_ValueError_bind {A B} (r : result A) (k : A -> result B) :
  only_ValueError r -> (forall a, r = Ok a -> only_ValueError (k a)) ->
  only_ValueError (r ≫= k).
Proof.
  intros Hr Hk e He. apply bind_raise in He as [He | (a & Ha & He)].
  - by apply Hr.
  - by apply (Hk a).
Qed.

Lemma only_ValueError_ok {A} (a : A) : only_ValueError (Ok a).
Proof. intros e He. done. Qed.

Lemma only_ValueError_raise {A} : only_ValueError (@Raise A ValueError).
Proof. intros e He. by injection He. Qed.

End ResultFacts.

(** ** Dates *)

Module DatetimeFacts.
Import Py Datetime ResultFacts Spec Samples.

Lemma int_literal_only_ValueError (s : string) : only_ValueError (int_literal s).
Proof.
  intros e. unfold int_literal.
  destruct (match s with
            | String "-" r => (true, r)
            | String "+" r => (false, r)
            | _ => (false, s)
            end) as [neg body].
  destruct body as [|c body']; [by intros [= <-] |].
  destruct (is_digit c); [| by intros [= <-]].
  destruct (int_digits _ _ _ _) as [[v n]|]; [| by intros [= <-]].
  destruct (MAX_STR_DIGITS <? n); [by intros [= <-] | done].
Qed.

Lemma int_only_ValueError (s : string) : only_ValueError (int s).
Proof. apply int_literal_only_ValueError. Qed.

Lemma new_ok (y m dd h mi s us : Z) (tz : option Z) (dt : datetime) :
  new y m dd h mi s us tz = Ok dt ->
  dt = mk_datetime y m dd h mi s us tz /\ valid_date y m dd = true.
Proof.
  unfold new. destruct (forallb _ _); [| done].
  destruct (valid_date y m dd) eqn:E; simpl; [| done].
  destruct (valid_time _ _ _ _); [| done]. by intros [= <-].
Qed.

Lemma new_year (y m dd h mi s us : Z) (tz : option Z) (dt : datetime) :
  new y m dd h mi s us tz = Ok dt -> 1 <= year dt <= 9999.
Proof.
  intros H. apply new_ok in H as [-> H]. simpl.
  unfold valid_date, MINYEAR, MAXYEAR in H.
  repeat (apply andb_true_iff in H as [H ?]). lia.
Qed.

Lemma new_only_ValueError (y m dd h mi s us : Z) (tz : option Z) :
  forallb fits_c_int [y; m; dd; h; mi; s; us] = true ->
  only_ValueError (new y m dd h mi s us tz).
Proof.
  intros Hfit e. unfold new. rewrite Hfit.
  destruct (_ && _); [done | by intros [= <-]].
Qed.

Lemma timezone_only_ValueError (gmtoff frac : Z) :
  only_ValueError (timezone gmtoff frac).
Proof.
  intros e. unfold timezone. destruct (_ && _); [done | by intros [= <-]].
Qed.

Lemma parse_z_only_ValueError (z : string) : only_ValueError (parse_z z).
Proof.
  unfold parse_z. destruct (String.eqb z "Z"); [apply only_ValueError_ok |].
  apply only_ValueError_bind.
  { destruct (char_at 3 z ":"); [| apply only_ValueError_ok].
    destruct (_ <? _)%nat; [| apply only_ValueError_ok].
    destruct (char_at 5 _ ":");
      [apply only_ValueError_ok | apply only_ValueError_raise]. }
  intros z' _.
  apply only_ValueError_bind; [apply int_only_ValueError |]. intros hours _.
  apply only_ValueError_bind; [apply int_only_ValueError |]. intros minutes _.
  apply only_ValueError_bind.
  { destruct (truthy _); [apply int_only_ValueError | apply only_ValueError_ok]. }
  intros seconds _.
  apply only_ValueError_bind; [apply int_only_ValueError |]. intros fraction _.
  destruct (char_at 0 z' "-"); apply only_ValueError_ok.
Qed.

(** *** The size of what [int] reads *)

Lemma str_length_app (s t : string) :
  String.length (s +:+ t) = (String.length s + String.length t)%nat.
Proof.
  induction s as [|c s IH]; [done |].
  rewrite PyFacts.str_app_cons. simpl. by rewrite IH.
Qed.

Lemma lstrip_length sp (s : string) :
  (String.length (lstrip_by sp s) <= String.length s)%nat.
Proof.
  induction s as [|c s IH]; simpl; [lia |].
  destruct (sp c); simpl; lia.
Qed.

Lemma rstrip_length sp (s : string) :
  (String.length (rstrip_by sp s) <= String.length s)%nat.
Proof.
  induction s as [|c s IH]; simpl; [lia |].
  destruct (rstrip_by sp s); simpl in *; [destruct (sp c); simpl; lia | lia].
Qed.

Lemma strip_length sp (s : string) :
  (String.length (strip_by sp s) <= String.length s)%nat.
Proof.
  unfold strip_by. pose proof (rstrip_length sp (lstrip_by sp s)).
  pose proof (lstrip_length sp s). lia.
Qed.

Lemma digit_value_range (c : ascii) :
  is_digit c = true -> 0 <= digit_value c <= 9.
Proof.
  unfold is_digit, digit_value. intros H.
  apply andb_true_iff in H as [H1 H2]. lia.
Qed.

Lemma int_digits_bound (s : string) :
  forall acc n b v n',
    int_digits s acc n b = Some (v, n') -> 0 <= acc ->
    0 <= v < (acc + 1) * 10 ^ Z.of_nat (String.length s).
Proof.
  induction s as [|c s IH]; intros acc n b v n' H Hacc.
  - simpl in H. destruct b; [| done]. injection H as <- <-. simpl. lia.
  - simpl in H. change (String.length (String c s)) with (S (String.length s)).
    rewrite Nat2Z.inj_succ, Z.pow_succ_r by lia.
    assert (0 < 10 ^ Z.of_nat (String.length s)) by (apply Z.pow_pos_nonneg; lia).
    destruct (is_digit c) eqn:Hd.
    + apply digit_value_range in Hd. apply IH in H; [| lia]. nia.
    + destruct (Ascii.eqb c "_"); [| done]. destruct b; [| done].
      apply IH in H; [| lia]. nia.
Qed.

Lemma int_literal_bound (s : string) (v : Z) :
  int_literal s = Ok v -> Z.abs v < 10 ^ Z.of_nat (String.length s).
Proof.
  unfold int_literal. intros H.
  assert (Hbody : forall (body : string) (neg : bool),
    (String.length body <= String.length s)%nat ->
    match body with
    | EmptyString => Raise ValueError
    | String c _ =>
        if is_digit c then
          match int_digits body 0 0 false with
          | Some (v, n) =>
              if MAX_STR_DIGITS <? n then Raise ValueError
              else Ok (if neg then - v else v)
          | None => Raise ValueError
          end
        else Raise ValueError
    end = Ok v -> Z.abs v < 10 ^ Z.of_nat (String.length s)).
  { intros body neg Hlen Hb. destruct body as [|c body']; [done |].
    destruct (is_digit c); [| done].
    destruct (int_digits _ _ _ _) as [[w n]|] eqn:E; [| done].
    destruct (MAX_STR_DIGITS <? n); [done |]. injection Hb as <-.
    apply int_digits_bound in E; [| lia].
    assert (10 ^ Z.of_nat (String.length (String c body'))
            <= 10 ^ Z.of_nat (String.length s))
      by (apply Z.pow_le_mono_r; lia).
    destruct neg; lia. }
  destruct s as [|c s']; [done |].
  destruct (Ascii.eqb_spec c "-"%char) as [-> | Hm].
  { apply (Hbody s' true); [simpl; lia | exact H]. }
  destruct (Ascii.eqb_spec c "+"%char) as [-> | Hp].
  { apply (Hbody s' false); [simpl; lia | exact H]. }
  apply (Hbody (String c s') false); [lia |].
  revert H. clear -Hm Hp.
  destruct c as [[] [] [] [] [] [] [] []]; try done.
Qed.

Lemma int_bound (s : string) (v : Z) :
  int s = Ok v -> Z.abs v < 10 ^ Z.of_nat (String.length s).
Proof.
  unfold int. intros H. apply int_literal_bound in H.
  pose proof (strip_length int_space s).
  assert (10 ^ Z.of_nat (String.length (strip_by int_space s))
          <= 10 ^ Z.of_nat (String.length s))
    by (apply Z.pow_le_mono_r; lia).
  lia.
Qed.

Lemma int_short_fits (s : string) (v : Z) :
  (String.length s <= 4)%nat -> int s = Ok v -> fits_c_int v = true.
Proof.
  intros Hlen H. apply int_bound in H.
  assert (10 ^ Z.of_nat (String.length s) <= 10 ^ 4)
    by (apply Z.pow_le_mono_r; lia).
  unfold fits_c_int. apply andb_true_iff. split; apply Z.leb_le; lia.
Qed.

(** *** The size of what a directive matches *)

Lemma run_length (r : re) :
  forall s t s', (t, s') ∈ run r s -> (String.length t <= max_len r)%nat.
Proof.
  induction r as [c|c|lo hi|r1 IH1 r2 IH2|r1 IH1 r2 IH2|r1 IH1];
    intros s t s' H; simpl in H.
  - destruct s as [|c' s0]; [by apply elem_of_nil in H |].
    destruct (Ascii.eqb _ _); [| by apply elem_of_nil in H].
    apply list_elem_of_singleton in H. injection H as -> ->. simpl. lia.
  - destruct s as [|c' s0]; [by apply elem_of_nil in H |].
    destruct (Ascii.eqb _ _); [| by apply elem_of_nil in H].
    apply list_elem_of_singleton in H. injection H as -> ->. simpl. lia.
  - destruct s as [|c' s0]; [by apply elem_of_nil in H |].
    destruct (_ && _); [| by apply elem_of_nil in H].
    apply list_elem_of_singleton in H. injection H as -> ->. simpl. lia.
  - apply list_elem_of_bind in H as ([t1 s1] & H & H1).
    apply list_elem_of_bind in H as ([t2 s2] & H & H2).
    apply list_elem_of_singleton in H. injection H as -> ->.
    apply IH1 in H1. apply IH2 in H2. rewrite str_length_app. simpl. lia.
  - apply elem_of_app in H as [H | H]; [apply IH1 in H | apply IH2 in H];
      simpl; lia.
  - apply elem_of_app in H as [H | H]; [by apply IH1 in H |].
    apply list_elem_of_singleton in H. injection H as -> ->. simpl. lia.
Qed.

Lemma pattern_items :
  forall fmt items, pattern fmt = Some items -> Forall item_ok items.
Proof.
  fix IH 1. intros [|c rest] items H; simpl in H.
  - injection H as <-. constructor.
  - destruct (Ascii.eqb c "%").
    + destruct rest as [|k rest']; [done |].
      destruct (directive k) as [r|] eqn:Hk; [| done]. cbn in H.
      destruct (pattern rest') as [items'|] eqn:Hp; [| done]. cbn in H.
      injection H as <-. constructor; [exact Hk | by apply (IH rest')].
    + destruct (pattern rest) as [items'|] eqn:Hp; [| done]. cbn in H.
      injection H as <-. constructor; [exact I | by apply (IH rest)].
Qed.

Lemma match_items_groups (items : list item) :
  Forall item_ok items ->
  forall s groups rest,
    (groups, rest) ∈ match_items items s -> Forall group_ok groups.
Proof.
  induction 1 as [|it items Hit _ IH]; intros s groups rest H; simpl in H.
  - apply list_elem_of_singleton in H. injection H as -> ->. constructor.
  - destruct it as [c|k r].
    + apply list_elem_of_bind in H as ([t s1] & H & _). by apply IH in H.
    + apply list_elem_of_bind in H as ([t s1] & H & Ht).
      apply list_elem_of_bind in H as ([groups' s2] & H & Hg).
      apply list_elem_of_singleton in H. injection H as -> ->.
      constructor; [| by apply IH in Hg].
      exists r. split; [exact Hit | by apply run_length in Ht].
Qed.

Lemma directive_short (k : ascii) (r : re) :
  directive k = Some r -> k <> "z"%char -> (max_len r <= 4)%nat.
Proof.
  unfold directive. intros H Hz.
  repeat match type of H with
         | (if Ascii.eqb ?a ?b then _ else _) = _ =>
             destruct (Ascii.eqb_spec a b) as [-> | ?];
             [first [by injection H as <-; vm_compute; lia | done] |]
         end.
  done.
Qed.

Lemma lookup_group_elem (k : ascii) (groups : list (ascii * string))
    (t : string) :
  lookup_group k groups = Some t -> (k, t) ∈ groups.
Proof.
  induction groups as [|[k' t'] groups IH]; simpl; [done |].
  destruct (Ascii.eqb_spec k' k) as [-> | _].
  - intros [= ->]. apply list_elem_of_here.
  - intros H. apply list_elem_of_further, IH, H.
Qed.

Lemma group_int_fits (k : ascii) (groups : list (ascii * string))
    (default v : Z) :
  Forall group_ok groups -> k <> "z"%char -> fits_c_int default = true ->
  group_int k groups default = Ok v -> fits_c_int v = true.
Proof.
  intros Hg Hk Hd. unfold group_int.
  destruct (lookup_group k groups) as [t|] eqn:E; [| by intros [= <-]].
  apply lookup_group_elem in E.
  rewrite Forall_forall in Hg. destruct (Hg _ E) as (r & Hr & Hlen).
  simpl in Hr, Hlen. apply directive_short in Hr; [| done].
  apply int_short_fits. lia.
Qed.

Lemma group_int_only_ValueError (k : ascii) (groups : list (ascii * string))
    (default : Z) :
  only_ValueError (group_int k groups default).
Proof.
  unfold group_int. destruct (lookup_group k groups);
    [apply int_only_ValueError | apply only_ValueError_ok].
Qed.

(** *** [strptime] *)

Lemma elem_of_head {A} (x : A) (l l' : list A) : l = x :: l' -> x ∈ l.
Proof. intros ->. apply list_elem_of_here. Qed.

(** With a format of this table, [strptime] raises [ValueError] and
    nothing else: the numbers it hands to the constructor are short. *)
Lemma strptime_only_ValueError (data_string format : string) :
  only_ValueError (strptime data_string format).
Proof.
  unfold strptime.
  destruct (pattern format) as [items|] eqn:Hp; [| apply only_ValueError_raise].
  destruct (match_items items data_string) as [|[groups rest] ms] eqn:Hm;
    [apply only_ValueError_raise |].
  destruct (truthy rest); [apply only_ValueError_raise |].
  assert (Hg : Forall group_ok groups).
  { apply (match_items_groups items (pattern_items _ _ Hp) data_string _ rest).
    by eapply elem_of_head. }
  apply only_ValueError_bind; [apply group_int_only_ValueError |]. intros y Hy.
  apply only_ValueError_bind; [apply group_int_only_ValueError |]. intros m Hmo.
  apply only_ValueError_bind; [apply group_int_only_ValueError |]. intros dd Hd.
  apply only_ValueError_bind; [apply group_int_only_ValueError |]. intros h Hh.
  apply only_ValueError_bind; [apply group_int_only_ValueError |]. intros mi Hmi.
  apply only_ValueError_bind; [apply group_int_only_ValueError |]. intros s Hs.
  apply group_int_fits in Hy, Hmo, Hd, Hh, Hmi, Hs; try done.
  assert (Hfit : forallb fits_c_int [y; m; dd; h; mi; s; 0] = true).
  { simpl. rewrite Hy, Hmo, Hd, Hh, Hmi, Hs. reflexivity. }
  assert (Hfit0 : forallb fits_c_int [y; m; dd; 0; 0; 0; 0] = true).
  { simpl. rewrite Hy, Hmo, Hd. reflexivity. }
  apply only_ValueError_bind.
  { destruct (lookup_group "z" groups) as [z|]; [| apply only_ValueError_ok].
    apply only_ValueError_bind; [apply parse_z_only_ValueError |].
    intros [gmtoff frac] _. apply only_ValueError_ok. }
  intros tz _.
  apply only_ValueError_bind; [by apply new_only_ValueError |]. intros _ _.
  destruct tz as [[gmtoff frac]|]; [| by apply new_only_ValueError].
  apply only_ValueError_bind; [apply timezone_only_ValueError |].
  intros off _. by apply new_only_ValueError.
Qed.

Lemma strptime_year (data_string format : string) (dt : datetime) :
  strptime data_string format = Ok dt -> 1 <= year dt <= 9999.
Proof.
  unfold strptime.
  destruct (pattern format) as [items|]; [| done].
  destruct (match_items items data_string) as [|[groups rest] ms]; [done |].
  destruct (truthy rest); [done |].
  intros H.
  repeat (apply bind_ok in H as (? & _ & H)).
  destruct x5 as [[gmtoff frac]|].
  - apply bind_ok in H as (off & _ & H). by apply new_year in H.
  - by apply new_year in H.
Qed.

End DatetimeFacts.

(** ** The two date parsers *)

Module ParserFacts.
Import Py Datetime ResultFacts DatetimeFacts Utils Spec Samples.

Lemma try_strptime (data_string format : string)
    (h : exn -> result (option datetime)) :
  try_except (dt ← strptime data_string format; Ok (Some dt)) is_ValueError h
  = match strptime data_string format with
    | Ok dt => Ok (Some dt)
    | Raise _ => h ValueError
    end.
Proof.
  pose proof (strptime_only_ValueError data_string format) as Hv.
  destruct (strptime data_string format) as [dt|e]; [done |].
  cbn. by rewrite (Hv e eq_refl).
Qed.

(** [parse_iso_date] returns for every string. *)
Lemma parse_iso_date_returns (date_str : string) :
  exists r, parse_iso_date date_str = Ok r.
Proof.
  unfold parse_iso_date. rewrite try_strptime.
  destruct (strptime date_str "%Y-%m-%dT%H:%M:%S%z") as [dt|e]; [eauto |].
  rewrite try_strptime.
  destruct (strptime date_str "%Y-%m-%d") as [dt|e']; eauto.
Qed.

Lemma parse_iso_date_year (date_str : string) (dt : datetime) :
  parse_iso_date date_str = Ok (Some dt) -> 1 <= year dt <= 9999.
Proof.
  unfold parse_iso_date. rewrite try_strptime.
  destruct (strptime date_str "%Y-%m-%dT%H:%M:%S%z") as [d1|e1] eqn:E1.
  { intros [= <-]. by apply strptime_year in E1. }
  rewrite try_strptime.
  destruct (strptime date_str "%Y-%m-%d") as [d2|e2] eqn:E2; [| done].
  intros [= <-]. by apply strptime_year in E2.
Qed.

Lemma parse_date_from_text_year (date_text : string) (dt : datetime) :
  parse_date_from_text date_text = Ok (Some dt) -> 1 <= year dt <= 9999.
Proof.
  unfold parse_date_from_text.
  destruct (split "/" date_text) as [|day [|month [|yr [|]]]]; cbn; try done.
  destruct (int yr) as [y|e]; cbn; [| by destruct e].
  destruct (int month) as [m|e]; cbn; [| by destruct e].
  destruct (int day) as [dd|e]; cbn; [| by destruct e].
  destruct (new y m dd 0 0 0 0 None) as [d0|e] eqn:E; cbn; [| by destruct e].
  intros [= <-]. by apply new_year in E.
Qed.

(** What [parse_date_from_text] can raise: only the [OverflowError] of
    the constructor, when the three fields are integers and one of them
    is outside the C [int] range. *)
Lemma parse_date_from_text_raises (date_text : string) (e : exn) :
  parse_date_from_text date_text = Raise e ->
  e = OverflowError
  /\ exists day month yr y m dd,
       split "/" date_text = [day; month; yr]
       /\ int yr = Ok y /\ int month = Ok m /\ int day = Ok dd
       /\ forallb fits_c_int [y; m; dd] = false.
Proof.
  unfold parse_date_from_text.
  destruct (split "/" date_text) as [|day [|month [|yr [|]]]]; cbn; try done.
  destruct (int yr) as [y|e1] eqn:Ey; cbn;
    [| by rewrite (int_only_ValueError _ _ Ey)].
  destruct (int month) as [m|e1] eqn:Em; cbn;
    [| by rewrite (int_only_ValueError _ _ Em)].
  destruct (int day) as [dd|e1] eqn:Ed; cbn;
    [| by rewrite (int_only_ValueError _ _ Ed)].
  unfold new.
  destruct (forallb fits_c_int [y; m; dd; 0; 0; 0; 0]) eqn:Hfit; cbn.
  - destruct (_ && _); cbn; done.
  - intros [= <-]. split; [done |]. exists day, month, yr, y, m, dd.
    repeat split; done.
Qed.

(** C3. The ISO timestamp and the DD/MM/YYYY example both give year
    2024 and [parse_iso_date] returns (a date or None) on every string,
    but [parse_date_from_text] does not: on "1/1/2147483648" the
    [OverflowError] of the [datetime] constructor escapes its handler. *)
Theorem date_parsing_overflow_escapes :
  (exists dt, parse_iso_date "2024-01-15T10:00:00+0700" = Ok (Some dt)
              /\ year dt = 2024)
  /\ (exists dt, parse_date_from_text "15/01/2024" = Ok (Some dt)
                 /\ year dt = 2024)
  /\ (forall date_str, exists r, parse_iso_date date_str = Ok r)
  /\ parse_date_from_text "1/1/2147483648" = Raise OverflowError.
Proof.
  split; [| split; [| split]].
  - eexists. split; [vm_compute; reflexivity | reflexivity].
  - eexists. split; [vm_compute; reflexivity | reflexivity].
  - apply parse_iso_date_returns.
  - vm_compute. reflexivity.
Qed.

End ParserFacts.

(** ** The year of a listed article *)

Module YearFacts.
Import Py Datetime ResultFacts DatetimeFacts ParserFacts Utils LinkCollector Spec Samples.

Lemma parse_iso_date_empty : parse_iso_date "" = Ok None.
Proof. reflexivity. Qed.

Lemma parse_date_from_text_empty : parse_date_from_text "" = Ok None.
Proof. reflexivity. Qed.

Lemma truthy_false (s : string) : truthy s = false -> s = "".
Proof. by destruct s. Qed.

Lemma probed_timestamp (a : article_element) (t : Z) (s : string)
    (dt : datetime) :
  time_datetime a = Ok (Some s) -> parse_iso_date s = Ok (Some dt) ->
  check_article_year_probed a t = ([ProbeTime], Ok (Some (year dt))).
Proof.
  intros Ht Hp. unfold check_article_year_probed, ask. rewrite Ht. cbn.
  destruct (truthy s) eqn:Hs.
  - rewrite Hp. reflexivity.
  - apply truthy_false in Hs. subst s. by rewrite parse_iso_date_empty in Hp.
Qed.

(** Without a usable timestamp the outcome is that of the text field. *)
Lemma probed_fallback (a : article_element) (t : Z) :
  no_timestamp a ->
  check_article_year_probed a t =
  ([ProbeTime; ProbeDate],
   Ok match date_text a with
      | Ok text =>
          match parse_date_from_text (strip text) with
          | Ok (Some dt) => Some (year dt)
          | _ => None
          end
      | Raise _ => None
      end).
Proof.
  intros Hno.
  assert (Hfirst :
    probed_try
      (then_ (ask ProbeTime (time_datetime a))
         (fun date_str =>
            match date_str with
            | Some date_str =>
                if truthy date_str then
                  ([], date_obj ← parse_iso_date date_str;
                       match date_obj with
                       | Some date_obj => Ok (Some (year date_obj))
                       | None => Ok None
                       end)
                else ([], Ok None)
            | None => ([], Ok None)
            end))
      is_NoSuchElement (fun _ => ([], Ok None))
    = ([ProbeTime], Ok None)).
  { unfold ask. destruct Hno as [H | [H | [H | (s & H & Hp)]]]; rewrite H; cbn;
      try reflexivity.
    destruct (truthy s); [| reflexivity]. rewrite Hp. reflexivity. }
  unfold check_article_year_probed. rewrite Hfirst. unfold ask. cbn.
  destruct (date_text a) as [text|e]; cbn.
  - destruct (truthy (strip text)) eqn:Hs; cbn.
    + destruct (parse_date_from_text (strip text)) as [[dt|]|e];
        try reflexivity. destruct e; reflexivity.
    + apply truthy_false in Hs. rewrite Hs, parse_date_from_text_empty.
      reflexivity.
  - destruct e; reflexivity.
Qed.

(** An exception other than [NoSuchElementException] ends the search. *)
Lemma probed_unexpected (a : article_element) (t : Z) (e : exn) :
  time_datetime a = Raise e -> e <> NoSuchElementException ->
  check_article_year_probed a t = ([ProbeTime], Ok None).
Proof.
  intros Ht He. unfold check_article_year_probed, ask. rewrite Ht.
  destruct e; done.
Qed.

Lemma timestamp_cases (a : article_element) :
  (exists y, time_parses a y) \/ no_timestamp a
  \/ exists e, time_datetime a = Raise e /\ e <> NoSuchElementException.
Proof.
  destruct (time_datetime a) as [[s|]|e] eqn:Ht.
  - destruct (parse_iso_date_returns s) as [[dt|] Hp].
    + left. by exists (year dt), s, dt.
    + right. left. do 3 right. by exists s.
  - right. left. right. by left.
  - destruct (decide (e = NoSuchElementException)) as [-> | He].
    + right. left. by left.
    + right. right. by exists e.
Qed.

(** A year that [check_article_year] returns is a calendar year. *)
Lemma check_article_year_range (a : article_element) (t y : Z) :
  check_article_year a t = Some y -> 1 <= y <= 9999.
Proof.
  unfold check_article_year.
  destruct (timestamp_cases a) as [(y' & s & dt & Ht & Hp & _) | [Hn | (e & Ht & He)]].
  - rewrite (probed_timestamp a t s dt Ht Hp). cbn. intros [= <-].
    by apply parse_iso_date_year in Hp.
  - rewrite (probed_fallback a t Hn). cbn.
    destruct (date_text a) as [text|e]; [| done].
    destruct (parse_date_from_text (strip text)) as [[dt|]|e] eqn:Hq; try done.
    intros [= <-]. by apply parse_date_from_text_year in Hq.
  - by rewrite (probed_unexpected a t e Ht He).
Qed.

(** C9. With a parseable datetime attribute the year is the
    attribute's and the text field is not queried; when the time
    element or its attribute is absent, empty or unparseable, the text
    field is queried and decides; in either case the outcome is None
    only if neither field gives a year. *)
Theorem check_article_year_prefers_timestamp (a : article_element) (t : Z) :
  (forall y, time_parses a y ->
     check_article_year a t = Some y /\ probes a t = [ProbeTime])
  /\ (no_timestamp a ->
        probes a t = [ProbeTime; ProbeDate]
        /\ forall y, check_article_year a t = Some y <-> text_parses a y)
  /\ ((exists y, time_parses a y) \/ no_timestamp a ->
        check_article_year a t = None ->
        (forall y, ~ time_parses a y) /\ (forall y, ~ text_parses a y)).
Proof.
  assert (Hyes : forall y, time_parses a y ->
            check_article_year a t = Some y /\ probes a t = [ProbeTime]).
  { intros y (s & dt & Ht & Hp & <-). unfold check_article_year, probes.
    by rewrite (probed_timestamp a t s dt Ht Hp). }
  assert (Hno : no_timestamp a ->
            probes a t = [ProbeTime; ProbeDate]
            /\ forall y, check_article_year a t = Some y <-> text_parses a y).
  { intros Hn. unfold check_article_year, probes.
    rewrite (probed_fallback a t Hn). split; [done |]. cbn. intros y. split.
    - destruct (date_text a) as [text|e] eqn:Hd; [| done].
      destruct (parse_date_from_text (strip text)) as [[dt|]|e] eqn:Hp;
        try done.
      intros [= <-]. by exists text, dt.
    - intros (text & dt & -> & -> & <-). done. }
  split; [exact Hyes | split; [exact Hno |]].
  intros [[y Hy] | Hn] Hnone.
  - apply Hyes in Hy as [Hy _]. congruence.
  - destruct (Hno Hn) as [_ Hiff]. split.
    + intros y (s & dt & Ht & Hp & _).
      destruct Hn as [H | [H | [H | (s' & H & Hp')]]]; try congruence.
      rewrite H in Ht. injection Ht as <-.
      by rewrite parse_iso_date_empty in Hp.
    + intros y Hy. apply Hiff in Hy. congruence.
Qed.

Lemma check_article_year_prefers_timestamp_witness :
  check_article_year timestamped 2024 = Some 2024
  /\ probes timestamped 2024 = [ProbeTime].
Proof.
  apply (check_article_year_prefers_timestamp timestamped 2024).
  eexists _, _. split; [reflexivity |]. split; [vm_compute; reflexivity |].
  reflexivity.
Defined.

End YearFacts.

(** ** The scroll-based collector *)

Module ScrollFacts.
Import Py Datetime Utils LinkCollector YearFacts Spec Samples.

(** *** One step of the [for] loop *)

Lemma scroll_for_newer (a : article_element) (rest : list article_element)
    (t m y : Z) (links : gset string) :
  check_article_year a t = Some y -> y > t ->
  scroll_for (a :: rest) t m links = scroll_for rest t m links.
Proof.
  intros Hy Hgt. pose proof (check_article_year_range a t y Hy).
  cbn [scroll_for]. rewrite Hy. cbn [truthy_int default]. unfold id.
  replace (negb (y =? 0)) with true by (symmetry; apply negb_true_iff; lia).
  rewrite bool_decide_true by done. reflexivity.
Qed.

Lemma scroll_for_target (a : article_element) (rest : list article_element)
    (t m : Z) (links : gset string) (l : string) :
  check_article_year a t = Some t -> thumbnail_href a = Ok (Some l) ->
  l <> "" ->
  scroll_for (a :: rest) t m links =
    if bool_decide (Z.of_nat (size ({[ l ]} ∪ links)) >= m)
    then Ok (Returned ({[ l ]} ∪ links) ReachedMax)
    else scroll_for rest t m ({[ l ]} ∪ links).
Proof.
  intros Hy Hl Hne. pose proof (check_article_year_range a t t Hy).
  cbn [scroll_for]. rewrite Hy, Hl. cbn [truthy_int default]. unfold id.
  replace (negb (t =? 0)) with true by (symmetry; apply negb_true_iff; lia).
  rewrite bool_decide_false by lia. rewrite bool_decide_true by done.
  cbn [andb]. destruct l; [done |]. reflexivity.
Qed.

(** An item of the target year, below the cap: its link, if it has
    one, is added. *)
Lemma scroll_for_target_below (a : article_element)
    (rest : list article_element) (t m : Z) (links : gset string) :
  check_article_year a t = Some t -> link_lookup_settled a ->
  Z.of_nat (size (thumbnail_links a ∪ links)) < m ->
  scroll_for (a :: rest) t m links
  = scroll_for rest t m (thumbnail_links a ∪ links).
Proof.
  intros Hy Hset Hlt. pose proof (check_article_year_range a t t Hy).
  unfold thumbnail_links in *. unfold link_lookup_settled in Hset.
  cbn [scroll_for]. rewrite Hy. cbn [truthy_int default]. unfold id.
  replace (negb (t =? 0)) with true by (symmetry; apply negb_true_iff; lia).
  rewrite bool_decide_false by lia. rewrite bool_decide_true by done.
  cbn [andb].
  destruct (thumbnail_href a) as [[l|]|e].
  - destruct (truthy l).
    + by rewrite bool_decide_false by lia.
    + rewrite union_empty_l_L in *. by rewrite bool_decide_false by lia.
  - rewrite union_empty_l_L in *. by rewrite bool_decide_false by lia.
  - rewrite (Hset e eq_refl). by rewrite union_empty_l_L.
Qed.

Lemma scroll_for_older (a : article_element) (rest : list article_element)
    (t m y : Z) (links : gset string) :
  check_article_year a t = Some y -> y < t ->
  scroll_for (a :: rest) t m links = Ok (Returned links (ReachedOlder y)).
Proof.
  intros Hy Hlt. pose proof (check_article_year_range a t y Hy).
  cbn [scroll_for]. rewrite Hy. cbn [truthy_int default]. unfold id.
  replace (negb (y =? 0)) with true by (symmetry; apply negb_true_iff; lia).
  rewrite !bool_decide_false by lia. rewrite bool_decide_true by done.
  reflexivity.
Qed.

(** One iteration of the [while] loop. *)
Lemma scroll_while_step (fuel : nat) (driver : browser) (t m : Z)
    (links : gset string) (last_height : Z) (scroll_count : nat) :
  scroll_while (S fuel) driver t m links last_height scroll_count =
  if bool_decide (Z.of_nat scroll_count < Config.MAX_SCROLLS) then
    match try_except
            (articles ← news_items (driver scroll_count);
             scroll_for (reverse articles) t m links)
            is_NoSuchElement (fun _ => Ok (Exhausted links)) with
    | Raise e => Some (Raise e)
    | Ok (Returned links why) => Some (Ok (mk_collected links why scroll_count))
    | Ok (Exhausted links) =>
        let new_height := scroll_height (driver (S scroll_count)) in
        if bool_decide (new_height = last_height) then
          Some (Ok (mk_collected links NoMoreContent (S scroll_count)))
        else scroll_while fuel driver t m links new_height (S scroll_count)
    end
  else Some (Ok (mk_collected links LoopCondition scroll_count)).
Proof. reflexivity. Qed.




(** The cap matters as well: with max_links 1 the run returns at the
    first year-2024 item, with its link only. *)
Lemma scroll_collect_cap_ends_early :
  map (fun a => check_article_year a 2024) sample_items
    = [Some 2025; Some 2024; Some 2024; Some 2023]
  /\ collect_links_scroll_based sample_driver 2024 1
     = Some (Ok (mk_collected {[ "https://znews.vn/c.html" ]} ReachedMax O))
  /\ ({[ "https://znews.vn/c.html" ]} : gset string)
     <> {[ "https://znews.vn/c.html"; "https://znews.vn/b.html" ]}.
Proof.
  split; [vm_compute; reflexivity |]. split; [vm_compute; reflexivity |].
  intros H. assert (Hin : "https://znews.vn/b.html" ∈
    ({[ "https://znews.vn/c.html" ]} : gset string)) by (rewrite H; set_solver).
  apply elem_of_singleton in Hin. discriminate.
Qed.

End ScrollFacts.

(** ** Termination of the scroll loop *)

Module LoopFacts.
Import LinkCollector ScrollFacts.

Lemma scroll_while_bounded (driver : browser) (t m : Z) :
  forall (fuel : nat) (links : gset string) (last_height : Z) (sc : nat),
    (Z.to_nat Config.MAX_SCROLLS - sc < fuel)%nat ->
    last_height = scroll_height (driver sc) ->
    exists r,
      scroll_while fuel driver t m links last_height sc = Some r
      /\ forall c, r = Ok c ->
           (scrolls c <= sc `max` Z.to_nat Config.MAX_SCROLLS)%nat
           /\ forall k, (sc <= k)%nat ->
                scroll_height (driver (S k)) = scroll_height (driver k) ->
                (scrolls c <= S k)%nat.
Proof.
  induction fuel as [|fuel IH]; intros links last_height sc Hfuel Hlast;
    [lia |].
  rewrite scroll_while_step.
  destruct (bool_decide (Z.of_nat sc < Config.MAX_SCROLLS)) eqn:Hcond.
  - apply bool_decide_eq_true in Hcond.
    assert (Hsc : (sc < Z.to_nat Config.MAX_SCROLLS)%nat) by lia.
    destruct (try_except _ _ _) as [[links' | links' why] | e].
    + cbv zeta.
      destruct (bool_decide (scroll_height (driver (S sc)) = last_height))
        eqn:Hsame.
      * eexists. split; [reflexivity |]. intros c [= <-]. simpl.
        split; [lia |]. intros k Hk _. lia.
      * apply bool_decide_eq_false in Hsame.
        destruct (IH links' (scroll_height (driver (S sc))) (S sc))
          as (r & Hr & Hc); [lia | reflexivity |].
        exists r. split; [exact Hr |]. intros c Hok.
        destruct (Hc c Hok) as [Hb Hk]. split; [lia |].
        intros k Hle Hstable. destruct (decide (k = sc)) as [-> | Hne].
        -- congruence.
        -- apply Hk; [lia | exact Hstable].
    + eexists. split; [reflexivity |]. intros c [= <-]. simpl.
      split; [lia |]. intros k Hk _. lia.
    + eexists. split; [reflexivity |]. intros c Hc. discriminate.
  - eexists. split; [reflexivity |]. intros c [= <-]. simpl.
    split; [lia |]. intros k Hk _. lia.
Qed.

(** C6. The scroll loop of [collect_links_scroll_based] ends for every
    sequence of pages and heights: it scrolls at most MAX_SCROLLS
    times, and if the height measured after scroll k+1 equals the one
    before it, at most k+1 times. *)
Theorem scroll_loop_terminates (driver : browser) (t m : Z) :
  exists r,
    collect_links_scroll_based driver t m = Some r
    /\ forall c, r = Ok c ->
         (scrolls c <= Z.to_nat Config.MAX_SCROLLS)%nat
         /\ forall k,
              scroll_height (driver (S k)) = scroll_height (driver k) ->
              (scrolls c <= S k)%nat.
Proof.
  unfold collect_links_scroll_based.
  destruct (scroll_while_bounded driver t m (S (Z.to_nat Config.MAX_SCROLLS))
              ∅ (scroll_height (driver O)) O) as (r & Hr & Hc);
    [lia | reflexivity |].
  exists r. split; [exact Hr |]. intros c Hok.
  destruct (Hc c Hok) as [Hb Hk]. split; [lia |].
  intros k Hstable. apply Hk; [lia | exact Hstable].
Qed.

End LoopFacts.

(** ** The collected links: no duplicates, at most max_links *)

Module LinkSetFacts.
Import Py LinkCollector YearFacts ScrollFacts Spec Samples.

Lemma add_present (l : string) (links : gset string) :
  l ∈ links -> {[ l ]} ∪ links = links.
Proof. intros Hin. apply subseteq_union_1_L. by apply singleton_subseteq_l. Qed.

Lemma size_add (l : string) (links : gset string) :
  (size ({[ l ]} ∪ links) <= S (size links))%nat.
Proof.
  destruct (decide (l ∈ links)) as [Hin | Hout].
  - rewrite add_present by done. lia.
  - rewrite size_union by (by apply disjoint_singleton_l).
    rewrite size_singleton. lia.
Qed.

Lemma size_scroll_added (link : option string) (links : gset string) :
  (size (scroll_added link links) <= S (size links))%nat.
Proof.
  destruct link as [l|]; simpl; [| lia].
  destruct (truthy l); [apply size_add | lia].
Qed.

Lemma size_article_added (link : option string) (links : gset string) :
  (size (article_added link links) <= S (size links))%nat.
Proof.
  destruct link as [l|]; simpl; [| lia].
  destruct (_ && _); [apply size_add | lia].
Qed.

(** Below the cap on entry, at most at the cap on exit: the [for] loop
    of the scroll-based collector. *)
Lemma scroll_for_size (t m : Z) (articles : list article_element) :
  forall links : gset string,
    Z.of_nat (size links) < m ->
    match scroll_for articles t m links with
    | Ok (Exhausted links') => Z.of_nat (size links') < m
    | Ok (Returned links' _) => Z.of_nat (size links') <= m
    | Raise _ => True
    end.
Proof.
  induction articles as [|a rest IH]; intros links Hlt; [exact Hlt |].
  cbn [scroll_for].
  destruct (truthy_int _ && bool_decide (_ > _)); [by apply IH |].
  destruct (truthy_int _ && bool_decide (_ = _)).
  - destruct (thumbnail_href a) as [link | e].
    + fold (scroll_added link links).
      pose proof (size_scroll_added link links).
      case_bool_decide; [cbn; lia | apply IH; lia].
    + destruct e; try exact I. by apply IH.
  - destruct (truthy_int _ && bool_decide (_ < _)); [cbn; lia |].
    case_bool_decide; [cbn; lia | by apply IH].
Qed.

Lemma scroll_while_size (driver : browser) (t m : Z) :
  forall (fuel : nat) (links : gset string) (last_height : Z) (sc : nat)
         (c : collected),
    Z.of_nat (size links) < m ->
    scroll_while fuel driver t m links last_height sc = Some (Ok c) ->
    Z.of_nat (size (LinkCollector.links c)) <= m.
Proof.
  induction fuel as [|fuel IH]; intros links last_height sc c Hlt; [done |].
  rewrite scroll_while_step.
  case_bool_decide; [| intros [= <-]; cbn; lia].
  destruct (news_items (driver sc)) as [articles | e]; cbn [mbind result_bind].
  - pose proof (scroll_for_size t m (reverse articles) links Hlt) as Hfor.
    destruct (scroll_for (reverse articles) t m links) as [[l' | l' why] | e];
      cbn [try_except].
    + cbv zeta. case_bool_decide; [intros [= <-]; cbn; lia | by apply IH].
    + intros [= <-]. exact Hfor.
    + destruct (is_NoSuchElement e); [| done].
      cbv zeta. case_bool_decide; [intros [= <-]; cbn; lia | by apply IH].
  - cbn [try_except]. destruct (is_NoSuchElement e); [| done].
    cbv zeta. case_bool_decide; [intros [= <-]; cbn; lia | by apply IH].
Qed.

Lemma article_for_size (t m : Z) (articles : list article_element) :
  forall links links' : gset string,
    Z.of_nat (size links) < m ->
    article_for articles t m links = Ok links' ->
    Z.of_nat (size links') <= m.
Proof.
  induction articles as [|a rest IH]; intros links links' Hlt;
    [intros [= <-]; lia |].
  cbn [article_for]. case_bool_decide.
  - destruct (anchor_href a) as [link | e].
    + fold (article_added link links).
      pose proof (size_article_added link links).
      case_bool_decide; [intros [= <-]; lia | apply IH; lia].
    + destruct e; try done. by apply IH.
  - case_bool_decide; [intros [= <-]; lia | by apply IH].
Qed.

Lemma article_while_size (driver : browser) (t m : Z) :
  forall (fuel : nat) (links : gset string) (sc : nat) (c : collected),
    Z.of_nat (size links) <= m ->
    article_while fuel driver t m links sc = Some (Ok c) ->
    Z.of_nat (size (LinkCollector.links c)) <= m.
Proof.
  induction fuel as [|fuel IH]; intros links sc c Hle; [done |].
  cbn [article_while].
  destruct (bool_decide (Z.of_nat sc < Config.MAX_SCROLLS)); cbn [andb];
    [| by intros [= <-]].
  case_bool_decide; [| by intros [= <-]].
  destruct (article_for _ t m links) as [links' | e] eqn:Hfor; [| done].
  apply IH. by eapply article_for_size.
Qed.

(** C8, for a max_links of at least 1. A link that is already collected is not added a
    second time, the collection either collector returns has no
    duplicates, and it holds at most max_links links when max_links is
    at least 1 (at least 0 for the article-based collector). *)
Theorem collected_links_unique_and_capped (driver : browser) (t m : Z) :
  (forall (a : article_element) (rest : list article_element)
          (links : gset string) (l : string),
      check_article_year a t = Some t -> l ∈ links ->
      (thumbnail_href a = Ok (Some l) ->
       scroll_for (a :: rest) t m links
       = if bool_decide (Z.of_nat (size links) >= m)
         then Ok (Returned links ReachedMax)
         else scroll_for rest t m links)
      /\ (anchor_href a = Ok (Some l) ->
          article_for (a :: rest) t m links
          = if bool_decide (Z.of_nat (size links) >= m)
            then Ok links
            else article_for rest t m links))
  /\ (forall c, collect_links_scroll_based driver t m = Some (Ok c) ->
        NoDup (elements (links c))
        /\ (1 <= m -> Z.of_nat (size (links c)) <= m))
  /\ (forall c, collect_links_article_based driver t m = Some (Ok c) ->
        NoDup (elements (links c))
        /\ (0 <= m -> Z.of_nat (size (links c)) <= m)).
Proof.
  split; [| split].
  - intros a rest links l Hy Hin. split; intros Hl.
    + destruct (decide (l = "")) as [-> | Hne].
      * pose proof (check_article_year_range a t t Hy).
        cbn [scroll_for]. rewrite Hy, Hl. cbn [truthy_int default]. unfold id.
        replace (negb (t =? 0)) with true
          by (symmetry; apply negb_true_iff; lia).
        rewrite bool_decide_false by lia. rewrite bool_decide_true by done.
        reflexivity.
      * rewrite (scroll_for_target a rest t m links l) by done.
        by rewrite add_present.
    + cbn [article_for]. rewrite Hy, Hl. rewrite bool_decide_true by done.
      rewrite (bool_decide_false (l ∉ links)) by (intros Hout; by apply Hout).
      by rewrite andb_false_r.
  - intros c Hc. split; [apply NoDup_elements |]. intros Hm.
    unfold collect_links_scroll_based in Hc.
    eapply scroll_while_size; [| exact Hc]. rewrite size_empty. lia.
  - intros c Hc. split; [apply NoDup_elements |]. intros Hm.
    unfold collect_links_article_based in Hc.
    eapply article_while_size; [| exact Hc]. rewrite size_empty. lia.
Qed.

Lemma collected_links_unique_and_capped_witness :
  NoDup (elements ({[ "https://znews.vn/c.html"; "https://znews.vn/b.html" ]}
                   : gset string))
  /\ (1 <= 200 ->
      Z.of_nat (size ({[ "https://znews.vn/c.html";
                         "https://znews.vn/b.html" ]} : gset string)) <= 200).
Proof.
  apply (proj1 (proj2 (collected_links_unique_and_capped sample_driver 2024 200))
           (mk_collected _ (ReachedOlder 2023) O)).
  vm_compute. reflexivity.
Defined.

(** C8 as stated fails for a max_links below 1: with max_links -1 the
    article-based collector returns the empty set, of size 0; with
    max_links 0 the scroll-based collector returns one link. *)
Lemma collected_size_counterexample :
  (exists c, collect_links_article_based sample_driver 2024 (-1) = Some (Ok c)
             /\ ~ Z.of_nat (size (links c)) <= -1)
  /\ (exists c, collect_links_scroll_based sample_driver 2024 0 = Some (Ok c)
                /\ ~ Z.of_nat (size (links c)) <= 0).
Proof.
  split; eexists; (split; [vm_compute; reflexivity |]); vm_compute; congruence.
Qed.

End LinkSetFacts.

(** ** Article content *)

Module ContentFacts.
Import Py ArticleCrawler Spec Samples.

Lemma truthy_iff (s : string) : truthy s = true <-> s <> "".
Proof. destruct s; simpl; split; done. Qed.

(** C4. With a non-empty summary, the content is the summary followed
    by the non-blank direct paragraphs in document order, one per line;
    for two non-blank paragraphs that is summary, first, second. *)
Theorem content_is_summary_then_paragraphs (page : article_page)
    (body : body_element) (summary : string) (ps : list string) :
  summary_text page = Ok summary -> summary <> "" ->
  paragraphs body = Ok ps ->
  get_article_content page body
    = Ok (join (String LF "") (summary :: filter (fun p => strip p <> "") ps))
  /\ (forall p1 p2, ps = [p1; p2] -> strip p1 <> "" -> strip p2 <> "" ->
        get_article_content page body
        = Ok (summary +:+ String LF "" +:+ p1 +:+ String LF "" +:+ p2)).
Proof.
  intros Hs Hne Hps.
  assert (Hgen : get_article_content page body
    = Ok (join (String LF "")
            (summary :: filter (fun p => strip p <> "") ps))).
  { unfold get_article_content. rewrite Hs, Hps.
    cbn [try_except mbind result_bind].
    apply truthy_iff in Hne. rewrite Hne.
    rewrite (list_filter_iff (fun p => truthy (strip p) = true)
               (fun p => strip p <> "")) by (intros p; apply truthy_iff).
    reflexivity. }
  split; [exact Hgen |].
  intros p1 p2 -> H1 H2. rewrite Hgen.
  rewrite !filter_cons, filter_nil.
  rewrite decide_True by done. rewrite decide_True by done. reflexivity.
Qed.

Lemma content_is_summary_then_paragraphs_witness :
  get_article_content sample_page sample_body
  = Ok (join (String LF "")
          ("Summary line."
           :: filter (fun p => strip p <> "")
                ["First paragraph."; "   "; "Second paragraph."])).
Proof.
  refine (proj1 (content_is_summary_then_paragraphs sample_page sample_body
                   "Summary line."
                   ["First paragraph."; "   "; "Second paragraph."] _ _ _)).
  - reflexivity.
  - discriminate.
  - reflexivity.
Defined.

End ContentFacts.

(** ** Crawling a links file *)

Module CrawlFacts.
Import Py Disk Utils ArticleCrawler Spec Samples.

Lemma try_any_Exception {A} (r : result A) (v : A) :
  try_except r any_Exception (fun _ => Ok v)
  = Ok match r with Ok a => a | Raise _ => v end.
Proof. by destruct r. Qed.

Lemma crawl_article_returns (page : article_page) (url : string) :
  exists r, crawl_article page url = Ok r.
Proof. unfold crawl_article. rewrite try_any_Exception. eauto. Qed.

Lemma crawl_article_absent (page : article_page) (url : string) :
  title_text page = Raise NoSuchElementException
  \/ article_body page = Raise NoSuchElementException ->
  crawl_article page url = Ok None.
Proof.
  intros H. unfold crawl_article. rewrite try_any_Exception. f_equal.
  destruct (page_load page) as [[]|e]; cbn; [| done].
  destruct H as [-> | Hb]; [done |].
  destruct (title_text page) as [ti|e]; [by rewrite Hb | by destruct e].
Qed.

Section Crawl.
Variable json_dump : article_data -> string.
Variable web : string -> article_page.

(** One link whose extraction gives nothing: on to the next one. *)
Lemma crawl_for_skip (link : string) (rest : list string) (dir : string)
    (max_articles : Z) (st : crawl_state) :
  count st < max_articles ->
  crawl_article (web link) link = Ok None ->
  crawl_for json_dump web (link :: rest) dir max_articles st
  = crawl_for json_dump web rest dir max_articles
      (mk_state (dk st) (count st) (successful st)
         (visited st ++ [link]) (crawled st) (saved st)).
Proof.
  intros Hc Hn. cbn [crawl_for]. rewrite bool_decide_false by lia.
  rewrite Hn. reflexivity.
Qed.

(** One link whose extraction gives a record: the index advances,
    whether or not the file could be written. *)
Lemma crawl_for_extracted (link : string) (rest : list string) (dir : string)
    (max_articles : Z) (st : crawl_state) (data : article_data) :
  count st < max_articles ->
  crawl_article (web link) link = Ok (Some data) ->
  let path := Config.path_join dir (pretty (count st) +:+ ".json") in
  crawl_for json_dump web (link :: rest) dir max_articles st
  = crawl_for json_dump web rest dir max_articles
      (if decide (path ∈ unwritable (dk st)) then
         mk_state (dk st) (count st + 1) (successful st)
           (visited st ++ [link]) (crawled st ++ [link]) (saved st)
       else
         mk_state
           (mk_disk (os (dk st))
              (<[path := translate_out (os (dk st)) (json_dump data)]>
                 (files (dk st)))
              (unwritable (dk st)))
           (count st + 1) (successful st + 1)
           (visited st ++ [link]) (crawled st ++ [link])
           (saved st ++ [path])).
Proof.
  intros Hc Hd path. cbn [crawl_for]. rewrite bool_decide_false by lia.
  rewrite Hd. cbn [mbind result_bind].
  unfold save_article, write_text, ensure_dir_exists. fold path.
  destruct (decide (path ∈ unwritable (dk st))); reflexivity.
Qed.

Lemma crawl_for_full (links : list string) (dir : string)
    (max_articles : Z) (st : crawl_state) :
  count st >= max_articles ->
  crawl_for json_dump web links dir max_articles st = Ok st.
Proof.
  intros Hc. destruct links as [|link rest]; [done |].
  cbn [crawl_for]. by rewrite bool_decide_true.
Qed.

(** The loop returns, and its counters are tied to its logs. *)
Lemma crawl_for_counts (dir : string) (max_articles : Z) :
  forall (links : list string) (st : crawl_state),
  exists st',
    crawl_for json_dump web links dir max_articles st = Ok st'
    /\ count st' - count st
       = Z.of_nat (length (crawled st')) - Z.of_nat (length (crawled st))
    /\ (count st <= max_articles -> count st' <= max_articles)
    /\ 0 <= count st' - count st.
Proof.
  induction links as [|link rest IH]; intros st.
  - exists st. cbn. repeat split; lia.
  - destruct (decide (count st >= max_articles)) as [Hfull | Hroom].
    + exists st. rewrite crawl_for_full by done. repeat split; lia.
    + destruct (crawl_article_returns (web link) link) as [[data|] Hr].
      * rewrite (crawl_for_extracted link rest dir max_articles st data)
          by (lia || done).
        cbv zeta.
        destruct (decide (_ ∈ unwritable (dk st)));
          match goal with
          | |- context [crawl_for _ _ rest _ _ ?s] =>
              destruct (IH s) as (st' & -> & Hcnt & Hmax & Hpos)
          end;
          exists st'; cbn in *; rewrite length_app in Hcnt; cbn in Hcnt;
          repeat split; lia.
      * rewrite (crawl_for_skip link rest dir max_articles st) by (lia || done).
        match goal with
        | |- context [crawl_for _ _ rest _ _ ?s] =>
            destruct (IH s) as (st' & -> & Hcnt & Hmax & Hpos)
        end.
        exists st'. cbn in *. repeat split; lia.
Qed.

(** C7. A page without title or without body container gives no
    record, [crawl_article] returns for every page (an exception during
    extraction is turned into None), and in [crawl_from_file] a link
    that gives no record is followed by the rest of the links: the loop
    returns for every list of links. *)
Theorem failed_articles_are_skipped :
  (forall page url,
      title_text page = Raise NoSuchElementException
      \/ article_body page = Raise NoSuchElementException ->
      crawl_article page url = Ok None)
  /\ (forall page url, exists r, crawl_article page url = Ok r)
  /\ (forall link rest dir max_articles st,
        count st < max_articles ->
        crawl_article (web link) link = Ok None ->
        crawl_for json_dump web (link :: rest) dir max_articles st
        = crawl_for json_dump web rest dir max_articles
            (mk_state (dk st) (count st) (successful st)
               (visited st ++ [link]) (crawled st) (saved st)))
  /\ (forall links dir max_articles st,
        exists st',
          crawl_for json_dump web links dir max_articles st = Ok st').
Proof.
  split; [exact crawl_article_absent |].
  split; [exact crawl_article_returns |].
  split; [exact crawl_for_skip |].
  intros links dir max_articles st.
  destruct (crawl_for_counts dir max_articles links st) as (st' & H & _).
  by exists st'.
Qed.

Variable BASE_DIR : string.

(** C2. Five links, max_articles 3, start_count 0, every extraction
    and every write succeeding: the first three links are visited,
    their records are saved as 0.json, 1.json and 2.json, and the last
    two links are not visited. *)
Theorem crawl_stops_after_max_articles (links_file category : string)
    (dk0 : disk) (u1 u2 u3 u4 u5 : string) :
  read_links_from_file links_file dk0 = Ok [u1; u2; u3; u4; u5] ->
  (forall u, u ∈ [u1; u2; u3; u4; u5] ->
     exists data, crawl_article (web u) u = Ok (Some data)) ->
  unwritable dk0 = ∅ ->
  let dir := Config.path_join (Config.ARTICLES_DIR BASE_DIR) category in
  exists st,
    crawl_from_file BASE_DIR json_dump web links_file category 0 3 dk0 = Ok st
    /\ successful st = 3
    /\ visited st = [u1; u2; u3]
    /\ saved st = [Config.path_join dir "0.json";
                   Config.path_join dir "1.json";
                   Config.path_join dir "2.json"]
    /\ NoDup (saved st)
    /\ dom (files (dk st)) = dom (files dk0) ∪ list_to_set (saved st).
Proof.
  intros Hread Hok Hw dir.
  destruct (Hok u1) as [d1 H1]; [set_solver |].
  destruct (Hok u2) as [d2 H2]; [set_solver |].
  destruct (Hok u3) as [d3 H3]; [set_solver |].
  unfold crawl_from_file. rewrite Hread. cbn [mbind result_bind].
  unfold ensure_dir_exists. fold dir.
  rewrite (crawl_for_extracted u1 _ dir 3 _ d1) by (cbn; lia || done).
  cbv zeta. cbn [dk count successful visited crawled saved unwritable os].
  rewrite Hw. rewrite decide_False by set_solver.
  rewrite (crawl_for_extracted u2 _ dir 3 _ d2) by (cbn; lia || done).
  cbv zeta. cbn [dk count successful visited crawled saved unwritable os].
  rewrite ?Hw. rewrite decide_False by set_solver.
  rewrite (crawl_for_extracted u3 _ dir 3 _ d3) by (cbn; lia || done).
  cbv zeta. cbn [dk count successful visited crawled saved unwritable os].
  rewrite ?Hw. rewrite decide_False by set_solver.
  rewrite crawl_for_full by (cbn; lia).
  eexists. split; [reflexivity |].
  cbn [dk count successful visited crawled saved files app].
  change (pretty 0) with "0". change (pretty (0 + 1)) with "1".
  change (pretty (0 + 1 + 1)) with "2".
  split; [reflexivity |]. split; [reflexivity |]. split; [reflexivity |].
  split.
  - unfold Config.path_join.
    repeat constructor; rewrite ?elem_of_cons, ?elem_of_nil;
      intros H; repeat destruct H as [H | H]; try done;
      do 2 apply (inj (String.app _)) in H; discriminate.
  - rewrite !dom_insert_L. cbn [list_to_set]. set_solver.
Qed.

(** C10. The bound is on the file index: it starts at start_count and
    advances with every extracted record, also when the write fails; so
    with start_count at or above max_articles no link is visited, and
    otherwise at most max_articles - start_count records are
    extracted. *)
Theorem crawl_index_is_absolute (links_file category : string)
    (start_count max_articles : Z) (dk0 : disk) (links : list string) :
  read_links_from_file links_file dk0 = Ok links ->
  exists st,
    crawl_from_file BASE_DIR json_dump web links_file category
      start_count max_articles dk0 = Ok st
    /\ count st = start_count + Z.of_nat (length (crawled st))
    /\ (start_count >= max_articles -> visited st = [])
    /\ (start_count <= max_articles ->
        Z.of_nat (length (crawled st)) <= max_articles - start_count)
    /\ (forall link rest dir st0 data,
          count st0 < max_articles ->
          crawl_article (web link) link = Ok (Some data) ->
          Config.path_join dir (pretty (count st0) +:+ ".json")
            ∈ unwritable (dk st0) ->
          crawl_for json_dump web (link :: rest) dir max_articles st0
          = crawl_for json_dump web rest dir max_articles
              (mk_state (dk st0) (count st0 + 1) (successful st0)
                 (visited st0 ++ [link]) (crawled st0 ++ [link])
                 (saved st0))).
Proof.
  intros Hread. unfold crawl_from_file. rewrite Hread.
  cbn [mbind result_bind]. cbv zeta.
  match goal with
  | |- context [crawl_for _ _ links ?d _ ?s] =>
      destruct (crawl_for_counts d max_articles links s)
        as (st & Hrun & Hcnt & Hmax & Hpos);
      pose proof (crawl_for_full links d max_articles s) as Hfull
  end.
  cbn in Hcnt, Hmax, Hpos, Hfull.
  exists st. split; [exact Hrun |]. split; [lia |]. split.
  - intros Hge. rewrite Hfull in Hrun by done. by injection Hrun as <-.
  - split; [lia |].
    intros link rest dir st0 data Hc Hd Hu.
    rewrite (crawl_for_extracted link rest dir max_articles st0 data) by done.
    cbv zeta. by rewrite decide_True.
Qed.

End Crawl.

Lemma failed_articles_are_skipped_witness :
  crawl_article untitled "https://znews.vn/x.html" = Ok None.
Proof.
  apply (proj1 (failed_articles_are_skipped sample_dump (fun _ => untitled))).
  left. reflexivity.
Defined.

Lemma crawl_stops_after_max_articles_witness :
  exists st,
    crawl_from_file "/srv/znews" sample_dump (fun _ => complete)
      "links.txt" "general" 0 3 sample_disk = Ok st
    /\ successful st = 3.
Proof.
  destruct (crawl_stops_after_max_articles sample_dump (fun _ => complete)
              "/srv/znews" "links.txt" "general" sample_disk
              "https://znews.vn/1.html" "https://znews.vn/2.html"
              "https://znews.vn/3.html" "https://znews.vn/4.html"
              "https://znews.vn/5.html")
    as (st & Hrun & Hs & _).
  - vm_compute. reflexivity.
  - intros u _. eexists. reflexivity.
  - reflexivity.
  - exists st. split; [exact Hrun | exact Hs].
Defined.

Lemma crawl_index_is_absolute_witness :
  exists st,
    crawl_from_file "/srv/znews" sample_dump (fun _ => complete)
      "links.txt" "general" 7 3 sample_disk = Ok st
    /\ visited st = [].
Proof.
  destruct (crawl_index_is_absolute sample_dump (fun _ => complete)
              "/srv/znews" "links.txt" "general" 7 3 sample_disk
              [ "https://znews.vn/1.html"; "https://znews.vn/2.html";
                "https://znews.vn/3.html"; "https://znews.vn/4.html";
                "https://znews.vn/5.html" ])
    as (st & Hrun & _ & Hv & _).
  - vm_compute. reflexivity.
  - exists st. split; [exact Hrun | apply Hv; lia].
Defined.

End CrawlFacts.

(** * Further properties of the code *)

(** ** The date parsers *)

Module ParserExtras.
Import Notions Cases.
Import Py Datetime ResultFacts DatetimeFacts ParserFacts Utils Spec.

Lemma days_in_month_le (y m : Z) : days_in_month y m <= 31.
Proof.
  unfold days_in_month.
  destruct (m =? 2); [destruct (is_leap y); lia |].
  destruct (_ || _); lia.
Qed.

Lemma valid_date_fits (y m dd : Z) :
  valid_date y m dd = true ->
  forallb fits_c_int [y; m; dd; 0; 0; 0; 0] = true.
Proof.
  unfold valid_date, MINYEAR, MAXYEAR. intros H.
  repeat (apply andb_true_iff in H as [H ?]).
  pose proof (days_in_month_le y m).
  unfold fits_c_int. simpl.
  repeat (apply andb_true_iff; split); try reflexivity; apply Z.leb_le; lia.
Qed.

Lemma new_date_ok (y m dd : Z) :
  valid_date y m dd = true ->
  new y m dd 0 0 0 0 None = Ok (mk_datetime y m dd 0 0 0 0 None).
Proof.
  intros Hv. unfold new. rewrite (valid_date_fits y m dd Hv), Hv. reflexivity.
Qed.

(** Unfolding [parse_date_from_text] on a text of three fields. *)
Lemma parse_date_three_fields (date_text day month yr : string) :
  split "/" date_text = [day; month; yr] ->
  parse_date_from_text date_text
  = try_except
      (y ← int yr; m ← int month; dd ← int day;
       dt ← new y m dd 0 0 0 0 None; Ok (Some dt))
      is_ValueError_or_IndexError (fun _ => Ok None).
Proof. intros Hs. unfold parse_date_from_text. by rewrite Hs. Qed.

(** X1. [parse_date_from_text] raises exactly when the text has three
    "/"-separated fields, all three are integers, and one of them does
    not fit a C int; what it raises then is [OverflowError]. *)
Theorem parse_date_from_text_raises_iff (date_text : string) (e : exn) :
  parse_date_from_text date_text = Raise e <->
  e = OverflowError
  /\ exists day month yr y m dd,
       split "/" date_text = [day; month; yr]
       /\ int yr = Ok y /\ int month = Ok m /\ int day = Ok dd
       /\ forallb fits_c_int [y; m; dd] = false.
Proof.
  split; [apply parse_date_from_text_raises |].
  intros (-> & day & month & yr & y & m & dd & Hs & Hy & Hm & Hd & Hfit).
  rewrite (parse_date_three_fields _ day month yr Hs), Hy, Hm, Hd.
  cbn [mbind result_bind]. unfold new.
  assert (H7 : forallb fits_c_int [y; m; dd; 0; 0; 0; 0] = false).
  { simpl in *. exact Hfit. }
  by rewrite H7.
Qed.

(** X2. [parse_date_from_text] returns a date exactly when the text is
    day/month/year with three integers that name a day of the
    calendar (years 1 to 9999); the date is that day at midnight,
    without time zone. *)
Theorem parse_date_from_text_date_iff (date_text : string) (dt : datetime) :
  parse_date_from_text date_text = Ok (Some dt) <->
  exists day month yr y m dd,
    split "/" date_text = [day; month; yr]
    /\ int yr = Ok y /\ int month = Ok m /\ int day = Ok dd
    /\ valid_date y m dd = true
    /\ dt = mk_datetime y m dd 0 0 0 0 None.
Proof.
  split.
  - unfold parse_date_from_text.
    destruct (split "/" date_text) as [|day [|month [|yr [|]]]]; cbn;
      try done.
    destruct (int yr) as [y0|e] eqn:Hy; cbn; [| by destruct e].
    destruct (int month) as [m0|e] eqn:Hm; cbn; [| by destruct e].
    destruct (int day) as [d0|e] eqn:Hd; cbn; [| by destruct e].
    destruct (new y0 m0 d0 0 0 0 0 None) as [dt0|e] eqn:E; cbn;
      [| by destruct e].
    intros [= <-]. apply new_ok in E as [-> Hv].
    by exists day, month, yr, y0, m0, d0.
  - intros (day & month & yr & y & m & dd & Hs & Hy & Hm & Hd & Hv & ->).
    rewrite (parse_date_three_fields _ day month yr Hs), Hy, Hm, Hd.
    cbn [mbind result_bind]. by rewrite new_date_ok.
Qed.

(** What the matcher returns is a split of its input. *)
Lemma run_prefix (r : re) :
  forall s t s', (t, s') ∈ run r s -> s = t +:+ s'.
Proof.
  induction r as [c|c|lo hi|r1 IH1 r2 IH2|r1 IH1 r2 IH2|r1 IH1];
    intros s t s' H; simpl in H.
  - destruct s as [|c' s0]; [by apply elem_of_nil in H |].
    destruct (Ascii.eqb _ _); [| by apply elem_of_nil in H].
    apply list_elem_of_singleton in H. by injection H as -> ->.
  - destruct s as [|c' s0]; [by apply elem_of_nil in H |].
    destruct (Ascii.eqb _ _); [| by apply elem_of_nil in H].
    apply list_elem_of_singleton in H. by injection H as -> ->.
  - destruct s as [|c' s0]; [by apply elem_of_nil in H |].
    destruct (_ && _); [| by apply elem_of_nil in H].
    apply list_elem_of_singleton in H. by injection H as -> ->.
  - apply list_elem_of_bind in H as ([t1 s1] & H & H1).
    apply list_elem_of_bind in H as ([t2 s2] & H & H2).
    apply list_elem_of_singleton in H. injection H as -> ->.
    apply IH1 in H1. apply IH2 in H2. subst.
    by rewrite PyFacts.str_app_assoc.
  - apply elem_of_app in H as [H | H]; [by apply IH1 | by apply IH2].
  - apply elem_of_app in H as [H | H]; [by apply IH1 |].
    apply list_elem_of_singleton in H. by injection H as -> ->.
Qed.

(** The first group of a match is matched at the start of the input. *)
Lemma match_items_first (k : ascii) (r : re) (items : list item)
    (s : string) (groups : list (ascii * string)) (rest : string) :
  (groups, rest) ∈ match_items (Group k r :: items) s ->
  exists t s1 groups', groups = (k, t) :: groups' /\ (t, s1) ∈ run r s.
Proof.
  intros H. simpl in H.
  apply list_elem_of_bind in H as ([t s1] & H & Ht).
  apply list_elem_of_bind in H as ([groups' s2] & H & _).
  apply list_elem_of_singleton in H. injection H as -> ->.
  by exists t, s1, groups'.
Qed.

Lemma substring_prefix (t s' : string) :
  String.substring 0 (String.length t) (t +:+ s') = t.
Proof.
  induction t as [|c t IH]; [by destruct s' |].
  rewrite PyFacts.str_app_cons. simpl. by rewrite IH.
Qed.

(** [%Y] matches exactly four characters. *)
Lemma run_year_length (s t s' : string) :
  (t, s') ∈ run (d · d · d · d)%re s -> String.length t = 4%nat.
Proof.
  intros H. simpl in H.
  repeat match goal with
         | H : _ ∈ _ ≫= _ |- _ =>
             apply list_elem_of_bind in H as ([? ?] & H & ?)
         | H : _ ∈ [_] |- _ =>
             apply list_elem_of_singleton in H; simplify_eq
         | H : _ ∈ match ?x with EmptyString => _ | String _ _ => _ end |- _ =>
             destruct x; [by apply elem_of_nil in H |]
         | H : _ ∈ (if ?b then _ else _) |- _ =>
             destruct b; [| by apply elem_of_nil in H]
         end.
  reflexivity.
Qed.

(** With a format that begins with [%Y], the year of the result is the
    number written in the first four characters of the input. *)
Lemma strptime_year_prefix (data_string format : string)
    (items : list item) (dt : datetime) :
  pattern format = Some (Group "Y" (d · d · d · d)%re :: items) ->
  strptime data_string format = Ok dt ->
  int (String.substring 0 4 data_string) = Ok (year dt).
Proof.
  intros Hp. unfold strptime. rewrite Hp.
  destruct (match_items _ data_string) as [|[groups rest] ms] eqn:Hm; [done |].
  destruct (truthy rest); [done |].
  assert (Hin : (groups, rest)
                ∈ match_items (Group "Y" (d · d · d · d)%re :: items)
                    data_string) by (by eapply elem_of_head).
  apply match_items_first in Hin as (t & s1 & groups' & -> & Ht).
  pose proof (run_year_length _ _ _ Ht) as Hlen.
  apply run_prefix in Ht. subst data_string.
  rewrite <- Hlen, substring_prefix.
  intros H. apply bind_ok in H as (y & Hy & H).
  unfold group_int in Hy. cbn [lookup_group] in Hy.
  rewrite Ascii.eqb_refl in Hy. rewrite Hy.
  repeat (apply bind_ok in H as (? & _ & H)).
  match goal with
  | tz : option (Z * Z) |- _ => destruct tz as [[gmtoff frac]|]
  end.
  - apply bind_ok in H as (off & _ & H). apply new_ok in H as [-> _]. done.
  - apply new_ok in H as [-> _]. done.
Qed.

Lemma strptime_valid (data_string format : string) (dt : datetime) :
  strptime data_string format = Ok dt ->
  valid_date (year dt) (month dt) (day dt) = true.
Proof.
  unfold strptime.
  destruct (pattern format) as [items|]; [| done].
  destruct (match_items items data_string) as [|[groups rest] ms]; [done |].
  destruct (truthy rest); [done |].
  intros H.
  repeat (apply bind_ok in H as (? & _ & H)).
  match goal with
  | tz : option (Z * Z) |- _ => destruct tz as [[gmtoff frac]|]
  end.
  - apply bind_ok in H as (off & _ & H). by apply new_ok in H as [-> ?].
  - by apply new_ok in H as [-> ?].
Qed.

(** X3. When [parse_iso_date] returns a date, its year is the number
    written in the first four characters of the string, whatever the
    UTC offset that follows, and the date is a day of the calendar. *)
Theorem parse_iso_date_year_is_written (date_str : string) (dt : datetime) :
  parse_iso_date date_str = Ok (Some dt) ->
  int (String.substring 0 4 date_str) = Ok (year dt)
  /\ 1 <= year dt <= 9999
  /\ valid_date (year dt) (month dt) (day dt) = true.
Proof.
  intros H. split; [| split; [by eapply parse_iso_date_year |]];
    revert H; unfold parse_iso_date; rewrite try_strptime;
    (destruct (strptime date_str "%Y-%m-%dT%H:%M:%S%z") as [d1|e1] eqn:E1;
     [intros [= <-] |
      rewrite try_strptime;
      destruct (strptime date_str "%Y-%m-%d") as [d2|e2] eqn:E2; [| done];
      intros [= <-]]).
  - eapply strptime_year_prefix; [| exact E1]. reflexivity.
  - eapply strptime_year_prefix; [| exact E2]. reflexivity.
  - by eapply strptime_valid.
  - by eapply strptime_valid.
Qed.

Lemma parse_iso_date_year_is_written_witness :
  exists dt,
    parse_iso_date "2024-01-01T00:30:00+0700" = Ok (Some dt)
    /\ int "2024" = Ok (year dt).
Proof.
  eexists. split; [vm_compute; reflexivity |].
  refine (proj1 (parse_iso_date_year_is_written
                   "2024-01-01T00:30:00+0700" _ _)).
  vm_compute. reflexivity.
Defined.

Lemma parse_date_from_text_raises_iff_witness :
  parse_date_from_text "1/1/2147483648" = Raise OverflowError.
Proof.
  apply (proj2 (parse_date_from_text_raises_iff "1/1/2147483648"
                  OverflowError)).
  split; [reflexivity |].
  exists "1", "1", "2147483648", 2147483648, 1, 1.
  repeat split; vm_compute; reflexivity.
Defined.

End ParserExtras.

(** ** Links files *)

Module UtilsExtras.
Import Notions Cases.
Import Py PyFacts Disk Utils Spec UtilsFacts.

Lemma all_chars_app (p : ascii -> bool) (s t : string) :
  all_chars p (s +:+ t) = all_chars p s && all_chars p t.
Proof.
  induction s as [|c s IH]; [done |].
  rewrite str_app_cons. simpl. by rewrite IH, andb_assoc.
Qed.

Lemma lstrip_all_chars (p sp : ascii -> bool) (s : string) :
  all_chars p s = true -> all_chars p (lstrip_by sp s) = true.
Proof.
  induction s as [|c s IH]; [done |]. simpl. intros H.
  apply andb_true_iff in H as [Hc Hs].
  destruct (sp c); [by apply IH |]. simpl. by rewrite Hc, Hs.
Qed.

Lemma rstrip_all_chars (p sp : ascii -> bool) (s : string) :
  all_chars p s = true -> all_chars p (rstrip_by sp s) = true.
Proof.
  induction s as [|c s IH]; [done |]. simpl. intros H.
  apply andb_true_iff in H as [Hc Hs]. specialize (IH Hs).
  destruct (rstrip_by sp s) as [|c' r'].
  - destruct (sp c); [done |]. simpl. by rewrite Hc.
  - simpl in *. by rewrite Hc, IH.
Qed.

Lemma lstrip_first_not_space (s : string) :
  not_space (first_char (lstrip_by isspace s)) = true.
Proof.
  induction s as [|c s IH]; [done |]. simpl.
  destruct (isspace c) eqn:E; [exact IH |]. simpl. by rewrite E.
Qed.

Lemma rstrip_first (s : string) :
  not_space (first_char s) = true ->
  not_space (first_char (rstrip_by isspace s)) = true.
Proof.
  destruct s as [|c s]; [done |]. simpl. intros Hc.
  destruct (rstrip_by isspace s); simpl; [| exact Hc].
  destruct (isspace c) eqn:E; [done |]. simpl. by rewrite E.
Qed.

Lemma rstrip_last_not_space (s : string) :
  not_space (last_char (rstrip_by isspace s)) = true.
Proof.
  induction s as [|c s IH]; [done |]. simpl.
  destruct (rstrip_by isspace s) as [|c' r'].
  - destruct (isspace c) eqn:E; [done |]. simpl. by rewrite E.
  - exact IH.
Qed.

(** A stripped string has no blank at either end. *)
Lemma strip_edges (s : string) :
  not_space (first_char (strip s)) = true
  /\ not_space (last_char (strip s)) = true.
Proof.
  unfold strip, strip_by. split.
  - apply rstrip_first, lstrip_first_not_space.
  - apply rstrip_last_not_space.
Qed.

Lemma strip_no_newline (s : string) :
  no_newline s = true -> no_newline (strip s) = true.
Proof.
  intros H. unfold no_newline, strip, strip_by.
  by apply rstrip_all_chars, lstrip_all_chars.
Qed.

(** Reading in text mode leaves no carriage return. *)
Lemma translate_in_no_CR :
  forall s, all_chars (fun c => negb (Ascii.eqb c CR)) (translate_in s) = true.
Proof.
  fix IH 1. intros [|c r]; [done |].
  pose proof (IH r) as Hr. simpl.
  destruct (Ascii.eqb c CR) eqn:Ec.
  - destruct r as [|c' r']; [done |].
    destruct (Ascii.eqb c' LF); simpl.
    + apply (IH r').
    + exact Hr.
  - simpl. rewrite Ec. simpl. exact Hr.
Qed.

Lemma readlines_bodies (s : string) : Forall line_body_ok (readlines s).
Proof.
  induction s as [|c r IH]; [constructor |]. simpl.
  destruct (Ascii.eqb c LF) eqn:Ec.
  - constructor; [| exact IH]. exists "". split; [done |]. right.
    apply Ascii.eqb_eq in Ec. by subst c.
  - destruct (readlines r) as [|l ls].
    + constructor; [| constructor]. exists (String c ""). split; [| by left].
      simpl. by rewrite Ec.
    + inversion IH as [|? ? (body & Hb & Hl) Hls]; subst.
      constructor; [| exact Hls]. exists (String c body). split.
      * simpl. by rewrite Ec.
      * destruct Hl as [-> | ->]; [by left | by right].
Qed.

Lemma readlines_all_chars (p : ascii -> bool) (s : string) :
  all_chars p s = true ->
  Forall (fun l => all_chars p l = true) (readlines s).
Proof.
  induction s as [|c r IH]; [constructor |]. simpl. intros H.
  apply andb_true_iff in H as [Hc Hr]. specialize (IH Hr).
  destruct (Ascii.eqb c LF).
  - constructor; [| exact IH]. simpl. by rewrite Hc.
  - destruct (readlines r) as [|l ls].
    + constructor; [| constructor]. simpl. by rewrite Hc.
    + inversion IH; subst. constructor; [| done]. simpl. by rewrite Hc.
Qed.

(** What the reader keeps of a line is a clean URL. *)
Lemma kept_line_clean (l : string) :
  line_body_ok l ->
  all_chars (fun c => negb (Ascii.eqb c CR)) l = true ->
  truthy (strip l) = true ->
  clean_url (strip l) = true.
Proof.
  intros (body & Hlf & Hl) Hcr Hne.
  assert (Hstrip : strip l = strip body).
  { destruct Hl as [-> | ->]; [done | apply strip_line]. }
  assert (Hcr' : all_chars (fun c => negb (Ascii.eqb c CR)) body = true).
  { destruct Hl as [-> | ->]; [done |].
    rewrite all_chars_app in Hcr. by apply andb_true_iff in Hcr as [? _]. }
  assert (Hnl : no_newline body = true).
  { unfold no_newline, is_newline. clear -Hlf Hcr'.
    induction body as [|c b IH]; [done |]. simpl in *.
    apply andb_true_iff in Hlf as [H1 H2].
    apply andb_true_iff in Hcr' as [H3 H4].
    rewrite IH by done. rewrite andb_true_r.
    apply negb_true_iff in H1, H3. by rewrite H1, H3. }
  rewrite Hstrip in *. unfold clean_url.
  destruct (strip_edges body) as [Hf Hla].
  by rewrite Hne, Hf, Hla, strip_no_newline.
Qed.

Lemma read_links_clean (filepath : string) (dk : disk) (links : list string) :
  read_links_from_file filepath dk = Ok links ->
  Forall (fun u => clean_url u = true) links.
Proof.
  unfold read_links_from_file, read_text.
  destruct (files dk !! filepath) as [stored|]; [| done].
  cbn [mbind result_bind]. intros [= <-].
  pose proof (readlines_bodies (translate_in stored)) as Hb.
  pose proof (readlines_all_chars _ _ (translate_in_no_CR stored)) as Hc.
  induction (readlines (translate_in stored)) as [|l ls IH]; [constructor |].
  inversion Hb; inversion Hc; subst.
  rewrite filter_cons. destruct (decide (truthy (strip l) = true)).
  - simpl map. constructor; [by apply kept_line_clean | by apply IH].
  - by apply IH.
Qed.

(** X4. Whatever a links file holds, the list [read_links_from_file]
    returns has only entries that are non-empty, have no blank at
    either end and no line break; so saving that list to any path and
    reading it again gives the same list. *)
Theorem read_links_is_normal_form (filepath target : string)
    (dk dk' : disk) (links : list string) :
  read_links_from_file filepath dk = Ok links ->
  Forall (fun u => clean_url u = true) links
  /\ (save_links_to_file links target dk = Ok dk' ->
      read_links_from_file target dk' = Ok links).
Proof.
  intros Hread. pose proof (read_links_clean _ _ _ Hread) as Hclean.
  split; [exact Hclean |].
  unfold save_links_to_file, write_text.
  destruct (decide (target ∈ unwritable dk)); [done |].
  intros [= <-].
  rewrite (read_lines_file target _ links).
  - by rewrite kept_clean.
  - by apply clean_no_newline.
  - simpl. by rewrite lookup_insert_eq.
Qed.

Lemma read_links_is_normal_form_witness :
  Forall (fun u => clean_url u = true) ["a"; "b c"].
Proof.
  refine (proj1 (read_links_is_normal_form "in.txt" "out.txt"
                   (mk_disk Windows {[ "in.txt" := "  a  

 b c " ]} ∅)
                   (mk_disk Windows ∅ ∅) ["a"; "b c"] _)).
  vm_compute. reflexivity.
Defined.

(** X5. With a configuration whose "headless" entry is absent or true,
    the [headless] parameter of [create_driver] changes nothing:
    "--headless" is always passed to Chrome.  The shipped configuration
    is of this kind. *)
Theorem headless_cannot_be_switched_off
    (chrome_options : gmap string Config.pyval) (headless : bool) :
  (forall v, chrome_options !! "headless" = Some v ->
             Config.truthy_val v = true) ->
  chrome_arguments chrome_options headless
    = chrome_arguments chrome_options true
  /\ "--headless" ∈ chrome_arguments chrome_options headless.
Proof.
  intros Hcfg.
  assert (Hon : Config.truthy_val
                  (default (Config.PyBool true)
                           (chrome_options !! "headless")) = true).
  { destruct (chrome_options !! "headless") as [v|] eqn:E; [| done].
    by apply Hcfg. }
  unfold chrome_arguments. rewrite Hon, !orb_true_r. split; [done |].
  apply elem_of_app. left. apply list_elem_of_here.
Qed.

Lemma headless_cannot_be_switched_off_witness :
  create_driver false = create_driver true
  /\ "--headless" ∈ create_driver false.
Proof.
  apply (headless_cannot_be_switched_off Config.CHROME_OPTIONS false).
  intros v Hv. vm_compute in Hv. by injection Hv as <-.
Defined.

End UtilsExtras.

(** ** The year of a listed article, continued *)

Module YearExtras.
Import Notions Cases.
Import Py Datetime Utils LinkCollector Spec Samples YearFacts.

(** X6. A year that [check_article_year] returns lies between 1 and
    9999; it is never 0, so the tests [year and ...] of the collectors
    never take a dated article for an undated one. *)
Theorem returned_year_is_calendar_year (a : article_element) (t y : Z) :
  check_article_year a t = Some y ->
  1 <= y <= 9999 /\ truthy_int (check_article_year a t) = true.
Proof.
  intros Hy. pose proof (check_article_year_range a t y Hy) as Hr.
  split; [exact Hr |]. rewrite Hy. simpl. apply negb_true_iff. lia.
Qed.

Lemma returned_year_is_calendar_year_witness :
  1 <= 2024 <= 9999 /\ truthy_int (check_article_year timestamped 0) = true.
Proof.
  apply (returned_year_is_calendar_year timestamped 0 2024).
  vm_compute. reflexivity.
Defined.

(** X7. A driver error other than [NoSuchElementException] gives no
    year: raised by the lookup of the time element, the text date is
    not even queried, whatever it holds; raised by the lookup of the
    text date after the timestamp gave nothing, the outcome is None as
    well. *)
Theorem driver_error_gives_no_year (a : article_element) (t : Z) (e : exn) :
  (time_datetime a = Raise e -> e <> NoSuchElementException ->
   check_article_year a t = None /\ probes a t = [ProbeTime])
  /\ (no_timestamp a -> date_text a = Raise e ->
      check_article_year a t = None
      /\ probes a t = [ProbeTime; ProbeDate]).
Proof.
  split.
  - intros Ht He. unfold check_article_year, probes.
    by rewrite (probed_unexpected a t e Ht He).
  - intros Hn Hd. unfold check_article_year, probes.
    rewrite (probed_fallback a t Hn), Hd. done.
Qed.

Lemma driver_error_gives_no_year_witness :
  check_article_year stale 2024 = None /\ probes stale 2024 = [ProbeTime].
Proof.
  apply (proj1 (driver_error_gives_no_year stale 2024 WebDriverException));
    [reflexivity | discriminate].
Defined.

(** X8. The [OverflowError] that escapes [parse_date_from_text] does
    not escape [check_article_year]: when the timestamp gives nothing
    and parsing the text date raises, the outcome is None. *)
Theorem text_date_error_is_absorbed (a : article_element) (t : Z)
    (text : string) (e : exn) :
  no_timestamp a -> date_text a = Ok text ->
  parse_date_from_text (strip text) = Raise e ->
  check_article_year a t = None.
Proof.
  intros Hn Hd Hp. unfold check_article_year.
  rewrite (probed_fallback a t Hn), Hd, Hp. done.
Qed.

Lemma text_date_error_is_absorbed_witness :
  check_article_year overflowing 2024 = None.
Proof.
  apply (text_date_error_is_absorbed overflowing 2024 " 1/1/2147483648 "
           OverflowError).
  - by left.
  - reflexivity.
  - vm_compute. reflexivity.
Defined.

End YearExtras.

(** ** The collectors: what they collect *)

Module CollectFacts.
Import Notions Cases.
Import Py Datetime Utils LinkCollector Spec Samples YearFacts ScrollFacts.

(** *** The steps of the scroll-based [for] loop *)

Lemma scroll_for_undated (a : article_element) (rest : list article_element)
    (t m : Z) (links : gset string) :
  check_article_year a t = None ->
  scroll_for (a :: rest) t m links
  = if bool_decide (Z.of_nat (size links) >= m)
    then Ok (Returned links ReachedMax)
    else scroll_for rest t m links.
Proof. intros Hy. cbn [scroll_for]. rewrite Hy. reflexivity. Qed.

Lemma scroll_for_target_any (a : article_element)
    (rest : list article_element) (t m : Z) (links : gset string) :
  check_article_year a t = Some t ->
  scroll_for (a :: rest) t m links
  = match thumbnail_href a with
    | Raise NoSuchElementException => scroll_for rest t m links
    | Raise e => Raise e
    | Ok link =>
        if bool_decide (Z.of_nat (size (scroll_added link links)) >= m)
        then Ok (Returned (scroll_added link links) ReachedMax)
        else scroll_for rest t m (scroll_added link links)
    end.
Proof.
  intros Hy. pose proof (check_article_year_range a t t Hy).
  cbn [scroll_for]. rewrite Hy. cbn [truthy_int default]. unfold id.
  replace (negb (t =? 0)) with true by (symmetry; apply negb_true_iff; lia).
  rewrite bool_decide_false by lia. rewrite bool_decide_true by done.
  reflexivity.
Qed.

Lemma scroll_added_elem (link : option string) (links : gset string)
    (l : string) :
  l ∈ scroll_added link links ->
  l ∈ links \/ (link = Some l /\ l <> "").
Proof.
  unfold scroll_added. destruct link as [l'|]; [| by left].
  destruct (truthy l') eqn:E; [| by left].
  intros [->%elem_of_singleton | H]%elem_of_union; [| by left].
  right. split; [done |]. by destruct l'.
Qed.

Lemma scroll_for_sound (t m : Z) (articles : list article_element) :
  forall (links : gset string) (r : for_exit),
    scroll_for articles t m links = Ok r ->
    forall l, l ∈ exit_links r ->
      l ∈ links \/ exists a, a ∈ articles /\ thumbnail_target t l a.
Proof.
  induction articles as [|a rest IH]; intros links r Hrun l Hl.
  - injection Hrun as <-. by left.
  - assert (Hrest : forall links',
      scroll_for rest t m links' = Ok r ->
      l ∈ links' \/ exists a0, a0 ∈ a :: rest /\ thumbnail_target t l a0).
    { intros links' Hr. destruct (IH links' r Hr l Hl) as [? | (a0 & ? & ?)];
        [by left | right]. exists a0. split; [by apply list_elem_of_further | done]. }
    destruct (check_article_year a t) as [y|] eqn:Hy.
    + destruct (Z.lt_trichotomy y t) as [Hlt | [-> | Hgt]].
      * rewrite (scroll_for_older a rest t m y) in Hrun by done.
        injection Hrun as <-. by left.
      * rewrite (scroll_for_target_any a rest t m links Hy) in Hrun.
        destruct (thumbnail_href a) as [link | e] eqn:Hlink.
        -- assert (Hadd : l ∈ scroll_added link links ->
                     l ∈ links
                     \/ exists a0, a0 ∈ a :: rest /\ thumbnail_target t l a0).
           { intros [? | [-> ?]]%scroll_added_elem; [by left | right].
             exists a. split; [apply list_elem_of_here | done]. }
           case_bool_decide.
           ++ injection Hrun as <-. by apply Hadd.
           ++ destruct (Hrest _ Hrun) as [? | ?]; [by apply Hadd | by right].
        -- destruct e; try done. by apply Hrest.
      * rewrite (scroll_for_newer a rest t m y) in Hrun by (done || lia).
        by apply Hrest.
    + rewrite (scroll_for_undated a rest t m links Hy) in Hrun.
      case_bool_decide; [injection Hrun as <-; by left | by apply Hrest].
Qed.

Lemma scroll_while_sound (driver : browser) (t m : Z) :
  forall (fuel : nat) (links : gset string) (last_height : Z) (sc : nat)
         (c : collected),
    (forall l, l ∈ links -> scroll_listed driver t l) ->
    scroll_while fuel driver t m links last_height sc = Some (Ok c) ->
    forall l, l ∈ LinkCollector.links c -> scroll_listed driver t l.
Proof.
  induction fuel as [|fuel IH]; intros links last_height sc c Hinv; [done |].
  rewrite scroll_while_step.
  case_bool_decide as Hsc; [| intros [= <-]; exact Hinv].
  assert (Hbody : forall r,
    try_except
      (articles ← news_items (driver sc);
       scroll_for (reverse articles) t m links)
      is_NoSuchElement (fun _ => Ok (Exhausted links)) = Ok r ->
    forall l, l ∈ exit_links r -> scroll_listed driver t l).
  { intros r Hr l Hl.
    destruct (news_items (driver sc)) as [articles | e] eqn:Hn;
      cbn [mbind result_bind] in Hr.
    - destruct (scroll_for (reverse articles) t m links) as [r' | e] eqn:Hf;
        cbn [try_except] in Hr.
      + injection Hr as <-.
        destruct (scroll_for_sound t m _ _ _ Hf l Hl) as [? | (a & Ha & Hta)];
          [by apply Hinv |].
        exists sc, articles, a. repeat split; try apply Hta.
        * unfold Config.MAX_SCROLLS in *. lia.
        * done.
        * by apply elem_of_reverse.
      + destruct (is_NoSuchElement e); [| done].
        injection Hr as <-. by apply Hinv.
    - cbn [try_except] in Hr. destruct (is_NoSuchElement e); [| done].
      injection Hr as <-. by apply Hinv. }
  destruct (try_except _ _ _) as [[links' | links' why] | e]; [| | done].
  - cbv zeta. case_bool_decide.
    + intros [= <-]. exact (Hbody _ eq_refl).
    + apply IH. exact (Hbody _ eq_refl).
  - intros [= <-]. exact (Hbody _ eq_refl).
Qed.

(** X9. Every link [collect_links_scroll_based] returns is the
    thumbnail link of an item that some page of the run listed with the
    target year: the collector invents no link and lets no item of
    another year, and no undated item, through. *)
Theorem scroll_collects_only_target_year (driver : browser) (t m : Z)
    (c : collected) (l : string) :
  collect_links_scroll_based driver t m = Some (Ok c) ->
  l ∈ links c ->
  scroll_listed driver t l.
Proof.
  intros Hrun. unfold collect_links_scroll_based in Hrun.
  eapply scroll_while_sound; [| exact Hrun].
  intros l' Hl'. by apply elem_of_empty in Hl'.
Qed.

Lemma scroll_collects_only_target_year_witness :
  scroll_listed sample_driver 2024 "https://znews.vn/c.html".
Proof.
  eapply (scroll_collects_only_target_year sample_driver 2024 200
            (mk_collected _ (ReachedOlder 2023) O)).
  - vm_compute. reflexivity.
  - simpl. set_solver.
Defined.

(** *** The article-based collector *)

Lemma article_for_target (a : article_element) (rest : list article_element)
    (t m : Z) (links : gset string) :
  check_article_year a t = Some t ->
  article_for (a :: rest) t m links
  = match anchor_href a with
    | Raise NoSuchElementException => article_for rest t m links
    | Raise e => Raise e
    | Ok link =>
        if bool_decide (Z.of_nat (size (article_added link links)) >= m)
        then Ok (article_added link links)
        else article_for rest t m (article_added link links)
    end.
Proof.
  intros Hy. cbn [article_for]. rewrite Hy.
  by rewrite bool_decide_true.
Qed.

Lemma article_for_other (a : article_element) (rest : list article_element)
    (t m : Z) (links : gset string) :
  check_article_year a t <> Some t ->
  article_for (a :: rest) t m links
  = if bool_decide (Z.of_nat (size links) >= m) then Ok links
    else article_for rest t m links.
Proof.
  intros Hy. cbn [article_for]. by rewrite bool_decide_false.
Qed.

Lemma article_added_elem (link : option string) (links : gset string)
    (l : string) :
  l ∈ article_added link links ->
  l ∈ links \/ (link = Some l /\ l <> "").
Proof.
  unfold article_added. destruct link as [l'|]; [| by left].
  destruct (truthy l') eqn:E; [| by left].
  destruct (bool_decide (l' ∉ links)); cbn [andb]; [| by left].
  intros [->%elem_of_singleton | H]%elem_of_union; [| by left].
  right. split; [done |]. by destruct l'.
Qed.

Lemma article_added_subseteq (link : option string) (links : gset string) :
  links ⊆ article_added link links.
Proof.
  unfold article_added. destruct link as [l'|]; [| done].
  destruct (_ && _); [| done]. apply union_subseteq_r.
Qed.

Lemma article_added_present (links : gset string) (l : string) :
  l <> "" -> l ∈ article_added (Some l) links.
Proof.
  intros Hl. unfold article_added.
  replace (truthy l) with true by (by destruct l).
  destruct (decide (l ∈ links)) as [Hin | Hout].
  - rewrite (bool_decide_false (l ∉ links)) by (intros H; by apply H).
    exact Hin.
  - rewrite bool_decide_true by done. cbn [andb].
    apply elem_of_union_l. by apply elem_of_singleton.
Qed.

(** What one pass over a page adds, keeps and covers. *)
Lemma article_for_spec (t m : Z) (articles : list article_element) :
  forall links links' : gset string,
    article_for articles t m links = Ok links' ->
    links ⊆ links'
    /\ (forall l, l ∈ links' ->
          l ∈ links \/ exists a, a ∈ articles /\ anchor_target t l a)
    /\ (Z.of_nat (size links') < m ->
        forall a l, a ∈ articles -> anchor_target t l a -> l ∈ links').
Proof.
  induction articles as [|a rest IH]; intros links links' Hrun.
  - injection Hrun as <-. split; [done |]. split; [by left |].
    intros _ a l Ha. by apply elem_of_nil in Ha.
  - assert (Hrest : forall links1,
      links ⊆ links1 ->
      (forall l, l ∈ links1 ->
         l ∈ links \/ exists a0, a0 ∈ a :: rest /\ anchor_target t l a0) ->
      (forall l, anchor_target t l a -> l ∈ links1) ->
      article_for rest t m links1 = Ok links' ->
      links ⊆ links'
      /\ (forall l, l ∈ links' ->
            l ∈ links \/ exists a0, a0 ∈ a :: rest /\ anchor_target t l a0)
      /\ (Z.of_nat (size links') < m ->
          forall a0 l, a0 ∈ a :: rest -> anchor_target t l a0 -> l ∈ links')).
    { intros links1 Hsub Hnew Hcov Hr.
      destruct (IH links1 links' Hr) as (Hs & Hfrom & Hall).
      split; [by etrans |]. split.
      - intros l Hl. destruct (Hfrom l Hl) as [? | (a0 & ? & ?)];
          [by apply Hnew | right].
        exists a0. split; [by apply list_elem_of_further | done].
      - intros Hsize a0 l [-> | Ha0]%elem_of_cons Hta.
        + by apply Hs, Hcov.
        + by eapply Hall. }
    assert (Hstop : forall links1,
      links ⊆ links1 ->
      (forall l, l ∈ links1 ->
         l ∈ links \/ exists a0, a0 ∈ a :: rest /\ anchor_target t l a0) ->
      Z.of_nat (size links1) >= m -> links' = links1 ->
      links ⊆ links'
      /\ (forall l, l ∈ links' ->
            l ∈ links \/ exists a0, a0 ∈ a :: rest /\ anchor_target t l a0)
      /\ (Z.of_nat (size links') < m ->
          forall a0 l, a0 ∈ a :: rest -> anchor_target t l a0 -> l ∈ links')).
    { intros links1 Hsub Hnew Hcap ->. split; [done |]. split; [done |]. lia. }
    destruct (decide (check_article_year a t = Some t)) as [Hy | Hy].
    + rewrite (article_for_target a rest t m links Hy) in Hrun.
      destruct (anchor_href a) as [link | e] eqn:Hlink.
      * assert (Hnew : forall l, l ∈ article_added link links ->
                  l ∈ links
                  \/ exists a0, a0 ∈ a :: rest /\ anchor_target t l a0).
        { intros l [? | [-> ?]]%article_added_elem; [by left | right].
          exists a. split; [apply list_elem_of_here | done]. }
        case_bool_decide.
        -- injection Hrun as <-.
           apply (Hstop (article_added link links)); try done.
           apply article_added_subseteq.
        -- apply (Hrest (article_added link links)); try done.
           ++ apply article_added_subseteq.
           ++ intros l (_ & Hl & Hne). rewrite Hl in Hlink.
              injection Hlink as <-. by apply article_added_present.
      * destruct e; try done.
        apply (Hrest links); try done; [by left |].
        intros l (_ & Hl & _). congruence.
    + rewrite (article_for_other a rest t m links Hy) in Hrun.
      case_bool_decide.
      * injection Hrun as <-. apply (Hstop links); try done. by left.
      * apply (Hrest links); try done; [by left |].
        intros l (Hl & _). congruence.
Qed.

Lemma article_while_step (fuel : nat) (driver : browser) (t m : Z)
    (links : gset string) (sc : nat) :
  article_while (S fuel) driver t m links sc
  = if bool_decide (Z.of_nat sc < Config.MAX_SCROLLS)
       && bool_decide (Z.of_nat (size links) < m) then
      match article_for (article_tags (driver sc)) t m links with
      | Raise e => Some (Raise e)
      | Ok links => article_while fuel driver t m links (S sc)
      end
    else Some (Ok (mk_collected links LoopCondition sc)).
Proof. reflexivity. Qed.

(** The [while] loop of the article-based collector: it returns, and
    what it returns. *)
Lemma article_while_spec (driver : browser) (t m : Z) :
  forall (fuel : nat) (links : gset string) (sc : nat),
    (Z.to_nat Config.MAX_SCROLLS - sc < fuel)%nat ->
    exists r,
      article_while fuel driver t m links sc = Some r
      /\ forall c, r = Ok c ->
           links ⊆ LinkCollector.links c
           /\ (sc <= scrolls c)%nat
           /\ (scrolls c <= sc `max` Z.to_nat Config.MAX_SCROLLS)%nat
           /\ (forall l, l ∈ LinkCollector.links c ->
                 l ∈ links
                 \/ exists k a, (sc <= k < Z.to_nat Config.MAX_SCROLLS)%nat
                       /\ a ∈ article_tags (driver k) /\ anchor_target t l a)
           /\ (Z.of_nat (size (LinkCollector.links c)) < m ->
               (Z.to_nat Config.MAX_SCROLLS <= scrolls c)%nat
               /\ forall k a l,
                    (sc <= k < Z.to_nat Config.MAX_SCROLLS)%nat ->
                    a ∈ article_tags (driver k) -> anchor_target t l a ->
                    l ∈ LinkCollector.links c).
Proof.
  induction fuel as [|fuel IH]; intros links sc Hfuel; [lia |].
  rewrite article_while_step.
  destruct (bool_decide (Z.of_nat sc < Config.MAX_SCROLLS)) eqn:Hsc;
    cbn [andb].
  - apply bool_decide_eq_true in Hsc.
    assert (Hsc' : (sc < Z.to_nat Config.MAX_SCROLLS)%nat) by lia.
    case_bool_decide as Hcap.
    + destruct (article_for _ t m links) as [links1 | e] eqn:Hfor.
      * destruct (article_for_spec t m _ _ _ Hfor) as (Hsub & Hfrom & Hall).
        destruct (IH links1 (S sc)) as (r & Hr & Hc); [lia |].
        exists r. split; [exact Hr |]. intros c Hok.
        destruct (Hc c Hok) as (Hs & Hlo & Hhi & Hsnd & Hcmp).
        split; [by etrans |]. split; [lia |]. split; [lia |]. split.
        -- intros l Hl. destruct (Hsnd l Hl) as [Hl1 | (k & a & Hk & Ha & Hta)].
           ++ destruct (Hfrom l Hl1) as [? | (a & Ha & Hta)]; [by left |].
              right. exists sc, a. split; [lia | done].
           ++ right. exists k, a. split; [lia | done].
        -- intros Hsize. destruct (Hcmp Hsize) as [Hn Hcov].
           split; [exact Hn |]. intros k a l Hk Ha Hta.
           destruct (decide (k = sc)) as [-> | Hne].
           ++ apply Hs. eapply Hall; [| exact Ha | exact Hta].
              pose proof (subseteq_size _ _ Hs). lia.
           ++ eapply Hcov; [| exact Ha | exact Hta]. lia.
      * eexists. split; [reflexivity |]. intros c Hc. discriminate.
    + eexists. split; [reflexivity |]. intros c [= <-]. cbn.
      split; [done |]. split; [lia |]. split; [lia |]. split; [by left |].
      intros Hsize. lia.
  - apply bool_decide_eq_false in Hsc.
    eexists. split; [reflexivity |]. intros c [= <-]. cbn.
    split; [done |]. split; [lia |]. split; [lia |]. split; [by left |].
    intros Hsize. split; [lia |]. intros k a l Hk. lia.
Qed.

Lemma article_collect_spec (driver : browser) (t m : Z) :
  exists r,
    collect_links_article_based driver t m = Some r
    /\ forall c, r = Ok c ->
         (scrolls c <= Z.to_nat Config.MAX_SCROLLS)%nat
         /\ (forall l, l ∈ links c -> article_listed driver t l)
         /\ (Z.of_nat (size (links c)) < m ->
             scrolls c = Z.to_nat Config.MAX_SCROLLS
             /\ forall l, article_listed driver t l -> l ∈ links c).
Proof.
  unfold collect_links_article_based.
  destruct (article_while_spec driver t m (S (Z.to_nat Config.MAX_SCROLLS))
              ∅ O) as (r & Hr & Hc); [lia |].
  exists r. split; [exact Hr |]. intros c Hok.
  destruct (Hc c Hok) as (_ & _ & Hhi & Hsnd & Hcmp).
  split; [lia |]. split.
  - intros l Hl. destruct (Hsnd l Hl) as [Hl0 | (k & a & Hk & Ha & Hta)].
    + by apply elem_of_empty in Hl0.
    + exists k, a. split; [lia | done].
  - intros Hsize. destruct (Hcmp Hsize) as [Hn Hcov]. split; [lia |].
    intros l (k & a & Hk & Ha & Hta). eapply Hcov; [| exact Ha | exact Hta].
    lia.
Qed.

(** What the pass over a page raises comes from the lookup of the link
    of an item of the target year. *)
Lemma article_for_raises (t m : Z) (e : exn) :
  forall (articles : list article_element) (links : gset string),
    article_for articles t m links = Raise e ->
    e <> NoSuchElementException
    /\ exists a, a ∈ articles /\ check_article_year a t = Some t
                 /\ anchor_href a = Raise e.
Proof.
  induction articles as [|a rest IH]; intros links Hrun; [done |].
  assert (Hrest : forall links1, article_for rest t m links1 = Raise e ->
            e <> NoSuchElementException
            /\ exists a0, a0 ∈ a :: rest /\ check_article_year a0 t = Some t
                          /\ anchor_href a0 = Raise e).
  { intros links1 Hr. destruct (IH links1 Hr) as (Hne & a0 & Ha0 & Hy & Hl).
    split; [exact Hne |]. exists a0.
    split; [by apply list_elem_of_further | done]. }
  cbn [article_for] in Hrun. cbv zeta in Hrun.
  destruct (decide (check_article_year a t = Some t)) as [Hy | Hy].
  - rewrite bool_decide_true in Hrun by done.
    destruct (anchor_href a) as [link | e0] eqn:Hlink.
    + destruct (bool_decide (_ >= m)); [done | by eapply Hrest].
    + destruct e0; try by eapply Hrest.
      all: injection Hrun as <-; split; [done |]; exists a;
        split; [apply list_elem_of_here | done].
  - rewrite bool_decide_false in Hrun by done.
    destruct (bool_decide (_ >= m)); [done | by eapply Hrest].
Qed.

Lemma article_while_raises (driver : browser) (t m : Z) (e : exn) :
  forall (fuel : nat) (links : gset string) (sc : nat),
    article_while fuel driver t m links sc = Some (Raise e) ->
    e <> NoSuchElementException
    /\ exists k a, (k < Z.to_nat Config.MAX_SCROLLS)%nat
                   /\ a ∈ article_tags (driver k)
                   /\ check_article_year a t = Some t
                   /\ anchor_href a = Raise e.
Proof.
  induction fuel as [|fuel IH]; intros links sc Hrun; [done |].
  rewrite article_while_step in Hrun.
  destruct (bool_decide (Z.of_nat sc < Config.MAX_SCROLLS)) eqn:Hsc;
    cbn [andb] in Hrun; [| done].
  apply bool_decide_eq_true in Hsc.
  destruct (bool_decide (Z.of_nat (size links) < m)); [| done].
  destruct (article_for _ t m links) as [links1 | e0] eqn:Hfor.
  - by eapply IH.
  - injection Hrun as ->.
    destruct (article_for_raises t m e _ _ Hfor) as (Hne & a & Ha & Hy & Hl).
    split; [exact Hne |]. exists sc, a. split; [lia | done].
Qed.

(** X10. On every sequence of pages that the driver lists, the run of
    [collect_links_article_based] ends.  What it raises is what the
    lookup of the link of an item of the target year raised,
    [NoSuchElementException] excepted, so it returns a set when these
    lookups raise nothing else.  It has no exit for exhausted content:
    when it returns fewer than max_links links it has scrolled exactly
    MAX_SCROLLS times, even on a page that never changes, and never
    more. *)
Theorem article_collector_scrolls_to_the_ceiling (driver : browser)
    (t m : Z) :
  exists r,
    collect_links_article_based driver t m = Some r
    /\ (forall e, r = Raise e ->
          e <> NoSuchElementException
          /\ exists k a, (k < Z.to_nat Config.MAX_SCROLLS)%nat
                /\ a ∈ article_tags (driver k)
                /\ check_article_year a t = Some t
                /\ anchor_href a = Raise e)
    /\ ((forall k a, (k < Z.to_nat Config.MAX_SCROLLS)%nat ->
                     a ∈ article_tags (driver k) ->
                     check_article_year a t = Some t ->
                     anchor_lookup_settled a) ->
        exists c, r = Ok c)
    /\ (forall c, r = Ok c ->
          (scrolls c <= Z.to_nat Config.MAX_SCROLLS)%nat
          /\ (Z.of_nat (size (links c)) < m ->
              scrolls c = Z.to_nat Config.MAX_SCROLLS)).
Proof.
  destruct (article_collect_spec driver t m) as (r & Hr & Hc).
  assert (Hraise : forall e, r = Raise e ->
            e <> NoSuchElementException
            /\ exists k a, (k < Z.to_nat Config.MAX_SCROLLS)%nat
                  /\ a ∈ article_tags (driver k)
                  /\ check_article_year a t = Some t
                  /\ anchor_href a = Raise e).
  { intros e ->. by eapply article_while_raises. }
  exists r. split; [exact Hr |]. split; [exact Hraise |]. split.
  - intros Hset. destruct r as [c | e]; [by exists c |].
    destruct (Hraise e eq_refl) as (Hne & k & a & Hk & Ha & Hy & Hl).
    destruct Hne. by apply (Hset k a Hk Ha Hy).
  - intros c ->. destruct (Hc c eq_refl) as (Hhi & _ & Hcmp).
    split; [exact Hhi | intros Hs; by apply Hcmp].
Qed.

(** X11. Every link [collect_links_article_based] returns is the first
    link of an [article] element that some page of the run showed with
    the target year. *)
Theorem article_collects_only_target_year (driver : browser) (t m : Z)
    (c : collected) (l : string) :
  collect_links_article_based driver t m = Some (Ok c) ->
  l ∈ links c ->
  article_listed driver t l.
Proof.
  intros Hrun Hl. destruct (article_collect_spec driver t m) as (r & Hr & Hc).
  rewrite Hrun in Hr. injection Hr as <-.
  destruct (Hc c eq_refl) as (_ & Hsnd & _). by apply Hsnd.
Qed.

(** X12. When [collect_links_article_based] returns fewer than
    max_links links, it has missed nothing: every link that one of the
    MAX_SCROLLS pages showed with an [article] element of the target
    year is in the result, wherever older or undated items stand. *)
Theorem article_collects_all_below_cap (driver : browser) (t m : Z)
    (c : collected) (l : string) :
  collect_links_article_based driver t m = Some (Ok c) ->
  Z.of_nat (size (links c)) < m ->
  article_listed driver t l ->
  l ∈ links c.
Proof.
  intros Hrun Hsize Hl.
  destruct (article_collect_spec driver t m) as (r & Hr & Hc).
  rewrite Hrun in Hr. injection Hr as <-.
  destruct (Hc c eq_refl) as (_ & _ & Hcmp).
  destruct (Hcmp Hsize) as [_ Hall]. by apply Hall.
Qed.

Lemma article_collects_only_target_year_witness :
  article_listed sample_driver 2024 "https://znews.vn/b.html".
Proof.
  eapply (article_collects_only_target_year sample_driver 2024 200
            (mk_collected _ LoopCondition 50)).
  - vm_compute. reflexivity.
  - simpl. set_solver.
Defined.

Lemma article_collects_all_below_cap_witness :
  "https://znews.vn/b.html"
    ∈ ({[ "https://znews.vn/c.html"; "https://znews.vn/b.html" ]}
       : gset string).
Proof.
  apply (article_collects_all_below_cap sample_driver 2024 200
           (mk_collected _ LoopCondition 50)).
  - vm_compute. reflexivity.
  - vm_compute. reflexivity.
  - exists O, (listed "2024-12-30T08:00:00+0700" "https://znews.vn/b.html").
    split; [vm_compute; lia |]. split; [set_solver |].
    split; [vm_compute; reflexivity |]. split; [reflexivity | done].
Defined.

(** *** Where the scroll-based run ends *)

Lemma scroll_for_skip_newer (t m : Z) (pre items : list article_element)
    (links : gset string) :
  Forall (newer_than t) pre ->
  scroll_for (pre ++ items)%list t m links = scroll_for items t m links.
Proof.
  induction 1 as [|a pre (y & Hy & Hgt) _ IH]; [done |].
  rewrite <- app_comm_cons.
  by rewrite (scroll_for_newer a _ t m y).
Qed.

(** X13. The scroll-based run ends at the first item older than the
    target year that follows only newer items, with nothing collected
    and without scrolling, whatever stands after that item: items of
    the target year behind it are never reached. *)
Theorem older_item_ends_the_run (driver : browser) (t m y : Z)
    (articles pre : list article_element) (a : article_element)
    (rest : list article_element) :
  news_items (driver O) = Ok articles ->
  reverse articles = (pre ++ a :: rest)%list ->
  Forall (newer_than t) pre ->
  check_article_year a t = Some y -> y < t ->
  collect_links_scroll_based driver t m
  = Some (Ok (mk_collected ∅ (ReachedOlder y) O)).
Proof.
  intros Hitems Hrev Hpre Hy Hlt.
  unfold collect_links_scroll_based. rewrite scroll_while_step.
  rewrite bool_decide_true by (unfold Config.MAX_SCROLLS; lia).
  rewrite Hitems. cbn [try_except mbind result_bind]. rewrite Hrev.
  rewrite scroll_for_skip_newer by done.
  by rewrite (scroll_for_older a rest t m y).
Qed.

Lemma older_item_ends_the_run_witness :
  collect_links_scroll_based pinned_driver 2024 200
  = Some (Ok (mk_collected ∅ (ReachedOlder 2023) O)).
Proof.
  eapply (older_item_ends_the_run pinned_driver 2024 200 2023 _ []).
  - reflexivity.
  - reflexivity.
  - constructor.
  - vm_compute. reflexivity.
  - lia.
Defined.




End CollectFacts.

(** ** From the collectors to the links file *)

Module SaveFacts.
Import Notions Cases.
Import Py Disk Utils LinkCollector Spec Samples UtilsFacts.

(** X15. What [collect_and_save] writes can be read back: when the
    collected links are clean URLs and the call has written them to
    its file, [read_links_from_file] on that file gives the collected
    links, each exactly once, in the order in which the set was
    listed. *)
Theorem collect_and_save_writes_the_set (BASE_DIR : string)
    (site : string -> browser) (url output_file : string) (t m : Z)
    (method : string) (dk dk' : disk) (c : collected) :
  (if String.eqb method "scroll"
   then collect_links_scroll_based (site url) t m
   else collect_links_article_based (site url) t m) = Some (Ok c) ->
  links c <> ∅ ->
  (forall l, l ∈ links c -> clean_url l = true) ->
  collect_and_save BASE_DIR site url output_file t m method dk
    = Some (Ok dk') ->
  exists saved,
    read_links_from_file
      (Config.path_join (Config.LINKS_DIR BASE_DIR) output_file) dk'
    = Ok saved
    /\ NoDup saved /\ list_to_set saved = links c.
Proof.
  intros Hrun Hne Hclean Hsave. unfold collect_and_save in Hsave.
  rewrite Hrun in Hsave. cbn [mbind option_bind result_bind] in Hsave.
  rewrite bool_decide_true in Hsave by done. injection Hsave as Hsave.
  unfold save_links_to_file, write_text in Hsave.
  destruct (decide (_ ∈ unwritable dk)); [done |]. injection Hsave as <-.
  assert (Hall : Forall (fun u => clean_url u = true) (elements (links c))).
  { apply Forall_forall. intros u Hu. apply Hclean. by apply elem_of_elements. }
  exists (elements (links c)).
  rewrite (read_lines_file _ _ (elements (links c))).
  - rewrite kept_clean by done. split; [done |].
    split; [apply NoDup_elements | apply list_to_set_elements_L].
  - by apply clean_no_newline.
  - simpl. by rewrite lookup_insert_eq.
Qed.

Lemma collect_and_save_writes_the_set_witness :
  exists saved,
    read_links_from_file
      (Config.path_join (Config.LINKS_DIR "/srv/znews") "links.txt")
      (mk_disk Windows
         {[ "/srv/znews/data/links/links.txt"
            := translate_out Windows
                 (text_of_lines [ "https://znews.vn/c.html";
                                  "https://znews.vn/b.html" ]) ]} ∅)
    = Ok saved
    /\ NoDup saved
    /\ list_to_set saved
       = links (mk_collected
                  {[ "https://znews.vn/c.html"; "https://znews.vn/b.html" ]}
                  (ReachedOlder 2023) O).
Proof.
  apply (collect_and_save_writes_the_set "/srv/znews"
           (fun _ => sample_driver) "https://znews.vn/bong-da-viet-nam.html"
           "links.txt" 2024 200 "scroll" (mk_disk Windows ∅ ∅)).
  - vm_compute. reflexivity.
  - intros H. apply (f_equal size) in H. vm_compute in H. discriminate H.
  - intros l Hl. cbn [links] in Hl.
    apply elem_of_union in Hl as [Hl | Hl];
      apply elem_of_singleton in Hl; subst l; reflexivity.
  - vm_compute. reflexivity.
Defined.

(** X16. The URL [main] starts from: a configured category decides,
    whatever [--url] says; without a category a non-empty [--url] is
    taken; and the URL, when there is one, is never empty. *)
Theorem category_decides_the_url (category url : option string) :
  (forall c u, category = Some c -> Config.ZNEWS_URLS !! c = Some u ->
     determine_url category url = Some u)
  /\ (category = None ->
      determine_url category url = if truthy_str url then url else None)
  /\ (forall u, determine_url category url = Some u -> u <> "").
Proof.
  assert (Hvals : forall c u, Config.ZNEWS_URLS !! c = Some u ->
            c <> "" /\ u <> "").
  { intros c u Hc. unfold Config.ZNEWS_URLS in Hc.
    repeat (apply lookup_insert_Some in Hc as [[<- <-] | [_ Hc]];
            [done |]).
    by rewrite lookup_singleton_Some in Hc; destruct Hc as [<- <-]. }
  split; [| split].
  - intros c u -> Hc. destruct (Hvals c u Hc) as [Hne Hu].
    unfold determine_url. cbn [truthy_str default]. unfold id.
    replace (truthy c) with true by (by destruct c). rewrite Hc.
    cbn [truthy_str]. by replace (truthy u) with true by (by destruct u).
  - intros ->. reflexivity.
  - intros u. unfold determine_url.
    destruct (truthy_str category).
    + destruct (Config.ZNEWS_URLS !! default "" category) as [u'|] eqn:Hc;
        [| done].
      cbn [truthy_str]. destruct (truthy u') eqn:E; [| done].
      intros [= <-]. by destruct u'.
    + destruct url as [u'|]; [| done]. cbn [truthy_str].
      destruct (truthy u') eqn:E; [| done]. intros [= <-]. by destruct u'.
Qed.

Lemma category_decides_the_url_witness :
  determine_url (Some "bong_da") (Some "https://example.org/")
  = Some "https://znews.vn/bong-da-viet-nam.html".
Proof.
  apply (proj1 (category_decides_the_url (Some "bong_da")
                  (Some "https://example.org/")) "bong_da").
  - reflexivity.
  - vm_compute. reflexivity.
Defined.

End SaveFacts.

(** ** Article extraction, continued *)

Module ArticleExtras.
Import Notions Cases.
Import Py PyFacts Disk Utils ArticleCrawler Spec Samples UtilsExtras CrawlFacts.

(** X17. [get_article_content] raises only what the lookup of the
    summary raises, [NoSuchElementException] excepted.  Without a
    summary, or with an empty one, the content is the non-blank
    paragraphs alone; when the paragraphs cannot be read, it is the
    summary alone. *)
Theorem content_errors_and_fallbacks (page : article_page)
    (body : body_element) :
  (forall e, get_article_content page body = Raise e <->
             summary_text page = Raise e /\ e <> NoSuchElementException)
  /\ (summary_text page = Raise NoSuchElementException
      \/ summary_text page = Ok "" ->
      forall ps, paragraphs body = Ok ps ->
        get_article_content page body
        = Ok (join (String LF "") (filter (fun p => strip p <> "") ps)))
  /\ (forall e s, paragraphs body = Raise e ->
        summary_text page = Ok s \/
        (summary_text page = Raise NoSuchElementException /\ s = "") ->
        get_article_content page body = Ok s).
Proof.
  unfold get_article_content. split; [| split].
  - intros e. destruct (summary_text page) as [s|e'] eqn:Hs.
    + cbn [try_except mbind result_bind]. rewrite try_any_Exception.
      split; [done | by intros [? _]].
    + destruct e'; cbn [try_except is_NoSuchElement mbind result_bind];
        try rewrite try_any_Exception;
        (split; [intros [= <-]; by split | by intros [[= <-] ?]]).
  - intros Hs ps Hps.
    assert (Hsum : try_except (summary_text page) is_NoSuchElement
                     (fun _ => Ok "") = Ok "")
      by (destruct Hs as [-> | ->]; reflexivity).
    rewrite Hsum, Hps. cbn [try_except mbind result_bind truthy app].
    rewrite (list_filter_iff (fun p => truthy (strip p) = true)
               (fun p => strip p <> ""))
      by (intros p; apply ContentFacts.truthy_iff).
    reflexivity.
  - intros e s Hps Hs.
    assert (Hsum : try_except (summary_text page) is_NoSuchElement
                     (fun _ => Ok "") = Ok s)
      by (destruct Hs as [-> | [-> ->]]; reflexivity).
    rewrite Hsum, Hps. reflexivity.
Qed.

Lemma picture_links_truthy (srcs : list (result (option string))) :
  Forall (fun l => l <> "") (picture_links srcs).
Proof.
  induction srcs as [|[[src|]|e] rest IH]; simpl; try done.
  destruct (truthy src) eqn:E; [| done].
  constructor; [by destruct src | done].
Qed.

Lemma join_nonempty (sep p : string) (ps : list string) :
  p <> "" -> join sep (p :: ps) <> "".
Proof.
  intros Hp. destruct p as [|c p']; [done |].
  destruct ps; simpl; [done |]. by rewrite str_app_cons.
Qed.

Lemma strip_strip (s : string) : strip (strip s) = strip s.
Proof. destruct (strip_edges s). by apply strip_clean. Qed.

Lemma pictures_for_spec (pictures : list photo_wrapper) :
  forall acc pic_cap,
    pictures_for pictures acc = Ok pic_cap ->
    Forall image_entry_ok acc ->
    Forall image_entry_ok pic_cap
    /\ (length pic_cap <= length acc + length pictures)%nat.
Proof.
  induction pictures as [|p rest IH]; intros acc pic_cap Hrun Hacc.
  - injection Hrun as <-. split; [done | simpl; lia].
  - simpl in Hrun. destruct (photo_text p) as [text|e]; [| done].
    cbn [mbind result_bind] in Hrun.
    pose proof (picture_links_truthy (img_srcs p)) as Hl.
    destruct (picture_links (img_srcs p)) as [|l ls] eqn:El.
    + destruct (IH _ _ Hrun Hacc). split; [done | simpl; lia].
    + destruct (IH _ _ Hrun) as [Hok Hlen].
      * apply Forall_app. split; [done |]. constructor; [| done].
        split; simpl; [| apply strip_strip].
        apply join_nonempty. by inversion Hl.
      * split; [done |]. rewrite length_app in Hlen. simpl in *. lia.
Qed.

Lemma pictures_for_raises (pictures : list photo_wrapper) :
  Exists (fun p => exists e, photo_text p = Raise e) pictures ->
  forall acc, exists e, pictures_for pictures acc = Raise e.
Proof.
  induction 1 as [p rest (e & He) | p rest _ IH]; intros acc; simpl.
  - rewrite He. by exists e.
  - destruct (photo_text p) as [text|e]; [| by exists e].
    cbn [mbind result_bind]. destruct (picture_links _); apply IH.
Qed.

Lemma get_article_images_returns (page : article_page)
    (body : body_element) :
  exists pic_cap, get_article_images page body = Ok pic_cap.
Proof. unfold get_article_images. rewrite try_any_Exception. eauto. Qed.

(** X18. [get_article_images] returns for every page, at most one
    entry per photo block, each with a non-empty string of image
    sources and a caption without blanks at its ends; a block whose
    images all lack a source gives no entry. *)
Theorem image_entries_are_well_formed (page : article_page)
    (body : body_element) :
  exists pic_cap,
    get_article_images page body = Ok pic_cap
    /\ Forall image_entry_ok pic_cap
    /\ (forall pictures, photo_wrappers body = Ok pictures ->
          (length pic_cap <= length pictures)%nat).
Proof.
  unfold get_article_images. rewrite try_any_Exception.
  eexists. split; [reflexivity |].
  destruct (image_scrolls page) as [[]|e]; cbn [mbind result_bind];
    [| split; [constructor | intros; simpl; lia]].
  destruct (photo_wrappers body) as [pictures|e]; cbn [mbind result_bind];
    [| split; [constructor | intros; simpl; lia]].
  destruct (pictures_for pictures []) as [pic_cap|e] eqn:Hrun;
    [| split; [constructor | intros; simpl; lia]].
  destruct (pictures_for_spec pictures [] pic_cap Hrun) as [Hok Hlen];
    [constructor |].
  split; [exact Hok |]. by intros ? [= <-].
Qed.

(** X19. When the text of one photo block cannot be read, or the
    scrolling that loads the images fails, [get_article_images] returns
    the empty list: the images of the other blocks are lost with it. *)
Theorem one_failing_caption_loses_all_images (page : article_page)
    (body : body_element) :
  ((exists e, image_scrolls page = Raise e)
   \/ exists pictures,
        photo_wrappers body = Ok pictures
        /\ Exists (fun p => exists e, photo_text p = Raise e) pictures) ->
  get_article_images page body = Ok [].
Proof.
  intros H. unfold get_article_images. rewrite try_any_Exception. f_equal.
  destruct H as [[e ->] | (pictures & Hp & Hex)]; [done |].
  destruct (image_scrolls page) as [[]|e]; [| done].
  cbn [mbind result_bind]. rewrite Hp. cbn [mbind result_bind].
  by destruct (pictures_for_raises pictures Hex []) as [e ->].
Qed.

Lemma one_failing_caption_loses_all_images_witness :
  get_article_images complete half_captioned = Ok [].
Proof.
  apply (one_failing_caption_loses_all_images complete half_captioned).
  right. eexists. split; [reflexivity |].
  apply Exists_cons_tl, Exists_cons_hd. by eexists.
Defined.

(** X20. [crawl_article] gives a record exactly when the page loads,
    title and body are found and the content can be extracted; the
    record holds the requested URL, the title text, that content and
    the image entries. *)
Theorem crawl_article_record_iff (page : article_page) (url : string)
    (data : article_data) :
  crawl_article page url = Ok (Some data) <->
  page_load page = Ok ()
  /\ exists title_text body content pic_cap,
       ArticleCrawler.title_text page = Ok title_text
       /\ article_body page = Ok body
       /\ get_article_content page body = Ok content
       /\ get_article_images page body = Ok pic_cap
       /\ data = mk_article_data url title_text content pic_cap.
Proof.
  unfold crawl_article. rewrite try_any_Exception. split.
  - intros [= H]. destruct (page_load page) as [[]|e]; [| done].
    split; [done |]. cbn [mbind result_bind] in H.
    destruct (title_text page) as [ti|e]; [| by destruct e].
    destruct (article_body page) as [body|e]; [| by destruct e].
    destruct (get_article_content page body) as [content|e] eqn:Hc; [| done].
    cbn [mbind result_bind] in H.
    destruct (get_article_images_returns page body) as [pic_cap Hi].
    rewrite Hi in H. cbn [mbind result_bind] in H. injection H as <-.
    by exists ti, body, content, pic_cap.
  - intros (Hl & ti & body & content & pic_cap & Ht & Hb & Hc & Hi & ->).
    rewrite Hl. cbn [mbind result_bind]. rewrite Ht, Hb, Hc.
    cbn [mbind result_bind]. rewrite Hi. reflexivity.
Qed.

End ArticleExtras.

(** ** Crawling a links file, continued *)

Module CrawlExtras.
Import Notions Cases.
Import Py PyFacts Disk Utils ArticleCrawler Spec Samples CrawlFacts.

Lemma str_app_length (s t : string) :
  String.length (s +:+ t) = (String.length s + String.length t)%nat.
Proof.
  induction s as [|c s IH]; [done |]. rewrite str_app_cons. simpl.
  by rewrite IH.
Qed.

Lemma str_app_inv_r (t : string) :
  forall s1 s2, s1 +:+ t = s2 +:+ t -> s1 = s2.
Proof.
  induction s1 as [|c s1 IH]; intros [|c' s2] H; try done.
  - apply (f_equal String.length) in H.
    rewrite !str_app_length in H. simpl in H. lia.
  - apply (f_equal String.length) in H.
    rewrite !str_app_length in H. simpl in H. lia.
  - rewrite !str_app_cons in H. injection H as -> H. f_equal. by apply IH.
Qed.

Lemma article_path_inj (dir : string) (i j : Z) :
  article_path dir i = article_path dir j -> i = j.
Proof.
  unfold article_path, Config.path_join. intros H.
  do 2 apply (inj (String.app _)) in H.
  apply str_app_inv_r in H. by apply (inj pretty) in H.
Qed.

Section Trace.
Variable json_dump : article_data -> string.
Variable web : string -> article_page.

(** Everything one run of the loop does, by induction on the links. *)
Lemma crawl_for_trace (dir : string) (max_articles : Z) :
  forall (links : list string) (st : crawl_state),
  exists st' vis cr idx,
    crawl_for json_dump web links dir max_articles st = Ok st'
    /\ visited st' = (visited st ++ vis)%list
    /\ vis `prefix_of` links
    /\ (count st' < max_articles -> vis = links)
    /\ crawled st' = (crawled st ++ cr)%list
    /\ cr `sublist_of` vis
    /\ saved st' = (saved st ++ map (article_path dir) idx)%list
    /\ Forall (fun i => count st <= i < count st') idx
    /\ NoDup idx
    /\ successful st' = successful st + Z.of_nat (length idx)
    /\ (length idx <= length cr)%nat
    /\ count st' = count st + Z.of_nat (length cr)
    /\ os (dk st') = os (dk st)
    /\ unwritable (dk st') = unwritable (dk st)
    /\ (forall p, p ∉ map (article_path dir) idx ->
          files (dk st') !! p = files (dk st) !! p)
    /\ (forall i, i ∈ idx -> is_Some (files (dk st') !! article_path dir i)).
Proof.
  induction links as [|link rest IH]; intros st.
  - exists st, [], [], []. cbn. rewrite !app_nil_r.
    repeat split; try done; try lia; try constructor.
    intros i Hi. by apply elem_of_nil in Hi.
  - destruct (decide (count st >= max_articles)) as [Hfull | Hroom].
    + exists st, [], [], []. rewrite crawl_for_full by done. cbn.
      rewrite !app_nil_r.
      repeat split; try done; try lia; try constructor.
      * apply prefix_nil.
      * intros i Hi. by apply elem_of_nil in Hi.
    + destruct (crawl_article_returns (web link) link) as [[data|] Hr].
      * rewrite (crawl_for_extracted json_dump web link rest dir
                   max_articles st data) by (lia || done).
        cbv zeta. fold (article_path dir (count st)).
        destruct (decide (article_path dir (count st) ∈ unwritable (dk st)))
          as [Hu | Hw].
        -- match goal with
           | |- context [crawl_for _ _ rest _ _ ?s] =>
               destruct (IH s)
                 as (st' & vis & cr & idx & -> & Hv & Hp & Hall & Hc & Hs
                     & Hsv & Hidx & Hnd & Hsucc & Hlen & Hcnt & Hos & Hun
                     & Hframe & Hsome)
           end.
           cbn in *. exists st', (link :: vis), (link :: cr), idx.
           split; [done |]. rewrite <- !app_assoc in *. cbn in *.
           repeat split; try done; try lia.
           ++ by apply prefix_cons.
           ++ intros H. f_equal. by apply Hall.
           ++ by apply sublist_skip.
           ++ eapply Forall_impl; [exact Hidx |]. cbn. intros; lia.
        -- match goal with
           | |- context [crawl_for _ _ rest _ _ ?s] =>
               destruct (IH s)
                 as (st' & vis & cr & idx & -> & Hv & Hp & Hall & Hc & Hs
                     & Hsv & Hidx & Hnd & Hsucc & Hlen & Hcnt & Hos & Hun
                     & Hframe & Hsome)
           end.
           cbn in *. exists st', (link :: vis), (link :: cr),
                       (count st :: idx).
           split; [done |]. rewrite <- !app_assoc in *. cbn in *.
           assert (Hfresh : count st ∉ idx).
           { intros Hin. rewrite Forall_forall in Hidx.
             specialize (Hidx _ Hin). cbn in Hidx. lia. }
           assert (Hpath : article_path dir (count st)
                           ∉ map (article_path dir) idx).
           { intros Hin. apply list_elem_of_fmap in Hin as (j & Hj & Hin).
             apply article_path_inj in Hj. by subst j. }
           repeat split; try done; try lia.
           ++ by apply prefix_cons.
           ++ intros H. f_equal. by apply Hall.
           ++ by apply sublist_skip.
           ++ constructor; [lia |].
              eapply Forall_impl; [exact Hidx |]. cbn. intros; lia.
           ++ by constructor.
           ++ intros p Hp'. apply not_elem_of_cons in Hp' as [Hne Hp'].
              rewrite (Hframe p Hp'). by apply lookup_insert_ne.
           ++ intros i [-> | Hi]%elem_of_cons; [| by apply Hsome].
              rewrite (Hframe _ Hpath). rewrite lookup_insert_eq. by eexists.
      * rewrite (crawl_for_skip json_dump web link rest dir max_articles st)
          by (lia || done).
        match goal with
        | |- context [crawl_for _ _ rest _ _ ?s] =>
            destruct (IH s)
              as (st' & vis & cr & idx & -> & Hv & Hp & Hall & Hc & Hs
                  & Hsv & Hidx & Hnd & Hsucc & Hlen & Hcnt & Hos & Hun
                  & Hframe & Hsome)
        end.
        cbn in *. exists st', (link :: vis), cr, idx.
        split; [done |]. rewrite <- !app_assoc in *. cbn in *.
        repeat split; try done; try lia.
        -- by apply prefix_cons.
        -- intros H. f_equal. by apply Hall.
        -- by apply sublist_cons.
Qed.

Lemma crawl_for_all_fail (dir : string) (max_articles : Z) :
  forall (links : list string) (st : crawl_state),
    count st < max_articles ->
    (forall u, u ∈ links -> crawl_article (web u) u = Ok None) ->
    crawl_for json_dump web links dir max_articles st
    = Ok (mk_state (dk st) (count st) (successful st)
            (visited st ++ links) (crawled st) (saved st)).
Proof.
  induction links as [|link rest IH]; intros st Hc Hnone.
  - cbn. rewrite app_nil_r. by destruct st.
  - rewrite (crawl_for_skip json_dump web link rest dir max_articles st)
      by first [done | apply Hnone; apply list_elem_of_here].
    rewrite IH; cbn; [| done |].
    + by rewrite <- app_assoc.
    + intros u Hu. apply Hnone. by apply list_elem_of_further.
Qed.

(** X21. The loop of [crawl_from_file], started as the function
    starts it, returns for every list of links, and what it logs fits
    together: the links visited are the first links of the list, in
    order; the links that gave a record are among them, in order; the
    index has advanced by one for each record; [successful] counts the
    saves that reported success, at most one per record; and links are
    left unvisited only when the index has reached max_articles. *)
Theorem crawl_logs_are_consistent (output_dir : string)
    (start_count max_articles : Z) (dk0 : disk) (links : list string) :
  exists st,
    crawl_for json_dump web links output_dir max_articles
      (mk_state dk0 start_count 0 [] [] []) = Ok st
    /\ visited st `prefix_of` links
    /\ crawled st `sublist_of` visited st
    /\ count st = start_count + Z.of_nat (length (crawled st))
    /\ successful st = Z.of_nat (length (saved st))
    /\ (length (saved st) <= length (crawled st))%nat
    /\ (count st < max_articles -> visited st = links).
Proof.
  destruct (crawl_for_trace output_dir max_articles links
              (mk_state dk0 start_count 0 [] [] []))
    as (st & vis & cr & idx & Hrun & Hv & Hp & Hall & Hc & Hs
        & Hsv & _ & _ & Hsucc & Hlen & Hcnt & _).
  cbn in Hv, Hc, Hsv, Hsucc, Hcnt. exists st. split; [exact Hrun |].
  rewrite Hv, Hc, Hsv, Hsucc, length_map.
  repeat split; first [done | lia].
Qed.

(** X22. The saves that report success in one run of the loop went to
    files named <index>.json in the output directory, with pairwise
    distinct indices from start_count up to the final index: no record
    is saved over another one of the same run, and each of these files
    is there when the loop ends. *)
Theorem saved_records_get_distinct_files (output_dir : string)
    (start_count max_articles : Z) (dk0 : disk) (links : list string) :
  exists st idx,
    crawl_for json_dump web links output_dir max_articles
      (mk_state dk0 start_count 0 [] [] []) = Ok st
    /\ saved st = map (article_path output_dir) idx
    /\ Forall (fun i => start_count <= i < count st) idx
    /\ NoDup idx
    /\ NoDup (saved st)
    /\ (forall p, p ∈ saved st -> is_Some (files (dk st) !! p)).
Proof.
  destruct (crawl_for_trace output_dir max_articles links
              (mk_state dk0 start_count 0 [] [] []))
    as (st & vis & cr & idx & Hrun & _ & _ & _ & _ & _
        & Hsv & Hidx & Hnd & _ & _ & _ & _ & _ & _ & Hsome).
  cbn in Hsv, Hidx. exists st, idx.
  split; [exact Hrun |]. rewrite Hsv. repeat split; try done.
  - apply NoDup_fmap_2_strong; [| exact Hnd].
    intros i j _ _. apply article_path_inj.
  - intros p (i & -> & Hi)%list_elem_of_fmap. by apply Hsome.
Qed.

(** X23. Links that give no record cost nothing: when every
    extraction fails, the loop visits all links of the list whatever
    max_articles is (above start_count), the index stays at
    start_count and no save is reported. *)
Theorem failed_extractions_do_not_count (output_dir : string)
    (start_count max_articles : Z) (dk0 : disk) (links : list string) :
  start_count < max_articles ->
  (forall u, u ∈ links -> crawl_article (web u) u = Ok None) ->
  exists st,
    crawl_for json_dump web links output_dir max_articles
      (mk_state dk0 start_count 0 [] [] []) = Ok st
    /\ visited st = links
    /\ count st = start_count
    /\ successful st = 0
    /\ crawled st = [] /\ saved st = [].
Proof.
  intros Hlt Hnone. rewrite crawl_for_all_fail by done.
  eexists. split; [reflexivity |]. by cbn.
Qed.

End Trace.

Lemma failed_extractions_do_not_count_witness :
  exists st,
    crawl_for sample_dump (fun _ => untitled)
      [ "https://znews.vn/1.html"; "https://znews.vn/2.html";
        "https://znews.vn/3.html" ]
      "/srv/znews/data/articles/general" 2
      (mk_state sample_disk 0 0 [] [] []) = Ok st
    /\ visited st = [ "https://znews.vn/1.html"; "https://znews.vn/2.html";
                      "https://znews.vn/3.html" ]
    /\ count st = 0
    /\ successful st = 0
    /\ crawled st = [] /\ saved st = [].
Proof.
  apply (failed_extractions_do_not_count sample_dump (fun _ => untitled)
           "/srv/znews/data/articles/general" 0 2 sample_disk).
  - lia.
  - intros u _. reflexivity.
Defined.

End CrawlExtras.

(** ** A listing in the expected order, and the two programs together *)

Module PipelineFacts.
Import Notions Cases.
Import Py Disk Utils LinkCollector ArticleCrawler Spec Samples.
Import UtilsFacts YearFacts ScrollFacts CollectFacts CrawlFacts CrawlExtras.

Lemma scroll_for_targets (t m : Z) (targets items : list article_element) :
  forall links : gset string,
    Forall (settled_target t) targets ->
    Z.of_nat (size (all_thumbnail_links targets ∪ links)) < m ->
    scroll_for (targets ++ items)%list t m links
    = scroll_for items t m (all_thumbnail_links targets ∪ links).
Proof.
  unfold all_thumbnail_links.
  induction targets as [|a targets IH]; intros links Hall Hsize.
  - cbn. by rewrite union_empty_l_L.
  - inversion Hall as [|? ? [Hy Hset] Hrest]; subst.
    rewrite fmap_cons, union_list_cons in *. rewrite <- app_comm_cons.
    assert (Hsub : (size (thumbnail_links a ∪ links)
                    <= size (thumbnail_links a
                             ∪ ⋃ (thumbnail_links <$> targets) ∪ links))%nat).
    { apply subseteq_size. clear. set_solver. }
    rewrite (scroll_for_target_below a) by first [done | lia].
    rewrite IH; [f_equal; clear; set_solver | done |].
    replace (⋃ (thumbnail_links <$> targets) ∪ (thumbnail_links a ∪ links))
      with (thumbnail_links a ∪ ⋃ (thumbnail_links <$> targets) ∪ links)
      by (clear; set_solver).
    done.
Qed.

(** X25. On a listing read in the expected order (newer items, then
    the items of the target year, then an older one) the scroll-based
    collector returns, without scrolling, exactly the links of all the
    items of the target year, provided max_links exceeds their
    number. *)
Theorem ordered_listing_is_collected_whole (driver : browser) (t m y : Z)
    (articles newer targets : list article_element) (a : article_element)
    (rest : list article_element) :
  news_items (driver O) = Ok articles ->
  reverse articles = (newer ++ targets ++ a :: rest)%list ->
  Forall (newer_than t) newer ->
  Forall (settled_target t) targets ->
  check_article_year a t = Some y -> y < t ->
  Z.of_nat (size (all_thumbnail_links targets)) < m ->
  collect_links_scroll_based driver t m
  = Some (Ok (mk_collected (all_thumbnail_links targets)
                (ReachedOlder y) O)).
Proof.
  intros Hitems Hrev Hnew Htar Hy Hlt Hsize.
  unfold collect_links_scroll_based. rewrite scroll_while_step.
  rewrite bool_decide_true by (unfold Config.MAX_SCROLLS; lia).
  rewrite Hitems. cbn [try_except mbind result_bind]. rewrite Hrev.
  rewrite scroll_for_skip_newer by done.
  rewrite scroll_for_targets by (by rewrite ?union_empty_r_L).
  rewrite union_empty_r_L.
  by rewrite (scroll_for_older a rest t m y).
Qed.

Lemma ordered_listing_is_collected_whole_witness :
  collect_links_scroll_based sample_driver 2024 200
  = Some (Ok (mk_collected
                (all_thumbnail_links
                   [ listed "2024-12-31T08:00:00+0700"
                       "https://znews.vn/c.html";
                     listed "2024-12-30T08:00:00+0700"
                       "https://znews.vn/b.html" ])
                (ReachedOlder 2023) O)).
Proof.
  apply (ordered_listing_is_collected_whole sample_driver 2024 200 2023
           (reverse sample_items)
           [ listed "2025-01-02T08:00:00+0700" "https://znews.vn/d.html" ]
           _ (listed "2023-12-29T08:00:00+0700" "https://znews.vn/a.html")
           []).
  - reflexivity.
  - reflexivity.
  - constructor; [| constructor]. exists 2025.
    split; [vm_compute; reflexivity | lia].
  - repeat constructor; try (vm_compute; reflexivity);
      intros e H; discriminate H.
  - vm_compute. reflexivity.
  - lia.
  - vm_compute. reflexivity.
Defined.

Section Pipeline.
Variable json_dump : article_data -> string.
Variable web : string -> article_page.

(** X26. The two programs fit together: when [collect_and_save] has
    written clean links to its file, [read_links_from_file] reads from
    that file a list on which the loop of [crawl_from_file] visits
    collected links only, each at most once, and all of them unless the
    index reaches max_articles. *)
Theorem crawler_visits_the_collected_links (BASE_DIR : string)
    (site : string -> browser) (url output_file : string) (t m : Z)
    (method output_dir : string) (start_count max_articles : Z)
    (dk dk' dk1 : disk) (c : collected) :
  (if String.eqb method "scroll"
   then collect_links_scroll_based (site url) t m
   else collect_links_article_based (site url) t m) = Some (Ok c) ->
  links c <> ∅ ->
  (forall l, l ∈ links c -> clean_url l = true) ->
  collect_and_save BASE_DIR site url output_file t m method dk
    = Some (Ok dk') ->
  exists read st,
    read_links_from_file
      (Config.path_join (Config.LINKS_DIR BASE_DIR) output_file) dk'
    = Ok read
    /\ crawl_for json_dump web read output_dir max_articles
         (mk_state dk1 start_count 0 [] [] []) = Ok st
    /\ NoDup (visited st)
    /\ (forall u, u ∈ visited st -> u ∈ links c)
    /\ (count st < max_articles ->
        forall u, u ∈ links c -> u ∈ visited st).
Proof.
  intros Hrun Hne Hclean Hsave.
  assert (Hread : read_links_from_file
                    (Config.path_join (Config.LINKS_DIR BASE_DIR) output_file)
                    dk' = Ok (elements (links c))).
  { unfold collect_and_save in Hsave. rewrite Hrun in Hsave.
    cbn [mbind option_bind result_bind] in Hsave.
    rewrite bool_decide_true in Hsave by done.
    injection Hsave as Hsave.
    unfold save_links_to_file, write_text in Hsave.
    destruct (decide (_ ∈ unwritable dk)); [done |]. injection Hsave as <-.
    assert (Hall : Forall (fun u => clean_url u = true) (elements (links c))).
    { apply Forall_forall. intros u Hu. apply Hclean.
      by apply elem_of_elements. }
    rewrite (read_lines_file _ _ (elements (links c))).
    - by rewrite kept_clean.
    - by apply clean_no_newline.
    - simpl. by rewrite lookup_insert_eq. }
  destruct (crawl_for_trace json_dump web output_dir max_articles
              (elements (links c)) (mk_state dk1 start_count 0 [] [] []))
    as (st & vis & cr & idx & Hst & Hv & Hp & Hall & _).
  cbn in Hv. exists (elements (links c)), st.
  split; [exact Hread |]. split; [exact Hst |]. rewrite Hv.
  destruct Hp as [k Hk]. pose proof (NoDup_elements (links c)) as Hnd.
  rewrite Hk in Hnd. apply NoDup_app in Hnd as (Hnd & _ & _).
  split; [exact Hnd |]. split.
  - intros u Hu. apply elem_of_elements. rewrite Hk.
    apply elem_of_app. by left.
  - intros Hc u Hu. rewrite (Hall Hc). by apply elem_of_elements.
Qed.

End Pipeline.

Lemma crawler_visits_the_collected_links_witness :
  exists read st,
    read_links_from_file
      (Config.path_join (Config.LINKS_DIR "/srv/znews") "links.txt")
      (mk_disk Posix
         {[ "/srv/znews/data/links/links.txt"
            := text_of_lines [ "https://znews.vn/c.html";
                               "https://znews.vn/b.html" ] ]} ∅)
    = Ok read
    /\ crawl_for sample_dump (fun _ => complete) read
         "/srv/znews/data/articles/bong_da" 200
         (mk_state (mk_disk Posix ∅ ∅) 0 0 [] [] []) = Ok st
    /\ NoDup (visited st)
    /\ (forall u, u ∈ visited st ->
          u ∈ links (mk_collected
                       {[ "https://znews.vn/c.html";
                          "https://znews.vn/b.html" ]}
                       (ReachedOlder 2023) O))
    /\ (count st < 200 ->
        forall u,
          u ∈ links (mk_collected
                       {[ "https://znews.vn/c.html";
                          "https://znews.vn/b.html" ]}
                       (ReachedOlder 2023) O) ->
          u ∈ visited st).
Proof.
  apply (crawler_visits_the_collected_links sample_dump (fun _ => complete)
           "/srv/znews" (fun _ => sample_driver)
           "https://znews.vn/bong-da-viet-nam.html"
           "links.txt" 2024 200 "scroll" "/srv/znews/data/articles/bong_da"
           0 200 (mk_disk Posix ∅ ∅)).
  - vm_compute. reflexivity.
  - intros H. apply (f_equal size) in H. vm_compute in H. discriminate H.
  - intros l Hl. cbn [links] in Hl.
    apply elem_of_union in Hl as [Hl | Hl];
      apply elem_of_singleton in Hl; subst l; reflexivity.
  - vm_compute. reflexivity.
Defined.

End PipelineFacts.

(** ** The image entries, in full *)

Module ImageFacts.
Import Notions Cases.
Import Py ArticleCrawler Spec Samples CrawlFacts.

Lemma picture_links_readable (srcs : list (option string)) :
  picture_links (Ok <$> srcs) = block_sources srcs.
Proof.
  unfold block_sources.
  induction srcs as [|[src|] srcs IH]; [done | | exact IH].
  cbn [fmap list_fmap picture_links omap list_omap id].
  rewrite filter_cons. destruct src as [|ch src].
  - cbn [truthy]. by rewrite decide_False by (intros H; by apply H).
  - cbn [truthy]. rewrite decide_True by done. by rewrite IH.
Qed.

Lemma pictures_for_readable (blocks : list (list (option string) * string)) :
  forall acc,
    pictures_for (map (fun b => readable_block b.1 b.2) blocks) acc
    = Ok (acc ++ flat_map (fun b => block_entry b.1 b.2) blocks)%list.
Proof.
  induction blocks as [|[srcs text] blocks IH]; intros acc.
  - cbn. by rewrite app_nil_r.
  - cbn [map flat_map pictures_for readable_block img_srcs photo_text
         mbind result_bind fst snd].
    unfold block_entry at 1. cbn [fst snd].
    rewrite picture_links_readable.
    destruct (block_sources srcs) as [|l ls].
    + by rewrite IH.
    + rewrite IH. by rewrite <- app_assoc.
Qed.

(** X27. When the image scrolling and every photo block are read
    without error, the images are, block by block in document order,
    all the sources of the block's images that are present and not
    empty, joined by ", ", with the stripped text of the block; blocks
    without such a source are left out. *)
Theorem images_follow_the_blocks (page : article_page) (body : body_element)
    (blocks : list (list (option string) * string)) :
  image_scrolls page = Ok () ->
  photo_wrappers body
    = Ok (map (fun b => readable_block b.1 b.2) blocks) ->
  get_article_images page body
  = Ok (flat_map (fun b => block_entry b.1 b.2) blocks).
Proof.
  intros Hs Hb. unfold get_article_images. rewrite try_any_Exception.
  rewrite Hs, Hb. cbn [mbind result_bind].
  by rewrite pictures_for_readable.
Qed.

Lemma images_follow_the_blocks_witness :
  get_article_images complete
    (mk_body (Ok [])
       (Ok [ readable_block
               [Some "a.jpg"; None; Some "b.jpg"; Some ""; Some "c.jpg"]
               " Three ";
             readable_block [None; Some ""] "None" ]))
  = Ok [("a.jpg, b.jpg, c.jpg", "Three")].
Proof.
  apply (images_follow_the_blocks complete _
           [ ([Some "a.jpg"; None; Some "b.jpg"; Some ""; Some "c.jpg"],
              " Three ");
             ([None; Some ""], "None") ]);
    reflexivity.
Defined.

End ImageFacts.
